(** * buck_parser/buck.py: the build-file interpreter worker

    A shallow embedding of the Python DSL worker of Buck
    ([python-dsl/buck_parser/buck.py]) and the properties of its context
    model, built-in functions, user-defined rule factories, include cache
    and response encoding.

    Python objects with identity (contexts, modules, rule factories, the
    inner dictionaries of [used_configs]) live in an explicit store and are
    referred to by location; dictionaries whose iteration order is never
    observed are [gmap]s, sets are [gset]s, the rules of a build file are
    an association list in insertion order. *)

From stdpp Require Import gmap strings list fin_maps sets pretty sorting.
From Stdlib Require Import ZArith Ascii String.

#[local] Set Warnings "-register-all".
#[local] Open Scope string_scope.

(** ** Python values and exceptions *)

(** The JSON-compatible values that flow through the worker. [VStr] is the
    host [str]; [VUnicode] is the text type the Python 2 JSON parser
    returns (a list of code points), which [read_config] and [glob] coerce
    to [str]. *)
Inductive value :=
  | VNone
  | VBool (b : bool)
  | VInt (n : Z)
  | VStr (s : string)
  | VUnicode (cps : list N)
  | VList (l : list value)
  | VDict (d : gmap string value).

Definition is_none (v : value) : bool :=
  match v with VNone => true | _ => false end.

(** [isinstance(v, str)] *)
Definition is_str (v : value) : bool :=
  match v with VStr _ => true | _ => false end.

(** [d.get(k)] of a Python dictionary: [None] when the key is missing. *)
Definition dict_get (d : gmap string value) (k : string) : value :=
  default VNone (d !! k).

Inductive exn :=
  | ValueError (msg : string)
  | KeyError (msg : string)
  | AssertionError (msg : string)
  | AttributeError (msg : string)
  | BuildFileFailError (msg : string)
  | IOError (msg : string)
  | WatchmanError (msg : string)
  | TypeError (msg : string)
  | NameError (msg : string)
  | RecursionError.

Inductive result (A : Type) :=
  | Ok (a : A)
  | Raise (e : exn).
Arguments Ok {A} a.
Arguments Raise {A} e.

Definition is_raise {A} (r : result A) : bool :=
  match r with Raise _ => true | Ok _ => false end.

(** The double-quote character, as a string. *)
Definition dquote : string := String (ascii_of_N 34) EmptyString.

(** [sub in s] for strings. *)
Definition contains (s sub : string) : Prop :=
  ∃ pre post, s = pre +:+ sub +:+ post.

(** *** UTF-8 encoding, [u.encode("utf-8")] *)

Definition byte_of_N (n : N) : ascii := ascii_of_N (n mod 256).

Definition utf8_encode_cp (cp : N) : list ascii :=
  if (cp <? 128)%N then [byte_of_N cp]
  else if (cp <? 2048)%N then
    [byte_of_N (192 + cp / 64); byte_of_N (128 + cp mod 64)]
  else if (cp <? 65536)%N then
    [byte_of_N (224 + cp / 4096); byte_of_N (128 + (cp / 64) mod 64);
     byte_of_N (128 + cp mod 64)]
  else
    [byte_of_N (240 + cp / 262144); byte_of_N (128 + (cp / 4096) mod 64);
     byte_of_N (128 + (cp / 64) mod 64); byte_of_N (128 + cp mod 64)].

Definition utf8_encode (cps : list N) : string :=
  string_of_list_ascii (List.concat (List.map utf8_encode_cp cps)).

(** [v.encode("utf-8")]: only text values have the method. *)
Definition encode_utf8 (v : value) : result value :=
  match v with
  | VUnicode cps => Ok (VStr (utf8_encode cps))
  | VStr s => Ok (VStr s)
  | _ => Raise (AttributeError "object has no attribute 'encode'")
  end.

(** *** Host library *)

(** The functions of the Python runtime the worker calls but does not
    define: [repr] and [os.path]. *)
Class Host := {
  repr : value → string;
  path_join : string → string → string;
  normpath : string → string;
  path_dirname : string → string;
  relpath : string → string → string;
}.

(** [str(v)] *)
Definition str `{Host} (v : value) : string :=
  match v with VStr s => s | _ => repr v end.

(** ** host_info *)

Record HostInfoOs := {
  is_linux : bool; is_macos : bool; is_windows : bool; is_freebsd : bool;
  os_is_unknown : bool
}.

Record HostInfoArch := {
  is_aarch64 : bool; is_arm : bool; is_armeb : bool; is_i386 : bool;
  is_mips : bool; is_mips64 : bool; is_mipsel : bool; is_mipsel64 : bool;
  is_powerpc : bool; is_ppc64 : bool; arch_is_unknown : bool;
  is_x86_64 : bool
}.

Record HostInfo := { os : HostInfoOs; arch : HostInfoArch }.

Definition __supported_oses : gmap string string :=
  list_to_map [("darwin", "macos"); ("windows", "windows");
               ("linux", "linux"); ("freebsd", "freebsd")].

Definition __supported_archs : gmap string string :=
  list_to_map [("aarch64", "aarch64"); ("arm", "arm"); ("armeb", "armeb");
               ("i386", "i386"); ("mips", "mips"); ("mips64", "mips64");
               ("mipsel", "mipsel"); ("mipsel64", "mipsel64");
               ("powerpc", "powerpc"); ("ppc64", "ppc64");
               ("unknown", "unknown"); ("x86_64", "x86_64");
               ("amd64", "x86_64"); ("arm64", "aarch64")].

(** [c.lower()] on one byte: the ASCII capitals move down, the rest stays. *)
Definition lower_ascii (c : ascii) : ascii :=
  let n := N_of_ascii c in
  if ((65 <=? n) && (n <=? 90))%N then ascii_of_N (n + 32) else c.

Fixpoint lower (s : string) : string :=
  match s with
  | EmptyString => EmptyString
  | String c s' => String (lower_ascii c) (lower s')
  end.

Definition host_info (platform_system platform_machine : string) : HostInfo :=
  let host_arch := default "unknown" (__supported_archs !! lower platform_machine) in
  let host_os := default "unknown" (__supported_oses !! lower platform_system) in
  {| os := {| is_linux := String.eqb host_os "linux";
              is_macos := String.eqb host_os "macos";
              is_windows := String.eqb host_os "windows";
              is_freebsd := String.eqb host_os "freebsd";
              os_is_unknown := String.eqb host_os "unknown" |};
     arch := {| is_aarch64 := String.eqb host_arch "aarch64";
                is_arm := String.eqb host_arch "arm";
                is_armeb := String.eqb host_arch "armeb";
                is_i386 := String.eqb host_arch "i386";
                is_mips := String.eqb host_arch "mips";
                is_mips64 := String.eqb host_arch "mips64";
                is_mipsel := String.eqb host_arch "mipsel";
                is_mipsel64 := String.eqb host_arch "mipsel64";
                is_powerpc := String.eqb host_arch "powerpc";
                is_ppc64 := String.eqb host_arch "ppc64";
                arch_is_unknown := String.eqb host_arch "unknown";
                is_x86_64 := String.eqb host_arch "x86_64" |} |}.

(** Two strings that differ only in the case of their ASCII letters. *)
Definition same_letter (c d : ascii) : bool :=
  let n := N_of_ascii c in
  let m := N_of_ascii d in
  (n =? m)%N
  || ((65 <=? n) && (n <=? 90) && (m =? n + 32))%N
  || ((65 <=? m) && (m <=? 90) && (n =? m + 32))%N.

Fixpoint same_ignoring_case (s t : string) : bool :=
  match s, t with
  | EmptyString, EmptyString => true
  | String c s', String d t' => same_letter c d && same_ignoring_case s' t'
  | _, _ => false
  end.

(** ** The result monad *)

#[global] Instance result_ret : MRet result := λ _ a, Ok a.
#[global] Instance result_bind : MBind result := λ _ _ f m,
  match m with Ok a => f a | Raise e => Raise e end.

(** A [for] loop over a list whose body may raise. *)
Fixpoint for_each {A S : Type} (l : list A) (body : A → S → result S) (s : S)
    : result S :=
  match l with
  | [] => Ok s
  | a :: l' => s' ← body a s; for_each l' body s'
  end.

(** A [for] loop that updates an object in place: when the body raises,
    what the earlier iterations did stays. *)
Fixpoint for_each_in_place {A S : Type} (l : list A) (body : A → S → result S)
    (s : S) : result unit * S :=
  match l with
  | [] => (Ok tt, s)
  | a :: l' =>
      match body a s with
      | Ok s' => for_each_in_place l' body s'
      | Raise e => (Raise e, s)
      end
  end.

(** ** Data model *)

(** Object identity. *)
Definition loc := positive.

(** A rule record, a Python dictionary from attribute name to value. *)
Abbreviation RuleRecord := (gmap string value).

(** What a module-level name can be bound to: a plain value, a
    user-defined rule factory, a module, or one of the built-in
    functions. *)
Inductive pyobj :=
  | OValue (v : value)
  | ORule (l : loc)
  | OModule (l : loc)
  | OBuiltin (name : string).

(** An insertion-ordered dictionary keyed by strings, as [rules] is. *)
Fixpoint odict_get {V : Type} (d : list (string * V)) (k : string) : option V :=
  match d with
  | [] => None
  | (k', v) :: d' => if String.eqb k' k then Some v else odict_get d' k
  end.

(** One entry of [traceback.extract_tb]. *)
Record tb_entry := {
  tb_filename : string;
  tb_line_number : Z;
  tb_function_name : string;
  tb_text : string
}.

(** What [sys.exc_info()] gives: the exception's type name, [str] of its
    value, its traceback and, for a [SyntaxError], the position fields. *)
Record exc_info := {
  exc_type : string;
  exc_value : string;
  exc_traceback : list tb_entry;
  exc_syntax : option (value * value * value * value)
}.

(** [d[k] = v]: an existing key keeps its place, a new one goes last. *)
Fixpoint odict_set {V : Type} (d : list (string * V)) (k : string) (v : V)
    : list (string * V) :=
  match d with
  | [] => [(k, v)]
  | (k', v') :: d' =>
      if String.eqb k' k then (k, v) :: d' else (k', v') :: odict_set d' k v
  end.

Record Diagnostic := {
  message : string;
  level : string;
  source : string;
  exception : option exc_info
}.

Module BuildInclude.
Record t := { cell_name : string; label : string; path : string }.
End BuildInclude.

(** The accumulators every context carries (the abstract properties of
    [AbstractContext]). [used_configs] maps a section to the identity of
    its inner dictionary, which lives in the store. *)
Record AbstractContext := {
  includes : gset string;
  used_configs : gmap string loc;
  used_env_vars : gmap string value;
  diagnostics : list Diagnostic;
  user_rules : gset loc
}.

Definition empty_accumulators : AbstractContext :=
  {| includes := ∅; used_configs := ∅; used_env_vars := ∅;
     diagnostics := []; user_rules := ∅ |}.

Module BuildFileContext.
Record t := {
  base : AbstractContext;
  rules : list (string * RuleRecord);
  project_root : string;
  base_path : string;
  path : string;
  cell_name : string;
  dirname : string;
  allow_empty_globs : bool;
  ignore_paths : list string;
  watchman_client : option loc;
  watchman_watch_root : string;
  watchman_project_prefix : option string;
  sync_cookie_state : loc;
  watchman_glob_stat_results : bool;
  watchman_use_glob_generator : bool;
  implicit_package_symbols : gmap string pyobj
}.

Definition with_base (a : AbstractContext) (c : t) : t :=
  {| base := a; rules := rules c; project_root := project_root c;
     base_path := base_path c; path := path c; cell_name := cell_name c;
     dirname := dirname c; allow_empty_globs := allow_empty_globs c;
     ignore_paths := ignore_paths c; watchman_client := watchman_client c;
     watchman_watch_root := watchman_watch_root c;
     watchman_project_prefix := watchman_project_prefix c;
     sync_cookie_state := sync_cookie_state c;
     watchman_glob_stat_results := watchman_glob_stat_results c;
     watchman_use_glob_generator := watchman_use_glob_generator c;
     implicit_package_symbols := implicit_package_symbols c |}.

Definition with_rules (r : list (string * RuleRecord)) (c : t) : t :=
  {| base := base c; rules := r; project_root := project_root c;
     base_path := base_path c; path := path c; cell_name := cell_name c;
     dirname := dirname c; allow_empty_globs := allow_empty_globs c;
     ignore_paths := ignore_paths c; watchman_client := watchman_client c;
     watchman_watch_root := watchman_watch_root c;
     watchman_project_prefix := watchman_project_prefix c;
     sync_cookie_state := sync_cookie_state c;
     watchman_glob_stat_results := watchman_glob_stat_results c;
     watchman_use_glob_generator := watchman_use_glob_generator c;
     implicit_package_symbols := implicit_package_symbols c |}.

Definition with_implicit_package_symbols (m : gmap string pyobj) (c : t) : t :=
  {| base := base c; rules := rules c; project_root := project_root c;
     base_path := base_path c; path := path c; cell_name := cell_name c;
     dirname := dirname c; allow_empty_globs := allow_empty_globs c;
     ignore_paths := ignore_paths c; watchman_client := watchman_client c;
     watchman_watch_root := watchman_watch_root c;
     watchman_project_prefix := watchman_project_prefix c;
     sync_cookie_state := sync_cookie_state c;
     watchman_glob_stat_results := watchman_glob_stat_results c;
     watchman_use_glob_generator := watchman_use_glob_generator c;
     implicit_package_symbols := m |}.
End BuildFileContext.

Module IncludeContext.
Record t := {
  base : AbstractContext;
  cell_name : string;
  path : string;
  label : string
}.

(** [IncludeContext(cell_name, path, label)] *)
Definition __init__ (cell_name path label : string) : t :=
  {| base := empty_accumulators; cell_name := cell_name; path := path;
     label := label |}.

Definition with_base (a : AbstractContext) (c : t) : t :=
  {| base := a; cell_name := cell_name c; path := path c; label := label c |}.
End IncludeContext.

(** A context object is of one of the two concrete classes. *)
Inductive context :=
  | BuildFile (c : BuildFileContext.t)
  | Include (c : IncludeContext.t).

Definition accumulators (c : context) : AbstractContext :=
  match c with
  | BuildFile b => BuildFileContext.base b
  | Include i => IncludeContext.base i
  end.

Definition with_accumulators (a : AbstractContext) (c : context) : context :=
  match c with
  | BuildFile b => BuildFile (BuildFileContext.with_base a b)
  | Include i => Include (IncludeContext.with_base a i)
  end.

Definition diagnostics_of (c : context) : list Diagnostic :=
  diagnostics (accumulators c).

(** [AbstractContext.merge]: the five in-place updates, in source order. *)
Definition merge_accumulators (self other : AbstractContext) : AbstractContext :=
  {| includes := includes self ∪ includes other;
     diagnostics := diagnostics self ++ diagnostics other;
     used_configs := used_configs other ∪ used_configs self;
     used_env_vars := used_env_vars other ∪ used_env_vars self;
     user_rules := user_rules self ∪ user_rules other |}.

Definition merge (self other : context) : context :=
  with_accumulators (merge_accumulators (accumulators self) (accumulators other)) self.

(** ** add_rule *)

Definition add_rule `{Host} (rule : RuleRecord) (build_env : context)
    : result context :=
  match build_env with
  | Include _ =>
      match rule !! "buck.type" with
      | Some ty =>
          Raise (AssertionError ("Cannot use `" +:+ str ty +:+
                   "()` at the top-level of an included file."))
      | None => Raise (KeyError "buck.type")
      end
  | BuildFile env =>
      match rule !! "name" with
      | None =>
          Raise (ValueError ("rules must contain the field 'name'.  Found " +:+
                   repr (VDict rule) +:+ "."))
      | Some (VStr rule_name) =>
          match odict_get (BuildFileContext.rules env) rule_name with
          | Some existing =>
              Raise (ValueError ("Duplicate rule definition '" +:+ rule_name +:+
                       "' found.  Found " +:+ repr (VDict rule) +:+ " and " +:+
                       repr (VDict existing)))
          | None =>
              let rule := <["buck.base_path" := VStr (BuildFileContext.base_path env)]> rule in
              Ok (BuildFile (BuildFileContext.with_rules
                               (BuildFileContext.rules env ++ [(rule_name, rule)]) env))
          end
      | Some rule_name =>
          Raise (ValueError ("rules 'name' field must be a string.  Found " +:+
                   str rule_name +:+ "."))
      end
  end.

(** ** The processor object *)

Module BuildFileProcessor.
Record t := {
  _include_cache : gmap string (loc * loc);
  _current_build_env : option loc;
  _sync_cookie_state : loc;
  _project_root : string;
  _cell_roots : gmap string string;
  _cell_name : string;
  _build_file_name : string;
  _implicit_includes : list string;
  _allow_empty_globs : bool;
  _watchman_client : option loc;
  _watchman_glob_stat_results : bool;
  _watchman_use_glob_generator : bool;
  _configs : gmap (string * string) value;
  _ignore_paths : list string;
  _disable_implicit_native_rules : bool;
  _warn_about_deprecated_syntax : bool;
  _enable_user_defined_rules : bool;
  _default_globals_for_extension : list (string * pyobj);
  _default_globals_for_implicit_include : list (string * pyobj);
  _default_globals_for_build_file : list (string * pyobj)
}.

(** The fields that change while the worker runs. *)
Definition update (self : t) (include_cache : gmap string (loc * loc))
    (current_build_env : option loc) (configs : gmap (string * string) value)
    (for_extension for_implicit_include for_build_file : list (string * pyobj))
    : t :=
  {| _include_cache := include_cache;
     _current_build_env := current_build_env;
     _sync_cookie_state := _sync_cookie_state self;
     _project_root := _project_root self;
     _cell_roots := _cell_roots self;
     _cell_name := _cell_name self;
     _build_file_name := _build_file_name self;
     _implicit_includes := _implicit_includes self;
     _allow_empty_globs := _allow_empty_globs self;
     _watchman_client := _watchman_client self;
     _watchman_glob_stat_results := _watchman_glob_stat_results self;
     _watchman_use_glob_generator := _watchman_use_glob_generator self;
     _configs := configs;
     _ignore_paths := _ignore_paths self;
     _disable_implicit_native_rules := _disable_implicit_native_rules self;
     _warn_about_deprecated_syntax := _warn_about_deprecated_syntax self;
     _enable_user_defined_rules := _enable_user_defined_rules self;
     _default_globals_for_extension := for_extension;
     _default_globals_for_implicit_include := for_implicit_include;
     _default_globals_for_build_file := for_build_file |}.

Definition with_include_cache (c : gmap string (loc * loc)) (self : t) : t :=
  update self c (_current_build_env self) (_configs self)
    (_default_globals_for_extension self)
    (_default_globals_for_implicit_include self)
    (_default_globals_for_build_file self).

Definition with_current_build_env (e : option loc) (self : t) : t :=
  update self (_include_cache self) e (_configs self)
    (_default_globals_for_extension self)
    (_default_globals_for_implicit_include self)
    (_default_globals_for_build_file self).

Definition with_configs (c : gmap (string * string) value) (self : t) : t :=
  update self (_include_cache self) (_current_build_env self) c
    (_default_globals_for_extension self)
    (_default_globals_for_implicit_include self)
    (_default_globals_for_build_file self).
End BuildFileProcessor.
Import BuildFileProcessor.

(** ** Include labels *)

Definition in_range (lo hi : N) (c : ascii) : bool :=
  ((lo <=? N_of_ascii c) && (N_of_ascii c <=? hi))%N.

(** The class [[A-Za-z0-9_]]. *)
Definition is_word_char (c : ascii) : bool :=
  in_range 65 90 c || in_range 97 122 c || in_range 48 57 c
  || Ascii.eqb c "_".

Definition is_newline (c : ascii) : bool := Ascii.eqb c "010".

(** The longest prefix whose characters satisfy [p], and the rest. *)
Fixpoint span (p : ascii → bool) (s : string) : string * string :=
  match s with
  | EmptyString => (EmptyString, EmptyString)
  | String c s' =>
      if p c then let '(a, b) := span p s' in (String c a, b)
      else (EmptyString, s)
  end.

(** A final group of any characters followed by the end anchor: the group
    takes everything up to the end of the string, where the anchor also
    matches just before one final newline; a newline anywhere else makes
    the match fail. *)
Definition dot_star_to_end (s : string) : option string :=
  let '(body, rest) := span (λ c, negb (is_newline c)) s in
  match rest with
  | EmptyString => Some body
  | String _ EmptyString => Some body
  | _ => None
  end.

(** The include-label pattern of [_resolve_include]: a possibly empty run
    of word characters (the cell), two slashes, and the rest (the path). *)
Definition match_include_label (name : string) : option (string * string) :=
  let '(cell, rest) := span is_word_char name in
  match rest with
  | String "/" (String "/" tail) =>
      relative_path ← dot_star_to_end tail; Some (cell, relative_path)
  | _ => None
  end.

Definition _resolve_include `{Host} (self : BuildFileProcessor.t) (name : string)
    : result BuildInclude.t :=
  match match_include_label name with
  | None =>
      Raise (ValueError ("include_defs argument " +:+ name +:+
               " should be in the form of //path or cellname//path"))
  | Some (cell_name, relative_path) =>
      if (0 <? String.length cell_name)%nat then
        match _cell_roots self !! cell_name with
        | None =>
            Raise (KeyError ("include_defs argument " +:+ name +:+
                     " references an unknown cell named " +:+ cell_name +:+
                     " known cells: " +:+ repr (VDict (VStr <$> _cell_roots self))))
        | Some cell_root =>
            Ok {| BuildInclude.cell_name := cell_name;
                  BuildInclude.label := "@" +:+ name;
                  BuildInclude.path := normpath (path_join cell_root relative_path) |}
        end
      else
        Ok {| BuildInclude.cell_name := cell_name;
              BuildInclude.label := name;
              BuildInclude.path :=
                normpath (path_join (_project_root self) relative_path) |}
  end.

(** ** glob *)

(** The two shapes of argument [glob] tells apart: a bare string, which it
    refuses, and a list of patterns. *)
Inductive seq_arg :=
  | SeqString (s : string)
  | SeqList (l : list string).

(** The two glob engines, [glob_internal] and [glob_watchman], which live
    in modules of their own. The watcher reads its parameters from the
    build-file context, may answer [None], and may append to the
    diagnostics it is handed. *)
Class GlobBackends := {
  glob_internal :
    list string → list string → list string → bool → string → string →
    result (list value);
  glob_watchman :
    list string → list string → bool → BuildFileContext.t →
    result (option (list value)) * list Diagnostic;
}.

(** The anchored pattern [_RECURSIVE_GLOB_PATTERN]: any number of ["*/"]
    and then ["**/"]. *)
Fixpoint is_recursive_glob (pattern : string) : bool :=
  match pattern with
  | String "*" (String "*" (String "/" _)) => true
  | String "*" (String "/" rest) => is_recursive_glob rest
  | _ => false
  end.

(** [fail(message, attr)]: the exception it raises. *)
Definition fail `{Host} (message : value) (attr : option string) : exn :=
  let attribute_prefix :=
    match attr with Some a => "attribute " +:+ a +:+ ": " | None => "" end in
  BuildFileFailError (attribute_prefix +:+ str message).

Definition with_diagnostics (d : list Diagnostic) (env : BuildFileContext.t)
    : BuildFileContext.t :=
  let a := BuildFileContext.base env in
  BuildFileContext.with_base
    {| includes := includes a; used_configs := used_configs a;
       used_env_vars := used_env_vars a; diagnostics := d;
       user_rules := user_rules a |} env.

(** The watcher answers with [str] or [unicode] paths; the latter are
    encoded. *)
Definition to_str (res : value) : result value :=
  if is_str res then Ok res else encode_utf8 res.

Fixpoint map_result {A B : Type} (f : A → result B) (l : list A) : result (list B) :=
  match l with
  | [] => Ok []
  | a :: l' => b ← f a; bs ← map_result f l'; Ok (b :: bs)
  end.

(** The part of [glob] that computes [results], between the argument
    checks and the final assertion. *)
Definition glob_results `{GlobBackends} (includes excludes : list string)
    (include_dotfiles : bool) (build_env : BuildFileContext.t)
    (search_base : string) : result (list value) * BuildFileContext.t :=
  let '(results, build_env) :=
    match includes with
    | [] => (Ok (Some []), build_env)
    | _ :: _ =>
        match BuildFileContext.watchman_client build_env with
        | Some _ =>
            let '(results, diags) :=
              glob_watchman includes excludes include_dotfiles build_env in
            let build_env := with_diagnostics diags build_env in
            match results with
            | Ok (Some (r :: rs)) =>
                (rs' ← map_result to_str (r :: rs); Ok (Some rs'), build_env)
            | _ => (results, build_env)
            end
        | None => (Ok None, build_env)
        end
    end in
  match results with
  | Raise e => (Raise e, build_env)
  | Ok (Some results) => (Ok results, build_env)
  | Ok None =>
      (glob_internal includes excludes (BuildFileContext.ignore_paths build_env)
         include_dotfiles search_base (BuildFileContext.project_root build_env),
       build_env)
  end.

Definition glob_no_results_message `{Host} (includes excludes : list string)
    (include_dotfiles : bool) : string :=
  "glob(includes=" +:+ str (VList (VStr <$> includes)) +:+
  ", excludes=" +:+ str (VList (VStr <$> excludes)) +:+
  ", include_dotfiles=" +:+ str (VBool include_dotfiles) +:+
  ") returned no results.  (allow_empty_globs is set to false in the Buck " +:+
  "configuration)".

Definition glob `{Host} `{GlobBackends} (includes : seq_arg)
    (excludes : option seq_arg) (include_dotfiles : bool)
    (build_env : context) (search_base : option string)
    : result (list value) * context :=
  let excludes := default (SeqList []) excludes in
  match build_env with
  | Include _ =>
      (Raise (AssertionError
                "Cannot use `glob()` at the top-level of an included file."),
       build_env)
  | BuildFile env =>
      match includes, excludes with
      | SeqString _, _ =>
          (Raise (AssertionError
                    "The first argument to glob() must be a list of strings."),
           build_env)
      | SeqList _, SeqString _ =>
          (Raise (AssertionError
                    "The excludes argument must be a list of strings."),
           build_env)
      | SeqList includes, SeqList excludes =>
          let search_base :=
            default (BuildFileContext.dirname env) search_base in
          if String.eqb (BuildFileContext.dirname env)
                        (BuildFileContext.project_root env)
             && existsb is_recursive_glob includes
          then
            (Raise (fail (VStr "Recursive globs are prohibited at top-level directory")
                      None),
             build_env)
          else
            let '(results, env) :=
              glob_results includes excludes include_dotfiles env search_base in
            match results with
            | Raise e => (Raise e, BuildFile env)
            | Ok results =>
                if BuildFileContext.allow_empty_globs env
                   || negb (bool_decide (results = []))
                then (Ok results, BuildFile env)
                else
                  (Raise (AssertionError
                            (glob_no_results_message includes excludes
                               include_dotfiles)),
                   BuildFile env)
            end
      end
  end.

(** ** User-defined rules *)

(** Truth value of a Python object, as [default or []] tests it. *)
Definition truthy (v : value) : bool :=
  match v with
  | VNone => false
  | VBool b => b
  | VInt n => negb (n =? 0)%Z
  | VStr s => negb (String.eqb s "")
  | VUnicode cps => negb (bool_decide (cps = []))
  | VList l => negb (bool_decide (l = []))
  | VDict d => negb (bool_decide (size d = 0))
  end.

Module Attr.
Record Attribute := { default : value; mandatory : Datatypes.bool }.

(** Keyword arguments left out take the default of the signature; the
    other keywords are thrown away. *)
Definition __generic_attribute (default : value) (mandatory : option Datatypes.bool)
    : Attribute :=
  {| default := default; mandatory := from_option id false mandatory |}.

Definition or_empty_list (default : option value) : value :=
  let default := from_option id VNone default in
  if truthy default then default else VList [].

Definition int (default : option value) (mandatory : option Datatypes.bool) :=
  __generic_attribute (from_option id (VInt 0) default) mandatory.
Definition int_list (default : option value) (mandatory : option Datatypes.bool) :=
  __generic_attribute (or_empty_list default) mandatory.
Definition string (default : option value) (mandatory : option Datatypes.bool) :=
  __generic_attribute (from_option id (VStr "") default) mandatory.
Definition string_list (default : option value) (mandatory : option Datatypes.bool) :=
  __generic_attribute (or_empty_list default) mandatory.
Definition bool (default : option value) (mandatory : option Datatypes.bool) :=
  __generic_attribute (from_option id (VBool false) default) mandatory.
Definition source_list (default : option value) (mandatory : option Datatypes.bool) :=
  __generic_attribute (or_empty_list default) mandatory.
Definition source (default : option value) (mandatory : option Datatypes.bool) :=
  __generic_attribute (from_option id VNone default) mandatory.
Definition dep (default : option value) (mandatory : option Datatypes.bool) :=
  __generic_attribute (from_option id VNone default) mandatory.
Definition dep_list (default : option value) (mandatory : option Datatypes.bool) :=
  __generic_attribute (or_empty_list default) mandatory.
Definition output (default : option value) (mandatory : option Datatypes.bool) :=
  __generic_attribute (from_option id VNone default) mandatory.
Definition output_list (default : option value) (mandatory : option Datatypes.bool) :=
  __generic_attribute (or_empty_list default) mandatory.
End Attr.

(** The values of the [attrs] dictionary handed to [rule]: [Attribute]
    objects, or anything else. *)
Inductive attr_arg :=
  | IsAttribute (a : Attr.Attribute)
  | NotAttribute (v : value).

(** The autogenerated tables of implicit attributes, [generated_rules]. *)
Class GeneratedRules := {
  IMPLICIT_REQUIRED_ATTRS : gset string;
  IMPLICIT_OPTIONAL_ATTRS : gset string;
  IMPLICIT_REQUIRED_TEST_ATTRS : gset string;
  IMPLICIT_OPTIONAL_TEST_ATTRS : gset string;
}.

Definition strip_final_newline (s : string) : string :=
  let '(body, rest) := span (λ c, negb (is_newline c)) s in
  match rest with
  | String _ EmptyString => body
  | _ => s
  end.

Definition is_identifier_start (c : ascii) : bool :=
  in_range 65 90 c || in_range 97 122 c || Ascii.eqb c "_".

Fixpoint all_chars (p : ascii → bool) (s : string) : bool :=
  match s with
  | EmptyString => true
  | String c s' => p c && all_chars p s'
  end.

(** [VALID_IDENTIFIER_NAMES.match(name)]: a letter or underscore, then word
    characters, up to the end of the string or to one final newline. *)
Definition VALID_IDENTIFIER_NAMES (name : string) : bool :=
  match strip_final_newline name with
  | EmptyString => false
  | String c s => is_identifier_start c && all_chars is_word_char s
  end.

(** [name.startswith("_")] *)
Definition startswith_underscore (name : string) : bool :=
  match name with
  | String c _ => Ascii.eqb c "_"
  | EmptyString => false
  end.

Module UserDefinedRule.
Record t := {
  label : string;
  buck_type : option string;
  build_env : option loc;
  name : option string;
  required_attrs : gset string;
  optional_attrs : gset string;
  attrs : gmap string Attr.Attribute;
  all_attrs : gset string
}.

Definition _validate_attributes `{Host} (required_attrs optional_attrs : gset string)
    (attrs : gmap string attr_arg) : result (gmap string Attr.Attribute) :=
  for_each (map_to_list attrs)
    (λ '(name, attr) modified_attrs,
       if bool_decide (name ∈ required_attrs) || bool_decide (name ∈ optional_attrs)
       then Raise (ValueError (name +:+
               " shadows a builtin attribute of the same name. Please remove it"))
       else if negb (VALID_IDENTIFIER_NAMES name)
       then Raise (ValueError (name +:+
               " is not a valid python identifier. Please rename it"))
       else match attr with
            | NotAttribute v =>
                Raise (ValueError (str v +:+ " for attribute " +:+ name +:+
                         " is not an Attribute object"))
            | IsAttribute a =>
                if negb (startswith_underscore name)
                then Ok (<[name := a]> modified_attrs)
                else Ok modified_attrs
            end)
    ∅.

Definition __init__ `{Host} `{GeneratedRules} (label : string)
    (attrs : gmap string attr_arg) (test : bool) : result t :=
  let required_attrs :=
    if test then IMPLICIT_REQUIRED_TEST_ATTRS else IMPLICIT_REQUIRED_ATTRS in
  let optional_attrs :=
    if test then IMPLICIT_OPTIONAL_TEST_ATTRS else IMPLICIT_OPTIONAL_ATTRS in
  attrs ← _validate_attributes required_attrs optional_attrs attrs;
  Ok {| label := label; buck_type := None; build_env := None; name := None;
        required_attrs := required_attrs; optional_attrs := optional_attrs;
        attrs := attrs;
        all_attrs := required_attrs ∪ optional_attrs ∪ dom attrs |}.

Definition set_name (self : t) (name : string) : result t :=
  if VALID_IDENTIFIER_NAMES name then
    Ok {| label := label self; buck_type := Some (label self +:+ ":" +:+ name);
          build_env := build_env self; name := Some name;
          required_attrs := required_attrs self;
          optional_attrs := optional_attrs self; attrs := attrs self;
          all_attrs := all_attrs self |}
  else Raise (AssertionError "invalid name for UDR").

Definition with_build_env (env : option loc) (self : t) : t :=
  {| label := label self; buck_type := buck_type self; build_env := env;
     name := name self; required_attrs := required_attrs self;
     optional_attrs := optional_attrs self; attrs := attrs self;
     all_attrs := all_attrs self |}.

Definition missing_message (param buck_type : string) : string :=
  "Mandatory parameter '" +:+ param +:+ "' for " +:+ buck_type +:+ " was missing".

(** Calling the factory with keyword arguments [kwargs]; [build_env] is
    the object [self.build_env] refers to, if any. The result is that
    context with the rule recorded. Python iterates over a set in an order
    that is not determined; [elements] stands for one such order, so that
    the text of the message about unexpected parameters, and which of
    several missing parameters is reported, are meaningful up to that
    order only. *)
Definition __call__ `{Host} (self : t) (build_env : option context)
    (kwargs : gmap string value) : result context :=
  match buck_type self with
  | None | Some EmptyString =>
      Raise (AssertionError ("set_name() was never called for rule in " +:+
               label self))
  | Some buck_type =>
      match build_env with
      | None | Some (Include _) =>
          Raise (ValueError (default "" (name self) +:+
                   " may not be called from the top level of extension files"))
      | Some (BuildFile env) =>
          let rule : RuleRecord := {["buck.type" := VStr buck_type]} in
          let unexpected_kwargs := dom kwargs ∖ all_attrs self in
          if negb (bool_decide (unexpected_kwargs = ∅)) then
            Raise (ValueError ("Unexpected extra parameter(s) '" +:+
                     String.concat ", " (elements unexpected_kwargs) +:+
                     "' provided for " +:+ buck_type))
          else
            rule ← for_each (elements (required_attrs self))
              (λ param rule,
                 let value := dict_get kwargs param in
                 if is_none value
                 then Raise (ValueError (missing_message param buck_type))
                 else Ok (<[param := value]> rule))
              rule;
            rule ← for_each (elements (optional_attrs self))
              (λ param rule,
                 let value := dict_get kwargs param in
                 if negb (is_none value)
                 then Ok (<[param := value]> rule)
                 else Ok rule)
              rule;
            rule ← for_each (map_to_list (attrs self))
              (λ '(k, v) rule,
                 let value := dict_get kwargs k in
                 if is_none value then
                   if Attr.mandatory v
                   then Raise (ValueError (missing_message k buck_type))
                   else Ok (<[k := Attr.default v]> rule)
                 else Ok (<[k := value]> rule))
              rule;
            add_rule rule (BuildFile env)
      end
  end.
End UserDefinedRule.

(** The keys of a rule record that are not attributes: [add_rule] and
    the factories write them. *)
Definition reserved_key (k : string) : bool :=
  String.eqb k "buck.type" || String.eqb k "buck.base_path".

(** The generated tables hold attribute names, none of them a reserved
    key. *)
Definition tables_spare_reserved_keys `{GeneratedRules} : Prop :=
  ∀ k, reserved_key k = true →
    k ∉ IMPLICIT_REQUIRED_ATTRS ∪ IMPLICIT_OPTIONAL_ATTRS
        ∪ IMPLICIT_REQUIRED_TEST_ATTRS ∪ IMPLICIT_OPTIONAL_TEST_ATTRS.

(** What [__init__] establishes and no method disturbs: the accepted
    keywords are the three kinds of attribute, and the explicit attributes
    are public identifiers that shadow no implicit one. *)
Definition factory_invariant (u : UserDefinedRule.t) : Prop :=
  UserDefinedRule.all_attrs u =
    UserDefinedRule.required_attrs u ∪ UserDefinedRule.optional_attrs u
    ∪ dom (UserDefinedRule.attrs u)
  ∧ ∀ k, k ∈ dom (UserDefinedRule.attrs u) →
      (k ∉ UserDefinedRule.required_attrs u)
      ∧ (k ∉ UserDefinedRule.optional_attrs u)
      ∧ VALID_IDENTIFIER_NAMES k = true
      ∧ startswith_underscore k = false.

(** What each of the three loops of [__call__] does with one attribute:
    raise, nothing, or bind a key of the record. *)
Definition required_action (kwargs : gmap string value) (buck_type : string)
    (param : string) : result (option (string * value)) :=
  if is_none (dict_get kwargs param)
  then Raise (ValueError (UserDefinedRule.missing_message param buck_type))
  else Ok (Some (param, dict_get kwargs param)).

Definition optional_action (kwargs : gmap string value) (param : string)
    : result (option (string * value)) :=
  if negb (is_none (dict_get kwargs param))
  then Ok (Some (param, dict_get kwargs param))
  else Ok None.

Definition explicit_action (kwargs : gmap string value) (buck_type : string)
    (kv : string * Attr.Attribute) : result (option (string * value)) :=
  if is_none (dict_get kwargs kv.1) then
    if Attr.mandatory kv.2
    then Raise (ValueError (UserDefinedRule.missing_message kv.1 buck_type))
    else Ok (Some (kv.1, Attr.default kv.2))
  else Ok (Some (kv.1, dict_get kwargs kv.1)).

(** [rule(attrs, test)]: only an extension context may declare a rule. *)
Definition rule `{Host} `{GeneratedRules} (attrs : option (gmap string attr_arg))
    (test : bool) (build_env : context) : result UserDefinedRule.t :=
  match build_env with
  | Include env =>
      let attrs := default ∅ attrs in
      UserDefinedRule.__init__ (IncludeContext.label env) attrs test
  | BuildFile _ =>
      Raise (AssertionError "`rule()` is only allowed in extension files.")
  end.

(** ** Response encoding *)

(** [BuckJSONEncoder().encode]; when it raises, what [sys.exc_info()]
    then holds. *)
Class JsonEncoder := {
  json_encode : value → exc_info + string;
}.

Definition format_traceback (tb : list tb_entry) : value :=
  VList ((λ entry,
            VDict (list_to_map
              [("filename", VStr (tb_filename entry));
               ("line_number", VInt (tb_line_number entry));
               ("function_name", VStr (tb_function_name entry));
               ("text", VStr (tb_text entry))])) <$> tb).

Definition format_exception_info (exception_info : exc_info) : value :=
  let formatted : gmap string value :=
    list_to_map [("type", VStr (exc_type exception_info));
                 ("value", VStr (exc_value exception_info));
                 ("traceback", format_traceback (exc_traceback exception_info))] in
  match exc_syntax exception_info with
  | Some (filename, lineno, offset, text) =>
      VDict (<["text" := text]> (<["offset" := offset]>
              (<["lineno" := lineno]> (<["filename" := filename]> formatted))))
  | None => VDict formatted
  end.

(** The dictionary comprehension of [encode_result]: the items of one
    entry whose value is not [None]. *)
Definition without_none (value : RuleRecord) : RuleRecord :=
  filter (λ kv, is_none kv.2 = false) value.

Definition encode_diagnostic (d : Diagnostic) : value :=
  let encoded : gmap string value :=
    list_to_map [("message", VStr (message d)); ("level", VStr (level d));
                 ("source", VStr (source d))] in
  match exception d with
  | Some info => VDict (<["exception" := format_exception_info info]> encoded)
  | None => VDict encoded
  end.

(** The object [encode_result] first hands to the encoder. *)
Definition result_object (values : list RuleRecord) (diagnostics : list Diagnostic)
    (profile : option string) : gmap string value :=
  let result : gmap string value :=
    {["values" := VList (VDict <$> (without_none <$> values))]} in
  let result :=
    match diagnostics with
    | [] => result
    | _ :: _ => <["diagnostics" := VList (encode_diagnostic <$> diagnostics)]> result
    end in
  match profile with
  | Some profile => <["profile" := VStr profile]> result
  | None => result
  end.

(** The object it retries with when the encoder raised [e]. *)
Definition fallback_object (result : gmap string value) (e : exc_info)
    : gmap string value :=
  let result := <["values" := VList []]> result in
  let encoded_diagnostics :=
    match result !! "diagnostics" with
    | Some (VList l) => l
    | _ => []
    end in
  <["diagnostics" :=
      VList (encoded_diagnostics ++
             [VDict (list_to_map
                [("message", VStr (exc_value e)); ("level", VStr "fatal");
                 ("source", VStr "parse");
                 ("exception", format_exception_info e)])])]> result.

Definition encode_result `{JsonEncoder} (values : list RuleRecord)
    (diagnostics : list Diagnostic) (profile : option string)
    : exc_info + string :=
  let result := result_object values diagnostics profile in
  match json_encode (VDict result) with
  | inr encoded => inr encoded
  | inl e => json_encode (VDict (fallback_object result e))
  end.

(** ** The store and the evaluation monad *)

(** The processor object together with the objects it reaches: contexts,
    module dictionaries (in insertion order), the inner dictionaries of
    [used_configs], rule factories, and the [build_env] pointer that
    [_update_functions] writes into every lazily bound built-in. *)
Record state := {
  self : BuildFileProcessor.t;
  contexts : gmap loc context;
  modules : gmap loc (list (string * pyobj));
  dicts : gmap loc (gmap string value);
  rule_objects : gmap loc UserDefinedRule.t;
  functions_build_env : option loc;
  next_loc : loc
}.

Definition with_self (x : BuildFileProcessor.t) (st : state) : state :=
  {| self := x; contexts := contexts st; modules := modules st;
     dicts := dicts st; rule_objects := rule_objects st;
     functions_build_env := functions_build_env st; next_loc := next_loc st |}.

Definition with_contexts (x : gmap loc context) (st : state) : state :=
  {| self := self st; contexts := x; modules := modules st;
     dicts := dicts st; rule_objects := rule_objects st;
     functions_build_env := functions_build_env st; next_loc := next_loc st |}.

Definition with_modules (x : gmap loc (list (string * pyobj))) (st : state) : state :=
  {| self := self st; contexts := contexts st; modules := x;
     dicts := dicts st; rule_objects := rule_objects st;
     functions_build_env := functions_build_env st; next_loc := next_loc st |}.

Definition with_dicts (x : gmap loc (gmap string value)) (st : state) : state :=
  {| self := self st; contexts := contexts st; modules := modules st;
     dicts := x; rule_objects := rule_objects st;
     functions_build_env := functions_build_env st; next_loc := next_loc st |}.

Definition with_rule_objects (x : gmap loc UserDefinedRule.t) (st : state) : state :=
  {| self := self st; contexts := contexts st; modules := modules st;
     dicts := dicts st; rule_objects := x;
     functions_build_env := functions_build_env st; next_loc := next_loc st |}.

Definition with_functions_build_env (x : option loc) (st : state) : state :=
  {| self := self st; contexts := contexts st; modules := modules st;
     dicts := dicts st; rule_objects := rule_objects st;
     functions_build_env := x; next_loc := next_loc st |}.

Definition with_next_loc (x : loc) (st : state) : state :=
  {| self := self st; contexts := contexts st; modules := modules st;
     dicts := dicts st; rule_objects := rule_objects st;
     functions_build_env := functions_build_env st; next_loc := x |}.

(** A computation that reads and writes the store and may raise; the
    store survives the exception, as in Python. *)
Definition M (A : Type) : Type := state → result A * state.

Definition ret {A} (a : A) : M A := λ st, (Ok a, st).

Definition bind {A B} (m : M A) (f : A → M B) : M B := λ st,
  match m st with
  | (Ok a, st') => f a st'
  | (Raise e, st') => (Raise e, st')
  end.

Definition raise {A} (e : exn) : M A := λ st, (Raise e, st).
Definition get : M state := λ st, (Ok st, st).
Definition modify (f : state → state) : M unit := λ st, (Ok tt, f st).
Definition lift {A} (r : result A) : M A := λ st, (r, st).

(** [try: ... except: ...] around a computation: the outcome as a value. *)
Definition try {A} (m : M A) : M (result A) := λ st,
  let '(r, st') := m st in (Ok r, st').

Notation "'let*' x := m 'in' k" := (bind m (λ x, k))
  (at level 10, x pattern, m at level 100, k at level 200).

Fixpoint for_eachM {A : Type} (l : list A) (body : A → M unit) : M unit :=
  match l with
  | [] => ret tt
  | a :: l' => let* _ := body a in for_eachM l' body
  end.

(** A new object. *)
Definition alloc : M loc := λ st,
  (Ok (next_loc st), with_next_loc (Pos.succ (next_loc st)) st).

Definition the_context (l : loc) : M context :=
  let* st := get in
  match contexts st !! l with
  | Some c => ret c
  | None => raise (AttributeError "no such context")
  end.

Definition set_context (l : loc) (c : context) : M unit :=
  modify (λ st, with_contexts (<[l := c]> (contexts st)) st).

(** Using [build_env], which must not be [None] by then. *)
Definition the_env (build_env : option loc) : M loc :=
  match build_env with
  | Some l => ret l
  | None => raise (AttributeError "'NoneType' object has no attribute")
  end.

Definition with_includes (i : gset string) (a : AbstractContext) : AbstractContext :=
  {| includes := i; used_configs := used_configs a;
     used_env_vars := used_env_vars a; diagnostics := diagnostics a;
     user_rules := user_rules a |}.

Definition with_used_configs (u : gmap string loc) (a : AbstractContext)
    : AbstractContext :=
  {| includes := includes a; used_configs := u;
     used_env_vars := used_env_vars a; diagnostics := diagnostics a;
     user_rules := user_rules a |}.

Definition with_used_env_vars (u : gmap string value) (a : AbstractContext)
    : AbstractContext :=
  {| includes := includes a; used_configs := used_configs a;
     used_env_vars := u; diagnostics := diagnostics a;
     user_rules := user_rules a |}.

Definition with_user_rules (u : gset loc) (a : AbstractContext) : AbstractContext :=
  {| includes := includes a; used_configs := used_configs a;
     used_env_vars := used_env_vars a; diagnostics := diagnostics a;
     user_rules := u |}.

Definition append_diagnostic (d : Diagnostic) (a : AbstractContext)
    : AbstractContext :=
  {| includes := includes a; used_configs := used_configs a;
     used_env_vars := used_env_vars a; diagnostics := diagnostics a ++ [d];
     user_rules := user_rules a |}.

(** [build_env.includes.add(path)] *)
Definition add_include (l : loc) (path : string) : M unit :=
  let* c := the_context l in
  set_context l
    (with_accumulators
       (with_includes (includes (accumulators c) ∪ {[path]}) (accumulators c)) c).

(** [build_env.merge(inner_env)] on two context objects. *)
Definition merge_into (l inner : loc) : M unit :=
  let* c := the_context l in
  let* other := the_context inner in
  set_context l (merge c other).

(** ** read_config *)

(** [build_env.used_configs[section][field] = value]: [used_configs] is a
    [defaultdict(dict)], so a missing section gets a new inner dictionary;
    an existing one is updated in place. *)
Definition record_config (l : loc) (section field : string) (value : value)
    : M unit :=
  let* c := the_context l in
  match used_configs (accumulators c) !! section with
  | Some d =>
      modify (λ st,
        with_dicts (<[d := <[field := value]> (default ∅ (dicts st !! d))]> (dicts st)) st)
  | None =>
      let* d := alloc in
      let* _ := modify (λ st, with_dicts (<[d := {[field := value]}]> (dicts st)) st) in
      set_context l
        (with_accumulators
           (with_used_configs (<[section := d]> (used_configs (accumulators c)))
              (accumulators c)) c)
  end.

Definition _read_config (section field : string) (default : value) : M value :=
  let* st := get in
  let build_env := _current_build_env (self st) in
  let key := (section, field) in
  let value := from_option id VNone (_configs (self st) !! key) in
  let* value :=
    if negb (is_none value) && negb (is_str value) then
      let* value := lift (encode_utf8 value) in
      let* _ := modify (λ st,
        with_self (with_configs (<[key := value]> (_configs (self st))) (self st)) st) in
      ret value
    else ret value in
  let* build_env := the_env build_env in
  let* _ := record_config build_env section field value in
  if is_none value then ret default else ret value.

(** [used_configs[section][field]] of the context object at [l]. *)
Definition recorded_config (st : state) (l : loc) (section field : string)
    : option value :=
  c ← contexts st !! l;
  d ← used_configs (accumulators c) !! section;
  m ← dicts st !! d;
  m !! field.

(** What the orchestrator supplied for a key: [self._configs.get(key)]. *)
Definition supplied_config (self : BuildFileProcessor.t) (section field : string)
    : value :=
  from_option id VNone (_configs self !! (section, field)).

Definition _record_env_var (name : string) (value : value) : M unit :=
  let* st := get in
  let* l := the_env (_current_build_env (self st)) in
  let* c := the_context l in
  set_context l
    (with_accumulators
       (with_used_env_vars (<[name := value]> (used_env_vars (accumulators c)))
          (accumulators c)) c).

Definition _emit_warning (message source : string) : M unit :=
  let* st := get in
  match _current_build_env (self st) with
  | Some l =>
      let* c := the_context l in
      set_context l
        (with_accumulators
           (append_diagnostic
              {| message := message; level := "warning"; source := source;
                 exception := None |} (accumulators c)) c)
  | None => ret tt
  end.

Definition _add_build_file_dep `{Host} (name : string) : M unit :=
  let* st := get in
  let build_env := _current_build_env (self st) in
  let* build_include := lift (_resolve_include (self st) name) in
  let* build_env := the_env build_env in
  add_include build_env (BuildInclude.path build_include).

(** ** Load labels *)

(** The class of cell characters in [_LOAD_TARGET_PATH_RE]: word characters
    (read over ASCII, as for byte strings), [-] and [.]. For a Python 3
    [str] the class [\w] also holds the letters and digits outside ASCII;
    a label with such a cell is outside this model, and the statements
    about load labels are for cells of ASCII characters. *)
Definition is_cell_char (c : ascii) : bool :=
  is_word_char c || Ascii.eqb c "-" || Ascii.eqb c ".".

(** The named groups of a match; a group that took no part is [None]. *)
Record load_match := {
  group_root : option string;
  group_cell : option string;
  group_package : string;
  group_target : string
}.

(** Splitting at the last colon, as the greedy package group does. *)
Fixpoint split_last_colon (s : string) : option (string * string) :=
  match s with
  | EmptyString => None
  | String c s' =>
      match split_last_colon s' with
      | Some (a, b) => Some (String c a, b)
      | None => if Ascii.eqb c ":" then Some (EmptyString, s') else None
      end
  end.

(** The package, the colon and the target, up to the end anchor. *)
Definition match_package_target (s : string) : option (string * string) :=
  body ← dot_star_to_end s; split_last_colon body.

(** The optional root group: an optional cell (an optional [@] and at least
    one cell character) and two slashes. *)
Definition match_root (label : string) : option (option string * string * string) :=
  let '(at_sign, s) :=
    match label with
    | String "@" s' => ("@", s')
    | _ => ("", label)
    end in
  let '(run, rest) := span is_cell_char s in
  match run, rest with
  | String _ _, String "/" (String "/" tail) =>
      Some (Some (at_sign +:+ run), at_sign +:+ run +:+ "//", tail)
  | _, _ =>
      match label with
      | String "/" (String "/" tail) => Some (None, "//", tail)
      | _ => None
      end
  end.

Definition match_load_label (label : string) : option load_match :=
  let without_root :=
    '(package, target) ← match_package_target label;
    Some {| group_root := None; group_cell := None;
            group_package := package; group_target := target |} in
  match match_root label with
  | Some (cell, root, tail) =>
      match match_package_target tail with
      | Some (package, target) =>
          Some {| group_root := Some root; group_cell := cell;
                  group_package := package; group_target := target |}
      | None => without_root
      end
  | None => without_root
  end.

Definition context_path (c : context) : string :=
  match c with
  | BuildFile b => BuildFileContext.path b
  | Include i => IncludeContext.path i
  end.

Definition context_cell_name (c : context) : string :=
  match c with
  | BuildFile b => BuildFileContext.cell_name b
  | Include i => IncludeContext.cell_name i
  end.

Definition _get_cell_root (self : BuildFileProcessor.t) (cell_name : string)
    : option string :=
  if negb (String.eqb cell_name "") then _cell_roots self !! cell_name
  else Some (_project_root self).

Definition _get_label_for_include (cell_name package_path file_name : string)
    : string :=
  if negb (String.eqb cell_name "")
  then "@" +:+ cell_name +:+ "//" +:+ package_path +:+ ":" +:+ file_name
  else "//" +:+ package_path +:+ ":" +:+ file_name.

(** ["/" in s] *)
Fixpoint has_slash (s : string) : bool :=
  match s with
  | EmptyString => false
  | String c s' => Ascii.eqb c "/" || has_slash s'
  end.

Definition unknown_cell `{Host} (self : BuildFileProcessor.t)
    (label cell_name : string) : exn :=
  KeyError ("load label " +:+ label +:+ " references an unknown cell named " +:+
            cell_name +:+ " known cells: " +:+
            repr (VDict (VStr <$> _cell_roots self))).

Definition _get_load_path `{Host} (label : string) : M BuildInclude.t :=
  match match_load_label label with
  | None =>
      raise (ValueError ("load label " +:+ label +:+
               " should be in the form of //path:file or cellname//path:file"))
  | Some m =>
      let* st := get in
      let* cell_name :=
        match group_cell m with
        | Some (String "@" cell_name) => ret cell_name
        | Some (String _ _ as cell_name) =>
            if _warn_about_deprecated_syntax (self st) then
              let* env := the_env (_current_build_env (self st)) in
              let* c := the_context env in
              let* _ := _emit_warning
                (context_path c +:+ " has a load label " +:+ dquote +:+ label +:+
                 dquote +:+ " that uses a deprecated cell format. " +:+ dquote +:+
                 cell_name +:+ dquote +:+ " should instead be " +:+ dquote +:+
                 "@" +:+ cell_name +:+ dquote +:+ ".")
                "load function" in
              ret cell_name
            else ret cell_name
        | _ =>
            let* env := the_env (_current_build_env (self st)) in
            let* c := the_context env in
            ret (context_cell_name c)
        end in
      let relative_path := group_package m in
      let file_name := group_target m in
      let* st := get in
      match group_root m with
      | None =>
          if has_slash file_name then
            raise (ValueError
              ("Relative loads work only for files in the same directory. " +:+
               "Please use absolute label instead ([cell]//pkg[/pkg]:target)."))
          else
            match _get_cell_root (self st) cell_name with
            | None => raise (unknown_cell (self st) label cell_name)
            | Some cell_root =>
                let* env := the_env (_current_build_env (self st)) in
                let* c := the_context env in
                let callee_dir := path_dirname (context_path c) in
                let label :=
                  _get_label_for_include cell_name
                    (relpath callee_dir cell_root) file_name in
                ret {| BuildInclude.cell_name := cell_name;
                       BuildInclude.label := label;
                       BuildInclude.path :=
                         normpath (path_join callee_dir file_name) |}
            end
      | Some _ =>
          match _get_cell_root (self st) cell_name with
          | None => raise (unknown_cell (self st) label cell_name)
          | Some cell_root =>
              ret {| BuildInclude.cell_name := cell_name;
                     BuildInclude.label :=
                       _get_label_for_include cell_name relative_path file_name;
                     BuildInclude.path :=
                       normpath (path_join (path_join cell_root relative_path)
                                   file_name) |}
          end
      end
  end.

(** ** Modules and their globals *)

(** The dictionary of a new module, [types.ModuleType(name).__dict__]. *)
Definition ModuleType (name : string) : list (string * pyobj) :=
  [("__name__", OValue (VStr name)); ("__doc__", OValue VNone);
   ("__package__", OValue VNone); ("__loader__", OValue VNone);
   ("__spec__", OValue VNone)].

(** [dst.update(src)] *)
Definition dict_update (dst src : list (string * pyobj)) : list (string * pyobj) :=
  fold_left (λ d kv, odict_set d kv.1 kv.2) src dst.

Definition _HIDDEN_GLOBALS (key : string) : bool :=
  String.eqb key "include_defs" || String.eqb key "load".

(** Iterating over the value of [__all__]: the items of a list, the
    characters of a text, the keys of a dictionary. *)
Definition keys_of_all (all : pyobj) : result (list value) :=
  match all with
  | OValue (VList l) => Ok l
  | OValue (VStr s) =>
      Ok ((λ c, VStr (String c EmptyString)) <$> list_ascii_of_string s)
  | OValue (VUnicode cps) => Ok ((λ cp, VUnicode [cp]) <$> cps)
  | OValue (VDict d) => Ok (VStr <$> (fst <$> map_to_list d))
  | _ => Raise (TypeError "object is not iterable")
  end.

(** One turn of the loop of [_merge_globals], for a key that is a [str]. *)
Definition merge_global (module : list (string * pyobj)) (key : string)
    (dst : list (string * pyobj)) : result (list (string * pyobj)) :=
  block_copying_module ←
    match odict_get module "__all__" with
    | Some _ => Ok false
    | None =>
        match odict_get module key with
        | Some (OModule _) => Ok true
        | Some _ => Ok false
        | None => Raise (KeyError key)
        end
    end;
  if negb (startswith_underscore key) && negb (_HIDDEN_GLOBALS key)
     && negb block_copying_module
  then match odict_get module key with
       | Some v => Ok (odict_set dst key v)
       | None => Raise (KeyError key)
       end
  else Ok dst.

(** One turn of the loop for any key. Only [__all__] can give a key that
    is not a [str]: text of the other type names what the [str] of the
    same ASCII characters names, and nothing when it has other characters;
    a key that is no text has no [startswith]. *)
Definition merge_global_key (module : list (string * pyobj)) (key : value)
    (dst : list (string * pyobj)) : result (list (string * pyobj)) :=
  match key with
  | VStr key => merge_global module key dst
  | VUnicode cps =>
      if forallb (λ cp, (cp <? 128)%N) cps
      then merge_global module (utf8_encode cps) dst
      else
        match cps with
        | 95%N :: _ => Ok dst
        | _ => Raise (KeyError (utf8_encode cps))
        end
  | _ => Raise (AttributeError "object has no attribute 'startswith'")
  end.

(** [_merge_globals(mod, dst)]: the outcome, and [dst] as the call leaves
    it. *)
Definition _merge_globals (module dst : list (string * pyobj))
    : result unit * list (string * pyobj) :=
  match match odict_get module "__all__" with
        | Some all => keys_of_all all
        | None => Ok (VStr <$> (fst <$> module))
        end with
  | Raise e => (Raise e, dst)
  | Ok keys => for_each_in_place keys (merge_global_key module) dst
  end.

Definition not_defined (symbol : string) (src : list (string * pyobj)) : exn :=
  KeyError (dquote +:+ symbol +:+ dquote +:+ " is not defined in " +:+
            match odict_get src "__name__" with
            | Some (OValue (VStr n)) => n
            | _ => EmptyString
            end).

(** [_merge_explicit_globals(src, dst, whitelist, whitelist_mapping)]: the
    outcome, and [dst] as the call leaves it. *)
Definition _merge_explicit_globals (src dst : list (string * pyobj))
    (whitelist : list string) (whitelist_mapping : list (string * string))
    : result unit * list (string * pyobj) :=
  let '(r, dst) :=
    for_each_in_place whitelist
      (λ symbol dst,
         match odict_get src symbol with
         | None => Raise (not_defined symbol src)
         | Some v => Ok (odict_set dst symbol v)
         end) dst in
  match r with
  | Raise e => (Raise e, dst)
  | Ok _ =>
      for_each_in_place whitelist_mapping
        (λ '(exported_name, symbol) dst,
           match odict_get src symbol with
           | None => Raise (not_defined symbol src)
           | Some v => Ok (odict_set dst exported_name v)
           end) dst
  end.

(** The three tables of default globals the processor keeps. *)
Inductive globals_table := ForExtension | ForImplicitInclude | ForBuildFile.

Definition default_globals_of (which : globals_table) (self : BuildFileProcessor.t)
    : list (string * pyobj) :=
  match which with
  | ForExtension => _default_globals_for_extension self
  | ForImplicitInclude => _default_globals_for_implicit_include self
  | ForBuildFile => _default_globals_for_build_file self
  end.

Definition with_default_globals (which : globals_table) (g : list (string * pyobj))
    (self : BuildFileProcessor.t) : BuildFileProcessor.t :=
  match which with
  | ForExtension =>
      BuildFileProcessor.update self (_include_cache self)
        (_current_build_env self) (_configs self) g
        (_default_globals_for_implicit_include self)
        (_default_globals_for_build_file self)
  | ForImplicitInclude =>
      BuildFileProcessor.update self (_include_cache self)
        (_current_build_env self) (_configs self)
        (_default_globals_for_extension self) g
        (_default_globals_for_build_file self)
  | ForBuildFile =>
      BuildFileProcessor.update self (_include_cache self)
        (_current_build_env self) (_configs self)
        (_default_globals_for_extension self)
        (_default_globals_for_implicit_include self) g
  end.

(** ** The code of a file *)

(** The calls into the worker that the code of a build file or of an
    extension file can make. *)
Inductive builtin_call :=
  | Call_include_defs (name : string) (namespace : option string)
  | Call_load (name : string) (symbols : list string)
      (symbol_kwargs : list (string * string))
  | Call_add_build_file_dep (name : string)
  | Call_read_config (section field : string) (default : value)
  | Call_glob (includes : seq_arg) (excludes : option seq_arg)
      (include_dotfiles : bool) (search_base : option string)
      (exclude : option seq_arg)
  | Call_rule (attrs : option (gmap string attr_arg)) (test : bool)
  | Call_native_rule (rule : RuleRecord)
  | Call_user_rule (f : loc) (kwargs : gmap string value).

(** What executing a file does, as far as the worker can tell: it binds
    and reads module-level names, calls built-ins and goes on according to
    what they return or raise, and ends or raises. A call is made by the
    top-level code of the file ([frame = None]) or by a function defined in
    an extension loaded before, given by its path. *)
Inductive code :=
  | Done
  | Throw (e : exn)
  | Assign (k : string) (v : pyobj) (rest : code)
  | Global (k : string) (rest : option pyobj → code)
  | Invoke (frame : option string) (c : builtin_call) (rest : result pyobj → code).

(** Opening, reading and compiling the file at a path. *)
Class FileSystem := {
  read_source : string → result code;
}.

(** The [packageImplicitLoad] of a query. *)
Record LoadStatement := {
  load_path : string;
  load_symbols : list (string * string)
}.

(** ** The evaluation engine *)

Definition module_dict (l : loc) : M (list (string * pyobj)) :=
  let* st := get in
  match modules st !! l with
  | Some d => ret d
  | None => raise (AttributeError "no such module")
  end.

Definition set_module_dict (l : loc) (d : list (string * pyobj)) : M unit :=
  modify (λ st, with_modules (<[l := d]> (modules st)) st).

(** [for rule in build_env.user_rules: rule.build_env = build_env] *)
Definition refresh_user_rules (build_env : loc) (st : state) : state :=
  match contexts st !! build_env with
  | Some c =>
      with_rule_objects
        (foldr (λ f, alter (UserDefinedRule.with_build_env (Some build_env)) f)
           (rule_objects st) (elements (user_rules (accumulators c)))) st
  | None => st
  end.

Definition _update_functions (build_env : option loc) (st : state) : state :=
  let st := with_functions_build_env build_env st in
  match build_env with
  | Some l => refresh_user_rules l st
  | None => st
  end.

(** [with self._set_build_env(build_env): body]; the old context comes back
    whether the body raises or not. *)
Definition _set_build_env {A} (build_env : loc) (body : M A) : M A := λ st,
  let old_env := _current_build_env (self st) in
  let st :=
    _update_functions (Some build_env)
      (with_self (with_current_build_env (Some build_env) (self st)) st) in
  let '(r, st) := body st in
  (r, _update_functions old_env
        (with_self (with_current_build_env old_env (self st)) st)).

(** [frame.f_globals]: the globals of the module whose code made the call. *)
Definition frame_globals (module : loc) (frame : option string) : M loc :=
  match frame with
  | None => ret module
  | Some path =>
      let* st := get in
      match _include_cache (self st) !! path with
      | Some (_, m) => ret m
      | None => raise (NameError path)
      end
  end.

(** A native rule function: [add_rule(rule, build_env)] with the context
    [_update_functions] bound it to. *)
Definition invoke_add_rule `{Host} (rule : RuleRecord) : M unit :=
  let* st := get in
  match functions_build_env st with
  | Some l =>
      let* c := the_context l in
      let* c := lift (add_rule rule c) in
      set_context l c
  | None =>
      raise (AssertionError "Cannot use a rule at the top-level of an included file.")
  end.

(** [rule(attrs, test)], which exists only when user-defined rules are
    enabled. *)
Definition invoke_rule `{Host} `{GeneratedRules}
    (attrs : option (gmap string attr_arg)) (test : bool) : M loc :=
  let* st := get in
  if negb (_enable_user_defined_rules (self st)) then raise (NameError "rule")
  else
    match functions_build_env st with
    | Some l =>
        let* c := the_context l in
        let* u := lift (rule attrs test c) in
        let* f := alloc in
        let* _ := modify (λ st, with_rule_objects (<[f := u]> (rule_objects st)) st) in
        ret f
    | None => raise (AssertionError "`rule()` is only allowed in extension files.")
    end.

(** Calling the rule factory at [f]. *)
Definition invoke_user_rule `{Host} (f : loc) (kwargs : gmap string value)
    : M unit :=
  let* st := get in
  match rule_objects st !! f with
  | None => raise (TypeError "object is not callable")
  | Some u =>
      let build_env := UserDefinedRule.build_env u in
      let* c :=
        lift (UserDefinedRule.__call__ u (l ← build_env; contexts st !! l) kwargs) in
      match build_env with
      | Some l => set_context l c
      | None => ret tt
      end
  end.

Definition seq_truthy (s : option seq_arg) : bool :=
  match s with
  | Some (SeqList (_ :: _)) => true
  | Some (SeqString (String _ _)) => true
  | _ => false
  end.

Definition mixing_message `{Host} (both : value) : string :=
  "Mixing 'exclude' and 'excludes' attributes is not allowed. Please replace your " +:+
  "exclude and excludes arguments with a single 'excludes = " +:+ repr both +:+ "'.".

Definition _glob `{Host} `{GlobBackends} (includes : seq_arg)
    (excludes : option seq_arg) (include_dotfiles : bool)
    (search_base : option string) (exclude : option seq_arg)
    : M (list value) :=
  match exclude, excludes with
  | Some (SeqList a), Some (SeqList b) =>
      raise (AssertionError (mixing_message (VList (VStr <$> (a ++ b)%list))))
  | Some (SeqString a), Some (SeqString b) =>
      raise (AssertionError (mixing_message (VStr (a +:+ b))))
  | Some _, Some _ => raise (TypeError "can only concatenate")
  | _, _ =>
      let excludes := if seq_truthy excludes then excludes else exclude in
      let* st := get in
      match (l ← _current_build_env (self st); contexts st !! l) with
      | Some c =>
          let '(r, c) := glob includes excludes include_dotfiles c search_base in
          let* _ :=
            match _current_build_env (self st) with
            | Some l => set_context l c
            | None => ret tt
            end in
          lift r
      | None =>
          raise (AssertionError
                   "Cannot use `glob()` at the top-level of an included file.")
      end
  end.

Section Engine.
Context `{Host} `{GeneratedRules} `{GlobBackends} `{FileSystem}.

(** The recursive call, [self._process_include]. *)
Variable _process_include : BuildInclude.t → bool → M (loc * loc).

Definition _include_defs (is_implicit_include : bool) (f_globals : loc)
    (name : string) (namespace : option string) : M unit :=
  let* st := get in
  let build_env := _current_build_env (self st) in
  let* build_include := lift (_resolve_include (self st) name) in
  let* (inner_env, module) := _process_include build_include is_implicit_include in
  let* m := module_dict module in
  let* _ :=
    match namespace with
    | Some namespace =>
        match odict_get m "__file__" with
        | None => raise (AttributeError "module has no attribute '__file__'")
        | Some file =>
            let fresh_module := odict_set (ModuleType namespace) "__file__" file in
            let '(r, fresh_module) := _merge_globals m fresh_module in
            let* _ := lift r in
            let* l := alloc in
            let* _ := set_module_dict l fresh_module in
            let* g := module_dict f_globals in
            set_module_dict f_globals (odict_set g namespace (OModule l))
        end
    | None =>
        let* g := module_dict f_globals in
        let '(r, g) := _merge_globals m g in
        let* _ := set_module_dict f_globals g in
        lift r
    end in
  let* build_env := the_env build_env in
  let* _ := add_include build_env (BuildInclude.path build_include) in
  merge_into build_env inner_env.

Definition _load (is_implicit_include : bool) (f_globals : loc) (name : string)
    (symbols : list string) (symbol_kwargs : list (string * string)) : M unit :=
  match symbols, symbol_kwargs with
  | [], [] => raise (AssertionError "expected at least one symbol to load")
  | _, _ =>
      let* st := get in
      let build_env := _current_build_env (self st) in
      let* build_include := _get_load_path name in
      let* (inner_env, module) := _process_include build_include is_implicit_include in
      let* m := module_dict module in
      let* g := module_dict f_globals in
      let '(r, g) := _merge_explicit_globals m g symbols symbol_kwargs in
      let* _ := set_module_dict f_globals g in
      let* _ := lift r in
      let* build_env := the_env build_env in
      let* _ := add_include build_env (BuildInclude.path build_include) in
      let* _ := merge_into build_env inner_env in
      modify (refresh_user_rules build_env)
  end.

Definition _load_package_implicit (build_env : loc)
    (package_implicit_load : LoadStatement) : M unit :=
  let* build_include := _get_load_path (load_path package_implicit_load) in
  let* (inner_env, module) := _process_include build_include true in
  let* m := module_dict module in
  let* _ :=
    for_eachM (load_symbols package_implicit_load)
      (λ '(key, value),
         match odict_get m value with
         | None =>
             raise (BuildFileFailError
               ("Could not find symbol '" +:+ value +:+
                "' in implicitly loaded extension '" +:+
                load_path package_implicit_load +:+ "'"))
         | Some v =>
             let* c := the_context build_env in
             match c with
             | BuildFile b =>
                 set_context build_env
                   (BuildFile (BuildFileContext.with_implicit_package_symbols
                      (<[key := v]> (BuildFileContext.implicit_package_symbols b)) b))
             | Include _ =>
                 raise (AttributeError
                   "object has no attribute 'implicit_package_symbols'")
             end
         end) in
  let* _ := add_include build_env (BuildInclude.path build_include) in
  merge_into build_env inner_env.

(** One call of a built-in, as the code running in [module] makes it. *)
Definition invoke (is_implicit_include : bool) (module : loc)
    (frame : option string) (c : builtin_call) : M pyobj :=
  match c with
  | Call_include_defs name namespace =>
      let* g := frame_globals module frame in
      let* _ := _include_defs is_implicit_include g name namespace in
      ret (OValue VNone)
  | Call_load name symbols symbol_kwargs =>
      let* g := frame_globals module frame in
      let* _ := _load is_implicit_include g name symbols symbol_kwargs in
      ret (OValue VNone)
  | Call_add_build_file_dep name =>
      let* _ := _add_build_file_dep name in ret (OValue VNone)
  | Call_read_config section field default =>
      let* v := _read_config section field default in ret (OValue v)
  | Call_glob includes excludes include_dotfiles search_base exclude =>
      let* r := _glob includes excludes include_dotfiles search_base exclude in
      ret (OValue (VList r))
  | Call_rule attrs test =>
      let* f := invoke_rule attrs test in ret (ORule f)
  | Call_native_rule rule =>
      let* _ := invoke_add_rule rule in ret (OValue VNone)
  | Call_user_rule f kwargs =>
      let* _ := invoke_user_rule f kwargs in ret (OValue VNone)
  end.

(** [exec(code, module.__dict__)] *)
Fixpoint exec (is_implicit_include : bool) (module : loc) (c : code) : M unit :=
  match c with
  | Done => ret tt
  | Throw e => raise e
  | Assign k v rest =>
      let* g := module_dict module in
      let* _ := set_module_dict module (odict_set g k v) in
      exec is_implicit_include module rest
  | Global k rest =>
      let* g := module_dict module in
      exec is_implicit_include module (rest (odict_get g k))
  | Invoke frame c rest =>
      let* r := try (invoke is_implicit_include module frame c) in
      exec is_implicit_include module (rest r)
  end.

Definition _process (build_env : loc) (path : string) (is_implicit_include : bool)
    (package_implicit_load : option LoadStatement) : M (loc * loc) :=
  let* c := the_context build_env in
  let default_globals :=
    match c with
    | Include _ => if is_implicit_include then ForImplicitInclude else ForExtension
    | BuildFile _ => ForBuildFile
    end in
  _set_build_env build_env (
    let* _ :=
      if negb is_implicit_include then
        let* st := get in
        let* _ :=
          for_eachM (_implicit_includes (self st))
            (λ include,
               let* st := get in
               let* build_include := lift (_resolve_include (self st) include) in
               let* (inner_env, module) := _process_include build_include true in
               let* m := module_dict module in
               let* st := get in
               let '(r, g) :=
                 _merge_globals m (default_globals_of default_globals (self st)) in
               let* _ := modify (λ st,
                 with_self (with_default_globals default_globals g (self st)) st) in
               let* _ := lift r in
               let* _ := add_include build_env (BuildInclude.path build_include) in
               merge_into build_env inner_env) in
        match package_implicit_load with
        | Some l => _load_package_implicit build_env l
        | None => ret tt
        end
      else ret tt in
    let* st := get in
    let* module := alloc in
    let* _ := set_module_dict module
      (dict_update (odict_set (ModuleType path) "__file__" (OValue (VStr path)))
         (default_globals_of default_globals (self st))) in
    let* contents := lift (read_source path) in
    let* g := module_dict module in
    let* _ := set_module_dict module
      (match odict_get g "__builtins__" with
       | Some _ => g
       | None => odict_set g "__builtins__" (OBuiltin "__builtins__")
       end) in
    let* _ :=
      exec (match default_globals with ForImplicitInclude => true | _ => false end)
        module contents in
    ret (build_env, module)).

(** The body of [_process_include]. *)
Definition _process_include_body (build_include : BuildInclude.t)
    (is_implicit_include : bool) : M (loc * loc) :=
  let* st := get in
  match _include_cache (self st) !! BuildInclude.path build_include with
  | Some cached => ret cached
  | None =>
      let* build_env := alloc in
      let* _ := set_context build_env
        (Include (IncludeContext.__init__ (BuildInclude.cell_name build_include)
                    (BuildInclude.path build_include)
                    (BuildInclude.label build_include))) in
      let* (build_env, module) :=
        _process build_env (BuildInclude.path build_include) is_implicit_include None in
      let* st := get in
      let* _ :=
        if _enable_user_defined_rules (self st) then
          let* m := module_dict module in
          for_eachM m
            (λ '(k, v),
               match v with
               | ORule f =>
                   let* st := get in
                   match rule_objects st !! f, contexts st !! build_env with
                   | Some u, Some (Include env as c) =>
                       if String.eqb (UserDefinedRule.label u) (IncludeContext.label env)
                       then
                         let* u := lift (UserDefinedRule.set_name u k) in
                         let* _ := modify (λ st,
                           with_rule_objects (<[f := u]> (rule_objects st)) st) in
                         set_context build_env
                           (with_accumulators
                              (with_user_rules (user_rules (accumulators c) ∪ {[f]})
                                 (accumulators c)) c)
                       else ret tt
                   | _, _ => ret tt
                   end
               | _ => ret tt
               end)
        else ret tt in
      let* _ := modify (λ st,
        with_self (with_include_cache
          (<[BuildInclude.path build_include := (build_env, module)]>
             (_include_cache (self st))) (self st)) st) in
      ret (build_env, module)
  end.

End Engine.

(** [_process_include], with the depth of the interpreter stack made
    explicit: past it, Python raises [RecursionError]. *)
Fixpoint _process_include `{Host} `{GeneratedRules} `{GlobBackends} `{FileSystem}
    (depth : nat) (build_include : BuildInclude.t) (is_implicit_include : bool)
    : M (loc * loc) :=
  match depth with
  | O => raise RecursionError
  | S depth =>
      _process_include_body (_process_include depth) build_include
        is_implicit_include
  end.

(** ** Processing a build file *)

(** [s.replace("\\", "/")] *)
Fixpoint backslashes_to_slashes (s : string) : string :=
  match s with
  | EmptyString => EmptyString
  | String c s' =>
      String (if Ascii.eqb c (ascii_of_N 92) then "/"%char else c)
        (backslashes_to_slashes s')
  end.

(** [s[:-k]] for a positive [k] *)
Definition drop_last (k : nat) (s : string) : string :=
  String.substring 0 (String.length s - k) s.

(** The order of [sorted] on strings. *)
Definition str_le (a b : string) : Prop := String.leb a b = true.

#[global] Instance str_le_dec : RelDecision str_le :=
  λ a b, decide (String.leb a b = true).

Definition sorted (l : list string) : list string := merge_sort str_le l.

Definition _process_build_file `{Host} `{GeneratedRules} `{GlobBackends}
    `{FileSystem} (depth : nat) (watch_root : string)
    (project_prefix : option string) (path : string)
    (package_implicit_load : option LoadStatement) : M (loc * loc) :=
  let* st := get in
  let relative_path_to_build_file :=
    backslashes_to_slashes (relpath path (_project_root (self st))) in
  let base_path :=
    drop_last (String.length (_build_file_name (self st)) + 1)
      relative_path_to_build_file in
  let dirname := path_dirname path in
  let* build_env := alloc in
  let* _ := set_context build_env
    (BuildFile
       {| BuildFileContext.base := empty_accumulators;
          BuildFileContext.rules := [];
          BuildFileContext.project_root := _project_root (self st);
          BuildFileContext.base_path := base_path;
          BuildFileContext.path := path;
          BuildFileContext.cell_name := _cell_name (self st);
          BuildFileContext.dirname := dirname;
          BuildFileContext.allow_empty_globs := _allow_empty_globs (self st);
          BuildFileContext.ignore_paths := _ignore_paths (self st);
          BuildFileContext.watchman_client := _watchman_client (self st);
          BuildFileContext.watchman_watch_root := watch_root;
          BuildFileContext.watchman_project_prefix := project_prefix;
          BuildFileContext.sync_cookie_state := _sync_cookie_state (self st);
          BuildFileContext.watchman_glob_stat_results :=
            _watchman_glob_stat_results (self st);
          BuildFileContext.watchman_use_glob_generator :=
            _watchman_use_glob_generator (self st);
          BuildFileContext.implicit_package_symbols := ∅ |}) in
  _process (_process_include depth) build_env path false package_implicit_load.

(** [BuildFileProcessor.process]: the rules of the build file and the three
    meta entries, and the diagnostics list extended. *)
Definition process `{Host} `{GeneratedRules} `{GlobBackends} `{FileSystem}
    (depth : nat) (watch_root : string) (project_prefix : option string)
    (path : string) (diagnostics : list Diagnostic)
    (package_implicit_load : option LoadStatement)
    : M (list RuleRecord * list Diagnostic) :=
  let* st := get in
  let* (build_env, _) :=
    _process_build_file depth watch_root project_prefix
      (path_join (_project_root (self st)) path) package_implicit_load in
  let* c := the_context build_env in
  let* st := get in
  match c with
  | Include _ => raise (AttributeError "object has no attribute 'rules'")
  | BuildFile b =>
      let a := BuildFileContext.base b in
      let values : list RuleRecord := snd <$> BuildFileContext.rules b in
      let values : list RuleRecord := (values ++
        [{["__includes" := VList (VStr <$> path :: sorted (elements (includes a)))]}])%list in
      let values : list RuleRecord := (values ++
        [{["__configs" :=
             VDict ((λ d, VDict (default ∅ (dicts st !! d))) <$> used_configs a)]}])%list in
      let values : list RuleRecord :=
        (values ++ [{["__env" := VDict (used_env_vars a)]}])%list in
      ret (values, (diagnostics ++ diagnostics_of (BuildFile b))%list)
  end.

(** ** A concrete host: CPython on POSIX

    Used to run the definitions on examples: [repr] of the values above and
    [posixpath], with the root as working directory. *)

Fixpoint has_char (c : ascii) (s : string) : bool :=
  match s with
  | EmptyString => false
  | String d s' => Ascii.eqb c d || has_char c s'
  end.

Definition hex_digit (n : N) : ascii :=
  if (n <? 10)%N then ascii_of_N (48 + n) else ascii_of_N (87 + n).

Definition backslash : ascii := ascii_of_N 92.

Definition escape_char (quote c : ascii) : string :=
  let n := N_of_ascii c in
  if Ascii.eqb c backslash then String backslash (String backslash EmptyString)
  else if Ascii.eqb c quote then String backslash (String quote EmptyString)
  else if (n =? 10)%N then String backslash "n"
  else if (n =? 13)%N then String backslash "r"
  else if (n =? 9)%N then String backslash "t"
  else if ((n <? 32) || (126 <? n))%N
  then String backslash (String "x" (String (hex_digit (n / 16))
         (String (hex_digit (n mod 16)) EmptyString)))
  else String c EmptyString.

Definition repr_str (s : string) : string :=
  let quote :=
    if has_char "'" s && negb (has_char (ascii_of_N 34) s)
    then ascii_of_N 34 else "'"%char in
  String quote EmptyString +:+
  String.concat EmptyString (escape_char quote <$> list_ascii_of_string s) +:+
  String quote EmptyString.

Fixpoint repr_value (v : value) : string :=
  match v with
  | VNone => "None"
  | VBool b => if b then "True" else "False"
  | VInt n => pretty n
  | VStr s => repr_str s
  | VUnicode cps => "u" +:+ repr_str (utf8_encode cps)
  | VList l => "[" +:+ String.concat ", " (List.map repr_value l) +:+ "]"
  | VDict d =>
      "{" +:+
      String.concat ", "
        ((λ kv, repr_str kv.1 +:+ ": " +:+ kv.2) <$> map_to_list (repr_value <$> d))
      +:+ "}"
  end.

(** [s.split(sep)] *)
Fixpoint split_on (sep : ascii) (s : string) : list string :=
  match s with
  | EmptyString => [EmptyString]
  | String c s' =>
      match split_on sep s' with
      | first :: others =>
          if Ascii.eqb c sep then EmptyString :: first :: others
          else String c first :: others
      | [] => [String c EmptyString]
      end
  end.

Definition ends_with_slash (s : string) : bool :=
  match last (list_ascii_of_string s) with
  | Some c => Ascii.eqb c "/"
  | None => false
  end.

Definition posix_join (a b : string) : string :=
  if String.prefix "/" b then b
  else if String.eqb a EmptyString || ends_with_slash a then a +:+ b
  else a +:+ "/" +:+ b.

Definition posix_normpath (path : string) : string :=
  if String.eqb path EmptyString then "."
  else
    let initial_slashes : nat :=
      if String.prefix "/" path then
        if String.prefix "//" path && negb (String.prefix "///" path) then 2 else 1
      else 0 in
    let new_comps :=
      fold_left
        (λ new_comps comp,
           if String.eqb comp EmptyString || String.eqb comp "." then new_comps
           else if negb (String.eqb comp "..")
                   || ((initial_slashes =? 0)%nat && bool_decide (new_comps = []))
                   || bool_decide (last new_comps = Some "..")
           then (new_comps ++ [comp])%list
           else removelast new_comps)
        (split_on "/" path) [] in
    let path :=
      String.concat EmptyString (replicate initial_slashes "/") +:+
      String.concat "/" new_comps in
    if String.eqb path EmptyString then "." else path.

Fixpoint dropwhile_slash (l : list ascii) : list ascii :=
  match l with
  | c :: l' => if Ascii.eqb c "/" then dropwhile_slash l' else l
  | [] => []
  end.

(** [s.rstrip("/")] *)
Definition rstrip_slashes (s : string) : string :=
  string_of_list_ascii
    (rev (dropwhile_slash (rev (list_ascii_of_string s)))).

Definition posix_dirname (p : string) : string :=
  let comps := split_on "/" p in
  let head := String.concat "/" (removelast comps) +:+
              (if (1 <? List.length comps)%nat then "/" else EmptyString) in
  if negb (String.eqb head EmptyString) && negb (all_chars (Ascii.eqb "/") head)
  then rstrip_slashes head else head.

Definition posix_abspath (p : string) : string := posix_normpath (posix_join "/" p).

Fixpoint common_prefix_length (a b : list string) : nat :=
  match a, b with
  | x :: a', y :: b' =>
      if String.eqb x y then S (common_prefix_length a' b') else 0
  | _, _ => 0
  end.

Definition posix_relpath (path start : string) : string :=
  let nonempty := List.filter (λ x, negb (String.eqb x EmptyString)) in
  let start_list := nonempty (split_on "/" (posix_abspath start)) in
  let path_list := nonempty (split_on "/" (posix_abspath path)) in
  let i := common_prefix_length start_list path_list in
  let rel_list :=
    (replicate (List.length start_list - i) ".." ++ drop i path_list)%list in
  match rel_list with
  | [] => "."
  | first :: others => fold_left posix_join others first
  end.

Definition cpython_posix : Host :=
  {| repr := repr_value; path_join := posix_join; normpath := posix_normpath;
     path_dirname := posix_dirname; relpath := posix_relpath |}.


(** ** Sample collaborators, to run the worker on examples *)

(** Implicit attribute tables in the shape of the generated ones. *)
Definition sample_generated_rules : GeneratedRules :=
  {| IMPLICIT_REQUIRED_ATTRS := {["name"]};
     IMPLICIT_OPTIONAL_ATTRS := {["labels"; "licenses"; "visibility"]};
     IMPLICIT_REQUIRED_TEST_ATTRS := {["name"]};
     IMPLICIT_OPTIONAL_TEST_ATTRS := {["contacts"; "labels"; "licenses"; "visibility"]} |}.

(** A working tree given by the list of its files: a pattern matches the
    file of the same name. There is no watcher answer. *)
Definition listed_files (files : list string) : GlobBackends :=
  {| glob_internal := λ includes excludes _ _ _ _,
       Ok (VStr <$> List.filter
             (λ f, bool_decide (f ∈ includes) && negb (bool_decide (f ∈ excludes)))
             files);
     glob_watchman := λ _ _ _ env,
       (Ok None, diagnostics (BuildFileContext.base env)) |}.

(** A file system given by the code at each path. *)
Definition files_of (files : list (string * code)) : FileSystem :=
  {| read_source := λ path,
       match odict_get files path with
       | Some c => Ok c
       | None => Raise (IOError ("No such file or directory: " +:+ path))
       end |}.

(** A JSON encoder over the values, which refuses text it cannot decode
    (here: a byte 255). *)
Definition json_str (s : string) : string := dquote +:+ s +:+ dquote.

Fixpoint json_of (v : value) : string :=
  match v with
  | VNone => "null"
  | VBool b => if b then "true" else "false"
  | VInt n => pretty n
  | VStr s => json_str s
  | VUnicode cps => json_str (utf8_encode cps)
  | VList l => "[" +:+ String.concat ", " (List.map json_of l) +:+ "]"
  | VDict d =>
      "{" +:+
      String.concat ", "
        ((λ kv, json_str kv.1 +:+ ": " +:+ kv.2) <$> map_to_list (json_of <$> d))
      +:+ "}"
  end.

Fixpoint decodable (v : value) : bool :=
  match v with
  | VStr s => negb (has_char (ascii_of_N 255) s)
  | VList l => forallb decodable l
  | VDict d => forallb (λ kv, kv.2) (map_to_list (decodable <$> d))
  | _ => true
  end.

Definition sample_json : JsonEncoder :=
  {| json_encode := λ v,
       if decodable v then inr (json_of v)
       else inl {| exc_type := "UnicodeDecodeError";
                   exc_value := "'utf8' codec can't decode byte 0xff";
                   exc_traceback := []; exc_syntax := None |} |}.

(** A worker for the project at [/repo] with one further cell. *)
Definition sample_processor : BuildFileProcessor.t :=
  {| _include_cache := ∅;
     _current_build_env := None;
     _sync_cookie_state := 1%positive;
     _project_root := "/repo";
     _cell_roots := {["cell" := "/cells/c"]};
     _cell_name := EmptyString;
     _build_file_name := "BUCK";
     _implicit_includes := [];
     _allow_empty_globs := false;
     _watchman_client := None;
     _watchman_glob_stat_results := false;
     _watchman_use_glob_generator := false;
     _configs := ∅;
     _ignore_paths := [];
     _disable_implicit_native_rules := false;
     _warn_about_deprecated_syntax := true;
     _enable_user_defined_rules := true;
     _default_globals_for_extension := [];
     _default_globals_for_implicit_include := [];
     _default_globals_for_build_file := [] |}.

Definition initial_state (self : BuildFileProcessor.t) : state :=
  {| self := self; contexts := ∅; modules := ∅; dicts := ∅;
     rule_objects := ∅; functions_build_env := None; next_loc := 2%positive |}.

(** The build-file context [_process_build_file] makes for [pkg/BUCK]. *)
Definition sample_build_env : BuildFileContext.t :=
  {| BuildFileContext.base := empty_accumulators;
     BuildFileContext.rules := [];
     BuildFileContext.project_root := "/repo";
     BuildFileContext.base_path := "pkg";
     BuildFileContext.path := "/repo/pkg/BUCK";
     BuildFileContext.cell_name := EmptyString;
     BuildFileContext.dirname := "/repo/pkg";
     BuildFileContext.allow_empty_globs := false;
     BuildFileContext.ignore_paths := [];
     BuildFileContext.watchman_client := None;
     BuildFileContext.watchman_watch_root := "/repo";
     BuildFileContext.watchman_project_prefix := None;
     BuildFileContext.sync_cookie_state := 1%positive;
     BuildFileContext.watchman_glob_stat_results := false;
     BuildFileContext.watchman_use_glob_generator := false;
     BuildFileContext.implicit_package_symbols := ∅ |}.

(** The factory of [MyRule = rule(attrs = {"x": attr.string(default = "d")})]
    in [//:r.bzl], before and after [set_name]. *)
Definition sample_rule_attrs : gmap string attr_arg :=
  {["x" := IsAttribute (Attr.string (Some (VStr "d")) None)]}.

Definition sample_unnamed_factory : UserDefinedRule.t :=
  {| UserDefinedRule.label := "//:r.bzl";
     UserDefinedRule.buck_type := None;
     UserDefinedRule.build_env := None;
     UserDefinedRule.name := None;
     UserDefinedRule.required_attrs := {["name"]};
     UserDefinedRule.optional_attrs := {["labels"; "licenses"; "visibility"]};
     UserDefinedRule.attrs := {["x" := Attr.string (Some (VStr "d")) None]};
     UserDefinedRule.all_attrs :=
       {["name"]} ∪ {["labels"; "licenses"; "visibility"]} ∪ {["x"]} |}.

Definition sample_factory : UserDefinedRule.t :=
  {| UserDefinedRule.label := "//:r.bzl";
     UserDefinedRule.buck_type := Some "//:r.bzl:MyRule";
     UserDefinedRule.build_env := None;
     UserDefinedRule.name := Some "MyRule";
     UserDefinedRule.required_attrs := {["name"]};
     UserDefinedRule.optional_attrs := {["labels"; "licenses"; "visibility"]};
     UserDefinedRule.attrs := {["x" := Attr.string (Some (VStr "d")) None]};
     UserDefinedRule.all_attrs :=
       {["name"]} ∪ {["labels"; "licenses"; "visibility"]} ∪ {["x"]} |}.

(** ** The life of a worker *)

(** What a worker does between two calls of [_process_include] that one
    may want to compare: it answers queries, processes includes, runs code
    in a module and serves the built-in calls of that code. *)
Inductive operation :=
  | Op_process_include (depth : nat) (build_include : BuildInclude.t)
      (is_implicit_include : bool)
  | Op_process (depth : nat) (watch_root : string) (project_prefix : option string)
      (path : string) (diagnostics : list Diagnostic)
      (package_implicit_load : option LoadStatement)
  | Op_exec (depth : nat) (is_implicit_include : bool) (module : loc) (c : code)
  | Op_invoke (depth : nat) (is_implicit_include : bool) (module : loc)
      (frame : option string) (c : builtin_call).

(** The store after an operation, whether it returned or raised. *)
Definition run_operation `{Host} `{GeneratedRules} `{GlobBackends} `{FileSystem}
    (op : operation) (st : state) : state :=
  match op with
  | Op_process_include depth build_include is_implicit_include =>
      snd (_process_include depth build_include is_implicit_include st)
  | Op_process depth watch_root project_prefix path diagnostics package_implicit_load =>
      snd (process depth watch_root project_prefix path diagnostics
             package_implicit_load st)
  | Op_exec depth is_implicit_include module c =>
      snd (exec (_process_include depth) is_implicit_include module c st)
  | Op_invoke depth is_implicit_include module frame c =>
      snd (invoke (_process_include depth) is_implicit_include module frame c st)
  end.

Definition run_operations `{Host} `{GeneratedRules} `{GlobBackends} `{FileSystem}
    (ops : list operation) (st : state) : state :=
  fold_left (λ st op, run_operation op st) ops st.


(** ** More built-in functions *)

(** [rule_exists(name)] *)
Definition rule_exists (name : string) (build_env : context) : result bool :=
  match build_env with
  | BuildFile env =>
      Ok (bool_decide (is_Some (odict_get (BuildFileContext.rules env) name)))
  | Include _ =>
      Raise (AssertionError
               "Cannot use `rule_exists()` at the top-level of an included file.")
  end.

(** [_get_package_name(func_name)] *)
Definition _get_package_name (func_name : string) (build_env : context)
    : result string :=
  match build_env with
  | BuildFile env => Ok (BuildFileContext.base_path env)
  | Include _ =>
      Raise (AssertionError ("Cannot use `" +:+ func_name +:+
               "()` at the top-level of an included file."))
  end.

Definition get_base_path : context → result string :=
  _get_package_name "get_base_path".

Definition package_name : context → result string :=
  _get_package_name "package_name".

(** The header maps of [subdir_glob] send a [str] to a [str]. *)
Definition conflicting_headers (key old new : string) : exn :=
  AssertionError
    ("Conflicting header files in header search paths. " +:+
     dquote +:+ key +:+ dquote +:+ " maps to both " +:+
     dquote +:+ old +:+ dquote +:+ " and " +:+ dquote +:+ new +:+ dquote +:+ ".").

Definition merge_maps (header_maps : list (gmap string string))
    : result (gmap string string) :=
  for_each header_maps
    (λ header_map result,
       for_each (map_to_list header_map)
         (λ '(key, v) result,
            match result !! key with
            | Some old =>
                if negb (String.eqb old v)
                then Raise (conflicting_headers key old v)
                else Ok (<[key := v]> result)
            | None => Ok (<[key := v]> result)
            end)
         result)
    ∅.

Definition flatten_list_of_dicts (list_of_dicts : list (gmap string value))
    : gmap string value :=
  fold_left
    (λ return_value d,
       fold_left (λ return_value kv, <[kv.1 := kv.2]> return_value)
         (map_to_list d) return_value)
    list_of_dicts ∅.

(** [n] times ["*/"]. *)
Fixpoint star_slashes (n : nat) : string :=
  match n with
  | O => EmptyString
  | S n => String "*" (String "/" (star_slashes n))
  end.

(** A string without a newline. *)
Definition no_newline (s : string) : bool :=
  all_chars (λ c, negb (is_newline c)) s.

Definition newline : string := String "010" EmptyString.

(** How many of the flags are set. *)
Definition count_true (flags : list bool) : nat :=
  List.length (List.filter id flags).

Definition os_flags (o : HostInfoOs) : list bool :=
  [is_linux o; is_macos o; is_windows o; is_freebsd o; os_is_unknown o].

Definition arch_flags (a : HostInfoArch) : list bool :=
  [is_aarch64 a; is_arm a; is_armeb a; is_i386 a; is_mips a; is_mips64 a;
   is_mipsel a; is_mipsel64 a; is_powerpc a; is_ppc64 a; arch_is_unknown a;
   is_x86_64 a].

(** ** Command-line options *)

(** [value.split(sep, 1)] *)
Fixpoint split_once (sep : ascii) (s : string) : list string :=
  match s with
  | EmptyString => [EmptyString]
  | String c s' =>
      if Ascii.eqb c sep then [EmptyString; s']
      else
        match split_once sep s' with
        | first :: others => String c first :: others
        | [] => [String c EmptyString]
        end
  end.

(** The destination dictionary after the callback, or the error of the
    option parser. *)
Inductive optparse_outcome :=
  | Stored (dest_dict : gmap string string)
  | OptionError (msg : string).

(** [_optparse_store_kv]; [dest] is [getattr(parser.values, option.dest)]. *)
Definition _optparse_store_kv (value : string) (dest : option (gmap string string))
    : optparse_outcome :=
  match split_once "=" value with
  | [k; v] => Stored (<[k := v]> (default ∅ dest))
  | _ => OptionError "Expected argument of to be in the form of X=Y"
  end.

(** ["=" in s] *)
Definition has_equals (s : string) : bool := has_char "=" s.

(** The build-file context of the build file at the root of the project. *)
Definition sample_root_build_env : BuildFileContext.t :=
  {| BuildFileContext.base := empty_accumulators;
     BuildFileContext.rules := [];
     BuildFileContext.project_root := "/repo";
     BuildFileContext.base_path := EmptyString;
     BuildFileContext.path := "/repo/BUCK";
     BuildFileContext.cell_name := EmptyString;
     BuildFileContext.dirname := "/repo";
     BuildFileContext.allow_empty_globs := true;
     BuildFileContext.ignore_paths := [];
     BuildFileContext.watchman_client := None;
     BuildFileContext.watchman_watch_root := "/repo";
     BuildFileContext.watchman_project_prefix := None;
     BuildFileContext.sync_cookie_state := 1%positive;
     BuildFileContext.watchman_glob_stat_results := false;
     BuildFileContext.watchman_use_glob_generator := false;
     BuildFileContext.implicit_package_symbols := ∅ |}.

(** A worker in the middle of the build file [pkg/BUCK]. *)
Definition sample_running_state : state :=
  {| self := with_current_build_env (Some 2%positive) sample_processor;
     contexts := {[2%positive := BuildFile sample_build_env]};
     modules := ∅; dicts := ∅; rule_objects := ∅;
     functions_build_env := Some 2%positive; next_loc := 3%positive |}.

(** An entry of the [attrs] of [rule] that [_validate_attributes] lets
    pass. *)
Definition acceptable_attr (required_attrs optional_attrs : gset string)
    (name : string) (attr : attr_arg) : Prop :=
  (name ∉ required_attrs) ∧ (name ∉ optional_attrs)
  ∧ VALID_IDENTIFIER_NAMES name = true
  ∧ ∃ a, attr = IsAttribute a.

(** The factory of [Impl = rule(attrs = {"_impl": attr.string()})] in
    [//:r.bzl], before and after [set_name]. *)
Definition sample_private_unnamed_factory : UserDefinedRule.t :=
  {| UserDefinedRule.label := "//:r.bzl";
     UserDefinedRule.buck_type := None;
     UserDefinedRule.build_env := None;
     UserDefinedRule.name := None;
     UserDefinedRule.required_attrs := {["name"]};
     UserDefinedRule.optional_attrs := {["labels"; "licenses"; "visibility"]};
     UserDefinedRule.attrs := ∅;
     UserDefinedRule.all_attrs :=
       {["name"]} ∪ {["labels"; "licenses"; "visibility"]} ∪ ∅ |}.

Definition sample_private_factory : UserDefinedRule.t :=
  {| UserDefinedRule.label := "//:r.bzl";
     UserDefinedRule.buck_type := Some "//:r.bzl:Impl";
     UserDefinedRule.build_env := None;
     UserDefinedRule.name := Some "Impl";
     UserDefinedRule.required_attrs := {["name"]};
     UserDefinedRule.optional_attrs := {["labels"; "licenses"; "visibility"]};
     UserDefinedRule.attrs := ∅;
     UserDefinedRule.all_attrs :=
       {["name"]} ∪ {["labels"; "licenses"; "visibility"]} ∪ ∅ |}.

(** [isinstance(v, types.ModuleType)] *)
Definition is_module (v : pyobj) : bool :=
  match v with OModule _ => true | _ => false end.

(** The names [_merge_globals] copies from a module that declares no
    [__all__]: public, not hidden, and not bound to a module. *)
Definition exported (module : list (string * pyobj)) (k : string) : bool :=
  negb (startswith_underscore k) && negb (_HIDDEN_GLOBALS k)
  && match odict_get module k with
     | Some v => negb (is_module v)
     | None => false
     end.

(** What [_merge_globals] may do to a name of [dst]: leave it, or bind it
    to what the module binds it to, for a public name that is not hidden
    and, unless the module declares [__all__], not bound to a module. *)
Definition copied (module dst dst' : list (string * pyobj)) (k : string) : Prop :=
  odict_get dst' k = odict_get dst k
  ∨ (odict_get dst' k = odict_get module k
     ∧ is_Some (odict_get module k)
     ∧ startswith_underscore k = false ∧ _HIDDEN_GLOBALS k = false
     ∧ (odict_get module "__all__" = None →
        ∀ v, odict_get module k = Some v → is_module v = false)).


(** ** Invariants of the store *)

(** A computation that keeps an invariant of the store, whatever its
    outcome. *)
Definition keeps {A : Type} (I : state → Prop) (m : M A) : Prop :=
  ∀ st, I st → I (m st).2.

(** A context as it is when it is made: nothing accumulated, no rule. *)
Definition new_context (c : context) : Prop :=
  accumulators c = empty_accumulators
  ∧ ∀ b, c = BuildFile b → BuildFileContext.rules b = [].

(** Entering and leaving [_set_build_env]. *)
Definition set_env (build_env : option loc) (st : state) : state :=
  _update_functions build_env
    (with_self (with_current_build_env build_env (self st)) st).

(** ** The rules of a build file *)

(** The rules of a build-file context are well formed: every record is
    stored under its name, once, and carries the package of the build
    file. *)
Definition rules_wf (b : BuildFileContext.t) : Prop :=
  NoDup (BuildFileContext.rules b).*1
  ∧ ∀ n r, (n, r) ∈ BuildFileContext.rules b →
      r !! "name" = Some (VStr n)
      ∧ r !! "buck.base_path" = Some (VStr (BuildFileContext.base_path b)).

(** A build-file context for the package [base_path], with well-formed
    rules, the first of which are [pre]. *)
Definition build_file_of (pre : list (string * RuleRecord)) (base_path : string)
    (c : context) : Prop :=
  ∃ b, c = BuildFile b ∧ BuildFileContext.base_path b = base_path ∧ rules_wf b
       ∧ pre `prefix_of` BuildFileContext.rules b.

(** The object at [l] is such a context, and the objects the store will
    make are new ones. *)
Definition build_file_at (pre : list (string * RuleRecord)) (l : loc)
    (base_path : string) (st : state) : Prop :=
  (∃ c, contexts st !! l = Some c ∧ build_file_of pre base_path c)
  ∧ ∀ l', (next_loc st ≤ l')%positive → contexts st !! l' = None.

(** [isinstance(v, basestring)]: text of either type. *)
Definition is_text (v : value) : bool :=
  match v with VStr _ | VUnicode _ => true | _ => false end.

(** A path as [glob] returns it: text that is not a [str] is encoded. *)
Definition as_str (v : value) : value :=
  match v with VUnicode cps => VStr (utf8_encode cps) | _ => v end.

(** A working tree seen through a watcher that answers [results] and
    leaves the diagnostics [diags]. *)
Definition watched_files (results : option (list value)) (diags : list Diagnostic)
    : GlobBackends :=
  {| glob_internal := λ _ _ _ _ _ _, Ok [];
     glob_watchman := λ _ _ _ _, (Ok results, diags) |}.

(** The build-file context of [pkg/BUCK] with a watcher. *)
Definition sample_watched_build_env : BuildFileContext.t :=
  {| BuildFileContext.base := empty_accumulators;
     BuildFileContext.rules := [];
     BuildFileContext.project_root := "/repo";
     BuildFileContext.base_path := "pkg";
     BuildFileContext.path := "/repo/pkg/BUCK";
     BuildFileContext.cell_name := EmptyString;
     BuildFileContext.dirname := "/repo/pkg";
     BuildFileContext.allow_empty_globs := false;
     BuildFileContext.ignore_paths := [];
     BuildFileContext.watchman_client := Some 1%positive;
     BuildFileContext.watchman_watch_root := "/repo";
     BuildFileContext.watchman_project_prefix := None;
     BuildFileContext.sync_cookie_state := 1%positive;
     BuildFileContext.watchman_glob_stat_results := false;
     BuildFileContext.watchman_use_glob_generator := false;
     BuildFileContext.implicit_package_symbols := ∅ |}.


Definition sample_files : FileSystem :=
  files_of
    [("/repo/a.bzl", Done);
     ("/repo/pkg/BUCK",
      Invoke None (Call_native_rule {["name" := VStr "lib"]}) (λ _, Done))].

(** A worker in the middle of [pkg/BUCK], whose module is the object 1. *)
Definition sample_module_state : state :=
  with_modules {[1%positive := []]} sample_running_state.

(** A worker in the middle of [pkg/BUCK], with the context of an extension
    (the object 3) that has read the section [s] of the configuration. *)
Definition sample_shared_state : state :=
  {| self := with_current_build_env (Some 2%positive)
               (with_configs {[("s", "f") := VStr "v"]} sample_processor);
     contexts :=
       {[2%positive := BuildFile sample_build_env;
         3%positive :=
           Include
             (IncludeContext.with_base
                (with_used_configs {["s" := 5%positive]} empty_accumulators)
                (IncludeContext.__init__ "" "/repo/a.bzl" "//a.bzl"))]};
     modules := ∅;
     dicts := {[5%positive := {["g" := VStr "w"]}]};
     rule_objects := ∅;
     functions_build_env := Some 2%positive;
     next_loc := 6%positive |}.

(** ** Mismatched arguments *)

Module inspect.
(** What [inspect.getargspec] gives, as far as it is used: the names of the
    parameters and the defaults of the last of them ([None] when there is
    none). *)
Record ArgSpec := { args : list string; defaults : option (list value) }.
End inspect.

(** [l.remove(k)]: the first occurrence goes; there must be one. *)
Fixpoint list_remove (k : string) (l : list string) : result (list string) :=
  match l with
  | [] => Raise (ValueError "list.remove(x): x not in list")
  | x :: l' =>
      if String.eqb x k then Ok l' else l'' ← list_remove k l'; Ok (x :: l'')
  end.

Definition get_mismatched_args (argspec : inspect.ArgSpec)
    (actual_args : list value) (actual_kwargs : gmap string value)
    : result (list string * list string) :=
  '(required_args, all_acceptable_args) ←
    for_each (imap (λ i arg, (i, arg)) (inspect.args argspec))
      (λ '(i, arg) '(required_args, all_acceptable_args),
         n ← match inspect.defaults argspec with
             | Some d => Ok (List.length d)
             | None => Raise (TypeError "object of type 'NoneType' has no len()")
             end;
         Ok (if (Z.of_nat i <?
                 Z.of_nat (List.length (inspect.args argspec)) - Z.of_nat n)%Z
             then required_args ∪ {[arg]} else required_args,
             (all_acceptable_args ++ [arg])%list))
      ((∅ : gset string), []);
  let extra_kwargs : gset string :=
    dom actual_kwargs ∖ list_to_set all_acceptable_args in
  all_acceptable_args ←
    for_each (elements (dom actual_kwargs ∖ extra_kwargs))
      (λ k all_acceptable_args, list_remove k all_acceptable_args)
      all_acceptable_args;
  let not_supplied_args := drop (List.length actual_args) all_acceptable_args in
  let missing_args :=
    List.filter (λ arg, bool_decide (arg ∈ required_args)) not_supplied_args in
  Ok (missing_args, sorted (elements extra_kwargs)).

(** The signature of a rule function:
    [def f(name, srcs, deps=None, build_env=None)]. *)
Definition sample_argspec : inspect.ArgSpec :=
  {| inspect.args := ["name"; "srcs"; "deps"; "build_env"];
     inspect.defaults := Some [VNone; VNone] |}.

(** ** One rule, two build files *)



(** The names of the rules of the context object at [l]. *)
Definition rule_names_at (st : state) (l : loc) : option (list string) :=
  match contexts st !! l with
  | Some (BuildFile b) => Some (BuildFileContext.rules b).*1
  | _ => None
  end.

(** * Properties *)

(** ** host_info *)

Lemma same_letter_lower (c d : ascii) :
  same_letter c d = true → lower_ascii c = lower_ascii d.
Proof.
  unfold same_letter, lower_ascii.
  intros Hs.
  destruct (N.eqb_spec (N_of_ascii c) (N_of_ascii d)) as [Heq | Hne].
  - assert (c = d) as ->; [| done].
    rewrite <- (ascii_N_embedding c), <- (ascii_N_embedding d). by rewrite Heq.
  - simpl in Hs. apply orb_true_iff in Hs as [Hs | Hs].
    + apply andb_true_iff in Hs as [Hs Hm]. rewrite Hs.
      apply andb_true_iff in Hs as [Hlo Hhi].
      apply N.eqb_eq in Hm. apply N.leb_le in Hlo, Hhi.
      rewrite Hm.
      replace ((65 <=? N_of_ascii c + 32)%N && (N_of_ascii c + 32 <=? 90)%N)
        with false.
      * rewrite <- Hm. by rewrite ascii_N_embedding.
      * symmetry. apply andb_false_iff. right. apply N.leb_gt. lia.
    + apply andb_true_iff in Hs as [Hs Hm]. rewrite Hs.
      apply andb_true_iff in Hs as [Hlo Hhi].
      apply N.eqb_eq in Hm. apply N.leb_le in Hlo, Hhi.
      rewrite Hm.
      replace ((65 <=? N_of_ascii d + 32)%N && (N_of_ascii d + 32 <=? 90)%N)
        with false.
      * rewrite <- Hm. by rewrite ascii_N_embedding.
      * symmetry. apply andb_false_iff. right. apply N.leb_gt. lia.
Qed.

Lemma same_ignoring_case_lower (s t : string) :
  same_ignoring_case s t = true → lower s = lower t.
Proof.
  revert t. induction s as [| c s IH]; intros [| d t]; simpl; try done.
  intros [Hc Hs]%andb_true_iff.
  by rewrite (same_letter_lower _ _ Hc), (IH _ Hs).
Qed.

(** C8. When the platform reports system "Linux" and machine "x86_64", in
    any letter case, [host_info] sets [os.is_linux], clears the other [os]
    flags and sets [arch.is_x86_64]; and a machine "amd64" gives the flags
    of "x86_64", a machine "arm64" those of "aarch64". *)
Theorem host_info_linux_x86_64 (system machine : string) :
  same_ignoring_case system "Linux" = true →
  same_ignoring_case machine "x86_64" = true →
  os (host_info system machine) =
    {| is_linux := true; is_macos := false; is_windows := false;
       is_freebsd := false; os_is_unknown := false |}
  ∧ is_x86_64 (arch (host_info system machine)) = true
  ∧ (∀ sys amd64 x86_64,
       same_ignoring_case amd64 "amd64" = true →
       same_ignoring_case x86_64 "x86_64" = true →
       arch (host_info sys amd64) = arch (host_info sys x86_64))
  ∧ (∀ sys arm64 aarch64,
       same_ignoring_case arm64 "arm64" = true →
       same_ignoring_case aarch64 "aarch64" = true →
       arch (host_info sys arm64) = arch (host_info sys aarch64)).
Proof.
  intros Hs Hm. unfold host_info.
  rewrite (same_ignoring_case_lower _ _ Hs), (same_ignoring_case_lower _ _ Hm).
  repeat split.
  - intros sys a b Ha Hb. simpl.
    by rewrite (same_ignoring_case_lower _ _ Ha), (same_ignoring_case_lower _ _ Hb).
  - intros sys a b Ha Hb. simpl.
    by rewrite (same_ignoring_case_lower _ _ Ha), (same_ignoring_case_lower _ _ Hb).
Qed.

Lemma host_info_linux_x86_64_witness :
  os (host_info "LiNuX" "X86_64") =
    {| is_linux := true; is_macos := false; is_windows := false;
       is_freebsd := false; os_is_unknown := false |}
  ∧ is_x86_64 (arch (host_info "LiNuX" "X86_64")) = true
  ∧ arch (host_info "Darwin" "AMD64") = arch (host_info "Darwin" "x86_64")
  ∧ arch (host_info "Darwin" "Arm64") = arch (host_info "Darwin" "aarch64").
Proof.
  destruct (host_info_linux_x86_64 "LiNuX" "X86_64" eq_refl eq_refl)
    as (Hos & Harch & Hamd & Harm).
  split; [exact Hos |]. split; [exact Harch |]. split.
  - exact (Hamd "Darwin" "AMD64" "x86_64" eq_refl eq_refl).
  - exact (Harm "Darwin" "Arm64" "aarch64" eq_refl eq_refl).
Defined.

(** ** Include labels *)

(** The claim of C7 read literally, the label field equal to the input for
    every well-formed label, fails on a label that names a cell: the
    resolver puts an [@] in front of it. *)
Lemma resolve_include_label_not_verbatim :
  @_resolve_include cpython_posix sample_processor "cell//defs/rules.bzl" =
    Ok {| BuildInclude.cell_name := "cell";
          BuildInclude.label := "@cell//defs/rules.bzl";
          BuildInclude.path := "/cells/c/defs/rules.bzl" |}
  ∧ "@cell//defs/rules.bzl" ≠ "cell//defs/rules.bzl".
Proof. split; [vm_compute; reflexivity | discriminate]. Qed.

(** C7, amended. For every well-formed include label, with [cell] and
    [relative_path] its two parts: when the cell is empty the resolver
    returns the label verbatim and the normalized join of the project root
    with the path part; when the cell is known it returns the label with an
    [@] in front and the normalized join of the cell root with the path
    part; an unknown cell raises. *)
Theorem resolve_include_label_and_path `{Host} (self : BuildFileProcessor.t)
    (name cell relative_path : string) :
  match_include_label name = Some (cell, relative_path) →
  match cell with
  | EmptyString =>
      _resolve_include self name =
        Ok {| BuildInclude.cell_name := EmptyString;
              BuildInclude.label := name;
              BuildInclude.path :=
                normpath (path_join (_project_root self) relative_path) |}
  | String _ _ =>
      match _cell_roots self !! cell with
      | Some cell_root =>
          _resolve_include self name =
            Ok {| BuildInclude.cell_name := cell;
                  BuildInclude.label := "@" +:+ name;
                  BuildInclude.path :=
                    normpath (path_join cell_root relative_path) |}
      | None => ∃ msg, _resolve_include self name = Raise (KeyError msg)
      end
  end.
Proof.
  intros Hm. unfold _resolve_include. rewrite Hm.
  destruct cell as [| c cell]; simpl; [done |].
  destruct (_cell_roots self !! String c cell); eauto.
Qed.

Lemma resolve_include_label_and_path_witness :
  @_resolve_include cpython_posix sample_processor "//defs/../rules.bzl" =
    Ok {| BuildInclude.cell_name := EmptyString;
          BuildInclude.label := "//defs/../rules.bzl";
          BuildInclude.path := "/repo/rules.bzl" |}.
Proof.
  exact (@resolve_include_label_and_path cpython_posix sample_processor
           "//defs/../rules.bzl" EmptyString "defs/../rules.bzl" eq_refl).
Defined.

(** ** Merging contexts *)

Lemma lookup_update {V} (self other : gmap string V) (k : string) :
  (other ∪ self) !! k =
    match other !! k with Some v => Some v | None => self !! k end.
Proof.
  destruct (other !! k) as [v |] eqn:Hk.
  - by apply lookup_union_Some_l.
  - by apply lookup_union_r.
Qed.

(** What of a context is not one of its five accumulators. *)
Definition same_other_fields (c c' : context) : Prop :=
  match c, c' with
  | BuildFile b, BuildFile b' =>
      BuildFileContext.rules b' = BuildFileContext.rules b
      ∧ BuildFileContext.project_root b' = BuildFileContext.project_root b
      ∧ BuildFileContext.base_path b' = BuildFileContext.base_path b
      ∧ BuildFileContext.path b' = BuildFileContext.path b
      ∧ BuildFileContext.cell_name b' = BuildFileContext.cell_name b
      ∧ BuildFileContext.dirname b' = BuildFileContext.dirname b
      ∧ BuildFileContext.allow_empty_globs b' = BuildFileContext.allow_empty_globs b
      ∧ BuildFileContext.ignore_paths b' = BuildFileContext.ignore_paths b
      ∧ BuildFileContext.watchman_client b' = BuildFileContext.watchman_client b
      ∧ BuildFileContext.watchman_watch_root b' = BuildFileContext.watchman_watch_root b
      ∧ BuildFileContext.watchman_project_prefix b' =
          BuildFileContext.watchman_project_prefix b
      ∧ BuildFileContext.sync_cookie_state b' = BuildFileContext.sync_cookie_state b
      ∧ BuildFileContext.watchman_glob_stat_results b' =
          BuildFileContext.watchman_glob_stat_results b
      ∧ BuildFileContext.watchman_use_glob_generator b' =
          BuildFileContext.watchman_use_glob_generator b
      ∧ BuildFileContext.implicit_package_symbols b' =
          BuildFileContext.implicit_package_symbols b
  | Include i, Include i' =>
      IncludeContext.cell_name i' = IncludeContext.cell_name i
      ∧ IncludeContext.path i' = IncludeContext.path i
      ∧ IncludeContext.label i' = IncludeContext.label i
  | _, _ => False
  end.

(** C6. [dst.merge(src)] adds the includes of [src] to those of [dst],
    appends its diagnostics in order, overwrites the entries of
    [used_configs] and [used_env_vars] with those of [src] where keys
    collide (at the top key level: the inner dictionary of [src] is taken
    whole), adds its user rules, and changes no other field of [dst]; the
    rules of a build-file context stay as they are. *)
Theorem merge_accumulators_only (dst src : context) :
  let merged := merge dst src in
  includes (accumulators merged) =
    includes (accumulators dst) ∪ includes (accumulators src)
  ∧ diagnostics (accumulators merged) =
      (diagnostics (accumulators dst) ++ diagnostics (accumulators src))%list
  ∧ (∀ section,
       used_configs (accumulators merged) !! section =
         match used_configs (accumulators src) !! section with
         | Some d => Some d
         | None => used_configs (accumulators dst) !! section
         end)
  ∧ (∀ name,
       used_env_vars (accumulators merged) !! name =
         match used_env_vars (accumulators src) !! name with
         | Some v => Some v
         | None => used_env_vars (accumulators dst) !! name
         end)
  ∧ user_rules (accumulators merged) =
      user_rules (accumulators dst) ∪ user_rules (accumulators src)
  ∧ same_other_fields dst merged.
Proof.
  destruct dst as [b | i]; simpl;
    (split; [done |]; split; [done |];
     split; [intros k; apply lookup_update |];
     split; [intros k; apply lookup_update |];
     split; [done |]);
    repeat split.
Qed.

(** ** Response encoding *)

Lemma without_none_lookup (entry : RuleRecord) (k : string) (v : value) :
  without_none entry !! k = Some v ↔ entry !! k = Some v ∧ v ≠ VNone.
Proof.
  unfold without_none. rewrite map_lookup_filter_Some. simpl.
  split; intros [Hk Hv]; (split; [done |]); by destruct v.
Qed.

Lemma result_object_values (values : list RuleRecord)
    (diagnostics : list Diagnostic) (profile : option string) :
  result_object values diagnostics profile !! "values" =
    Some (VList (VDict <$> (without_none <$> values))).
Proof.
  unfold result_object.
  destruct diagnostics, profile; by simplify_map_eq.
Qed.

(** C10. What [encode_result] first hands to the encoder is an object
    whose [values] are the given entries, each with every key bound to
    [None] removed and its other items kept, beside the diagnostics and
    the profile. When the encoder accepts that object, its encoding is the
    result. Only when the encoder refuses it are the values replaced, by
    the empty list. Either way no entry handed to the encoder binds a key
    to [None]. *)
Theorem encode_result_drops_none `{JsonEncoder} (values : list RuleRecord)
    (diagnostics : list Diagnostic) (profile : option string) :
  let first := result_object values diagnostics profile in
  first !! "values" = Some (VList (VDict <$> (without_none <$> values)))
  ∧ first !! "diagnostics" =
      match diagnostics with
      | [] => None
      | _ :: _ => Some (VList (encode_diagnostic <$> diagnostics))
      end
  ∧ first !! "profile" = VStr <$> profile
  ∧ (∀ k, k ≠ "values" → k ≠ "diagnostics" → k ≠ "profile" → first !! k = None)
  ∧ (∀ entry k v,
       without_none entry !! k = Some v ↔ entry !! k = Some v ∧ v ≠ VNone)
  ∧ ∃ (payload : gmap string value) (entries : list RuleRecord),
      encode_result values diagnostics profile = json_encode (VDict payload)
      ∧ payload !! "values" = Some (VList (VDict <$> entries))
      ∧ (∀ entry k, entry ∈ entries → entry !! k ≠ Some VNone)
      ∧ match json_encode (VDict first) with
        | inr encoded =>
            payload = first ∧ entries = without_none <$> values
            ∧ encode_result values diagnostics profile = inr encoded
        | inl e => payload = fallback_object first e ∧ entries = []
        end.
Proof.
  intros first.
  assert (∀ entry k, entry ∈ without_none <$> values → entry !! k ≠ Some VNone)
    as Hnone.
  { intros entry k (entry' & -> & _)%list_elem_of_fmap Hk.
    apply without_none_lookup in Hk as [_ Hk]. done. }
  split; [apply result_object_values |].
  split; [unfold first, result_object; destruct diagnostics, profile;
          by simplify_map_eq |].
  split; [unfold first, result_object; destruct diagnostics, profile;
          by simplify_map_eq |].
  split.
  { intros k Hv Hd Hp. unfold first, result_object.
    destruct diagnostics, profile; rewrite ?lookup_insert_ne by done;
      by apply lookup_singleton_ne. }
  split; [apply without_none_lookup |].
  unfold encode_result. fold first.
  destruct (json_encode (VDict first)) as [e | encoded] eqn:Henc.
  - exists (fallback_object first e), [].
    split; [done |]. split.
    { unfold fallback_object. by simplify_map_eq. }
    split; [| done].
    intros entry k Hin. by apply elem_of_nil in Hin.
  - exists first, (without_none <$> values).
    split; [done |]. split; [apply result_object_values |].
    split; [done |]. done.
Qed.

(** Only the keys of an entry are filtered: a [None] inside a value, such as
    the record of an unknown config key in the [__configs] entry, is
    encoded. *)
Example encode_result_keeps_inner_none :
  @encode_result sample_json
    [{["__configs" := VDict {["a" := VDict {["b" := VNone]}]}]}] [] None =
  inr ("{" +:+ dquote +:+ "values" +:+ dquote +:+ ": [{" +:+ dquote +:+
       "__configs" +:+ dquote +:+ ": {" +:+ dquote +:+ "a" +:+ dquote +:+
       ": {" +:+ dquote +:+ "b" +:+ dquote +:+ ": null}}}]}").
Proof. vm_compute. reflexivity. Qed.

(** ** Strings *)

Lemma append_assoc (a b c : string) : (a +:+ b) +:+ c = a +:+ b +:+ c.
Proof.
  induction a as [| x a IH]; [reflexivity |].
  change (String x ((a +:+ b) +:+ c) = String x (a +:+ b +:+ c)).
  by f_equal.
Qed.

Lemma contains_here (pre sub post : string) : contains (pre +:+ sub +:+ post) sub.
Proof. by exists pre, post. Qed.

Lemma contains_after (p s sub : string) : contains s sub → contains (p +:+ s) sub.
Proof.
  intros (pre & post & ->). exists (p +:+ pre), post. by rewrite append_assoc.
Qed.

(** ** glob *)

Lemma glob_results_flag `{GlobBackends} (includes excludes : list string)
    (include_dotfiles : bool) (env env' : BuildFileContext.t)
    (search_base : string) (r : result (list value)) :
  glob_results includes excludes include_dotfiles env search_base = (r, env') →
  BuildFileContext.allow_empty_globs env' = BuildFileContext.allow_empty_globs env.
Proof.
  unfold glob_results.
  destruct includes as [| i includes].
  { intros [= _ <-]. done. }
  destruct (BuildFileContext.watchman_client env).
  - destruct (glob_watchman _ _ _ _) as [[[[| ? ?] |] | e] diags]; simpl;
      repeat case_match; by intros [= _ <-].
  - by intros [= _ <-].
Qed.

(** C5. In a context whose [allow_empty_globs] is false, a [glob] call
    whose computed results are empty raises with a message that names the
    include patterns, the exclude patterns and the [include_dotfiles]
    flag; when the flag is true the empty list is returned. An empty list
    of includes always computes the empty result. *)
Theorem glob_empty_result `{Host} `{GlobBackends} (includes : list string)
    (excludes : option (list string)) (include_dotfiles : bool)
    (env env' : BuildFileContext.t) (search_base : option string) :
  let patterns := default [] excludes in
  let message := glob_no_results_message includes patterns include_dotfiles in
  String.eqb (BuildFileContext.dirname env) (BuildFileContext.project_root env)
    && existsb is_recursive_glob includes = false →
  glob_results includes patterns include_dotfiles env
    (default (BuildFileContext.dirname env) search_base) = (Ok [], env') →
  glob (SeqList includes) (SeqList <$> excludes) include_dotfiles
       (BuildFile env) search_base =
    (if BuildFileContext.allow_empty_globs env then Ok []
     else Raise (AssertionError message),
     BuildFile env')
  ∧ contains message (str (VList (VStr <$> includes)))
  ∧ contains message (str (VList (VStr <$> patterns)))
  ∧ contains message (str (VBool include_dotfiles))
  ∧ (includes = [] → env' = env).
Proof.
  intros patterns message Hcheck Hresults.
  split; [| split; [| split; [| split]]].
  - unfold glob.
    replace (default (SeqList []) (SeqList <$> excludes)) with (SeqList patterns)
      by (subst patterns; by destruct excludes).
    rewrite Hcheck, Hresults.
    rewrite (glob_results_flag _ _ _ _ _ _ _ Hresults).
    by destruct (BuildFileContext.allow_empty_globs env).
  - apply contains_here.
  - do 2 apply contains_after. apply contains_here.
  - do 4 apply contains_after. apply contains_here.
  - intros ->. by injection Hresults as <-.
Qed.

Lemma glob_empty_result_witness :
  @glob cpython_posix (listed_files ["a.txt"]) (SeqList ["*.nope"]) None false
    (BuildFile sample_build_env) None =
    (Raise (AssertionError
       ("glob(includes=['*.nope'], excludes=[], include_dotfiles=False) " +:+
        "returned no results.  (allow_empty_globs is set to false in the " +:+
        "Buck configuration)")),
     BuildFile sample_build_env).
Proof.
  exact (proj1 (@glob_empty_result cpython_posix (listed_files ["a.txt"])
                  ["*.nope"] None false sample_build_env sample_build_env None
                  eq_refl eq_refl)).
Defined.

(** ** Running computations *)

(** Unfolds the primitives of the evaluation monad. *)
Ltac run_M :=
  cbv [the_context set_context the_env alloc bind get ret raise lift modify try].

(** ** add_rule *)

(** C1. Inserting a rule record whose name is already a key of the rules of
    a build-file context raises an error whose message contains
    [Duplicate rule definition '<name>'], and leaves the rules (and the
    whole store) as they were. *)
Theorem add_rule_duplicate `{Host} (env : BuildFileContext.t)
    (rule existing : RuleRecord) (rule_name : string) :
  rule !! "name" = Some (VStr rule_name) →
  odict_get (BuildFileContext.rules env) rule_name = Some existing →
  ∃ msg,
    add_rule rule (BuildFile env) = Raise (ValueError msg)
    ∧ contains msg ("Duplicate rule definition '" +:+ rule_name +:+ "'")
    ∧ ∀ st l,
        functions_build_env st = Some l →
        contexts st !! l = Some (BuildFile env) →
        invoke_add_rule rule st = (Raise (ValueError msg), st)
        ∧ (∀ st', invoke_add_rule rule st = (Raise (ValueError msg), st') →
             contexts st' !! l = Some (BuildFile env)).
Proof.
  intros Hname Hdup.
  assert (add_rule rule (BuildFile env) =
            Raise (ValueError ("Duplicate rule definition '" +:+ rule_name +:+
                     "' found.  Found " +:+ repr (VDict rule) +:+ " and " +:+
                     repr (VDict existing)))) as Hadd.
  { unfold add_rule. by rewrite Hname, Hdup. }
  eexists. split; [exact Hadd |]. split.
  - exists EmptyString,
      (" found.  Found " +:+ repr (VDict rule) +:+ " and " +:+ repr (VDict existing)).
    change (EmptyString +:+ ?s) with s.
    by rewrite !append_assoc.
  - intros st l Hl Hc.
    assert (invoke_add_rule rule st =
              (Raise (ValueError ("Duplicate rule definition '" +:+ rule_name +:+
                        "' found.  Found " +:+ repr (VDict rule) +:+ " and " +:+
                        repr (VDict existing))), st)) as Hrun.
    { unfold invoke_add_rule. run_M. by rewrite Hl, Hc, Hadd. }
    split; [exact Hrun |].
    intros st' Hst'. rewrite Hrun in Hst'. by injection Hst' as <-.
Qed.

Lemma add_rule_duplicate_witness :
  ∃ msg,
    @add_rule cpython_posix
      (<["buck.type" := VStr "java_library"]> {["name" := VStr "a"]})
      (BuildFile (BuildFileContext.with_rules
         [("a", <["buck.type" := VStr "genrule"]> {["name" := VStr "a"]})]
         sample_build_env)) = Raise (ValueError msg)
    ∧ contains msg "Duplicate rule definition 'a'".
Proof.
  assert ((<["buck.type" := VStr "java_library"]> {["name" := VStr "a"]}
             : RuleRecord) !! "name" = Some (VStr "a")) as Hname
    by (vm_compute; reflexivity).
  destruct (@add_rule_duplicate cpython_posix
              (BuildFileContext.with_rules
                 [("a", <["buck.type" := VStr "genrule"]> {["name" := VStr "a"]})]
                 sample_build_env)
              (<["buck.type" := VStr "java_library"]> {["name" := VStr "a"]})
              (<["buck.type" := VStr "genrule"]> {["name" := VStr "a"]})
              "a" Hname eq_refl) as (msg & Hadd & Hmsg & _).
  exists msg. split; [exact Hadd | exact Hmsg].
Defined.

(** ** read_config *)

Lemma accumulators_with_accumulators (a : AbstractContext) (c : context) :
  accumulators (with_accumulators a c) = a.
Proof. by destruct c. Qed.

Lemma record_config_recorded (st : state) (l : loc) (c : context)
    (section field : string) (v : value) :
  contexts st !! l = Some c →
  ∃ st', record_config l section field v st = (Ok tt, st')
         ∧ recorded_config st' l section field = Some v
         ∧ _configs (self st') = _configs (self st).
Proof.
  intros Hc. unfold record_config. run_M. rewrite Hc.
  destruct (used_configs (accumulators c) !! section) as [d |] eqn:Hd.
  - eexists. split; [reflexivity |]. split; [| done].
    unfold recorded_config. simpl. rewrite Hc. simpl. rewrite Hd. simpl.
    rewrite lookup_insert_eq. simpl. apply lookup_insert_eq.
  - eexists. split; [reflexivity |]. split; [| done].
    unfold recorded_config. simpl. rewrite lookup_insert_eq. simpl.
    rewrite accumulators_with_accumulators. simpl.
    rewrite lookup_insert_eq. simpl. rewrite lookup_insert_eq. simpl.
    apply lookup_singleton_eq.
Qed.

(** Under Python 2 a supplied value can be text that is not a [str]; what
    is recorded and returned is then the same text as a [str], encoded in
    UTF-8. *)
Example read_config_records_encoded :
  let st :=
    with_contexts {[1%positive := BuildFile sample_build_env]}
      (initial_state
         (with_current_build_env (Some 1%positive)
            (with_configs {[("a", "b") := VUnicode [233%N]]} sample_processor))) in
  supplied_config (self st) "a" "b" = VUnicode [233%N]
  ∧ fst (_read_config "a" "b" (VStr "d") st) = Ok (VStr (utf8_encode [233%N]))
  ∧ recorded_config (snd (_read_config "a" "b" (VStr "d") st)) 1%positive "a" "b"
      = Some (VStr (utf8_encode [233%N])).
Proof. repeat split; vm_compute; reflexivity. Qed.

(** A call of [read_config] made while a context is current, for a
    supplied value that is [None], a [str] or text to encode: it records
    the value, encoded if need be, and returns it, or [default] for
    [None]. *)
Lemma read_config_recorded_value (st : state) (l : loc) (c : context)
    (section field : string) (default v : value) :
  let supplied := supplied_config (self st) section field in
  _current_build_env (self st) = Some l →
  contexts st !! l = Some c →
  (if is_none supplied || is_str supplied then Ok supplied
   else encode_utf8 supplied) = Ok v →
  ∃ st',
    _read_config section field default st =
      (Ok (if is_none v then default else v), st')
    ∧ recorded_config st' l section field = Some v
    ∧ (is_none supplied || is_str supplied = true → v = supplied).
Proof.
  intros supplied Hl Hc Hv.
  unfold _read_config. run_M. fold (supplied_config (self st) section field).
  fold supplied. rewrite Hl.
  destruct (is_none supplied || is_str supplied) eqn:Hs.
  - injection Hv as <-.
    replace (negb (is_none supplied) && negb (is_str supplied)) with false
      by (by destruct supplied).
    destruct (record_config_recorded st l c section field supplied Hc)
      as (st' & Hrec & Hlook & _).
    rewrite Hrec. exists st'. by destruct (is_none supplied).
  - replace (negb (is_none supplied) && negb (is_str supplied)) with true
      by (by destruct supplied).
    rewrite Hv.
    match goal with
    | |- context [record_config l section field v ?s] =>
        destruct (record_config_recorded s l c section field v Hc)
          as (st' & Hrec & Hlook & _)
    end.
    rewrite Hrec. exists st'. by destruct (is_none v).
Qed.

(** C2. For every call [read_config(section, field, default)] made while a
    context is current, with a supplied value as Python 3 has them (no
    text of the Python 2 type [unicode]): the call returns exactly when
    the supplied value is a [str] or is [None] (the key is unknown);
    whenever it returns, [used_configs[section][field]] is the supplied
    value after the call, and what is returned is that value when it is
    not [None] and [default] when it is. *)
Theorem read_config_records (st : state) (l : loc) (c : context)
    (section field : string) (default : value) :
  let supplied := supplied_config (self st) section field in
  _current_build_env (self st) = Some l →
  contexts st !! l = Some c →
  (∀ cps, supplied ≠ VUnicode cps) →
  (is_none supplied || is_str supplied = true →
   ∃ st',
     _read_config section field default st =
       (Ok (if is_none supplied then default else supplied), st')
     ∧ recorded_config st' l section field = Some supplied)
  ∧ (∀ r st',
       _read_config section field default st = (Ok r, st') →
       is_none supplied || is_str supplied = true
       ∧ recorded_config st' l section field = Some supplied
       ∧ r = if is_none supplied then default else supplied).
Proof.
  intros supplied Hl Hc Htext.
  assert (is_none supplied || is_str supplied = true →
          ∃ st',
            _read_config section field default st =
              (Ok (if is_none supplied then default else supplied), st')
            ∧ recorded_config st' l section field = Some supplied) as Hreturns.
  { intros Hs.
    destruct (read_config_recorded_value st l c section field default supplied
                Hl Hc) as (st' & Hrun & Hrec & _).
    - fold supplied. by rewrite Hs.
    - by exists st'. }
  split; [exact Hreturns |].
  intros r st' Hrun.
  destruct (is_none supplied || is_str supplied) eqn:Hs.
  - destruct (Hreturns eq_refl) as (st'' & Hrun' & Hrec).
    rewrite Hrun' in Hrun. injection Hrun as <- <-. done.
  - exfalso. revert Hrun. unfold _read_config. run_M.
    fold (supplied_config (self st) section field). fold supplied.
    replace (negb (is_none supplied) && negb (is_str supplied)) with true
      by (by destruct supplied).
    destruct supplied; try done. by destruct (Htext cps).
Qed.

Lemma read_config_records_witness :
  ∃ st',
    _read_config "a" "b" (VStr "d")
      (with_contexts {[1%positive := BuildFile sample_build_env]}
         (initial_state
            (with_current_build_env (Some 1%positive)
               (with_configs {[("a", "b") := VStr "v"]} sample_processor))))
      = (Ok (VStr "v"), st')
    ∧ recorded_config st' 1%positive "a" "b" = Some (VStr "v").
Proof.
  pose (st :=
    with_contexts {[1%positive := BuildFile sample_build_env]}
      (initial_state
         (with_current_build_env (Some 1%positive)
            (with_configs {[("a", "b") := VStr "v"]} sample_processor)))).
  assert (contexts st !! 1%positive = Some (BuildFile sample_build_env)) as Hc
    by (vm_compute; reflexivity).
  assert (supplied_config (self st) "a" "b" = VStr "v") as Hs
    by (vm_compute; reflexivity).
  assert (∀ cps, supplied_config (self st) "a" "b" ≠ VUnicode cps) as Htext
    by (intros cps; rewrite Hs; discriminate).
  destruct (read_config_records st 1%positive (BuildFile sample_build_env)
              "a" "b" (VStr "d") eq_refl Hc Htext) as [Hreturns _].
  rewrite Hs in Hreturns. exact (Hreturns eq_refl).
Defined.

(** A supplied value that is neither text nor [None], such as a JSON
    number, has no [encode]: the call raises and records nothing. *)
Example read_config_number :
  let st :=
    with_contexts {[1%positive := BuildFile sample_build_env]}
      (initial_state
         (with_current_build_env (Some 1%positive)
            (with_configs {[("a", "b") := VInt 1]} sample_processor))) in
  _read_config "a" "b" (VStr "d") st =
    (Raise (AttributeError "object has no attribute 'encode'"), st).
Proof. vm_compute. reflexivity. Qed.

(** ** Loops that fill a rule record *)

Section Keyed.
(** A loop body that, for each element, raises, leaves the record alone,
    or binds one key. *)
Context {A : Type} (body : A → RuleRecord → result RuleRecord)
  (g : A → result (option (string * value))).
Hypothesis body_spec : ∀ a r,
  body a r = match g a with
             | Raise e => Raise e
             | Ok None => Ok r
             | Ok (Some (k, v)) => Ok (<[k := v]> r)
             end.

Lemma for_each_keyed_ok (l : list A) (r r' : RuleRecord) :
  for_each l body r = Ok r' → ∀ a, a ∈ l → ∃ o, g a = Ok o.
Proof.
  revert r. induction l as [| a0 l IH]; intros r Hrun a Ha.
  { by apply elem_of_nil in Ha. }
  simpl in Hrun. rewrite body_spec in Hrun.
  apply elem_of_cons in Ha as [-> | Ha].
  - destruct (g a0) as [o |]; [eauto | done].
  - destruct (g a0) as [[[k v] |] |]; simpl in Hrun; [eauto .. | done].
Qed.


Lemma for_each_keyed_raise (l : list A) (r : RuleRecord) (a : A) (e : exn) :
  a ∈ l → g a = Raise e → ∃ a' e', a' ∈ l ∧ g a' = Raise e'
                                    ∧ for_each l body r = Raise e'.
Proof.
  revert r. induction l as [| a0 l IH]; intros r Ha Hg.
  { by apply elem_of_nil in Ha. }
  simpl. rewrite body_spec.
  destruct (g a0) as [o |] eqn:Ho.
  - apply elem_of_cons in Ha as [-> | Ha]; [congruence |].
    destruct o as [[k v] |]; simpl;
      (edestruct IH as (a' & e' & Ha' & Hg' & Hrun); [done .. |]);
      exists a', e'; (split; [by right |]); eauto.
  - exists a0, e0. split; [by left |]. done.
Qed.

Lemma for_each_keyed_raise_inv (l : list A) (r : RuleRecord) (e : exn) :
  for_each l body r = Raise e → ∃ a, a ∈ l ∧ g a = Raise e.
Proof.
  revert r. induction l as [| a0 l IH]; intros r Hrun; simpl in Hrun; [done |].
  rewrite body_spec in Hrun.
  destruct (g a0) as [[[k v] |] |] eqn:Ho; simpl in Hrun.
  - destruct (IH _ Hrun) as (a & Ha & Hg). exists a. split; [by right | done].
  - destruct (IH _ Hrun) as (a & Ha & Hg). exists a. split; [by right | done].
  - injection Hrun as ->. exists a0. split; [by left | done].
Qed.

Lemma for_each_keyed_untouched (l : list A) (r r' : RuleRecord) (k : string) :
  for_each l body r = Ok r' →
  (∀ a v, a ∈ l → g a ≠ Ok (Some (k, v))) →
  r' !! k = r !! k.
Proof.
  revert r. induction l as [| a0 l IH]; intros r Hrun Hk; simpl in Hrun.
  { by injection Hrun as ->. }
  rewrite body_spec in Hrun.
  destruct (g a0) as [[[k0 v0] |] |] eqn:Ho; simpl in Hrun; [| | done].
  - rewrite (IH _ Hrun); [| intros a v Ha; apply Hk; by right].
    apply lookup_insert_ne. intros ->. by eapply (Hk a0); [left |].
  - apply (IH _ Hrun). intros a v Ha. apply Hk. by right.
Qed.

Lemma for_each_keyed_bound (l : list A) (r r' : RuleRecord) (k : string)
    (v : value) :
  for_each l body r = Ok r' →
  (∀ a v', a ∈ l → g a = Ok (Some (k, v')) → v' = v) →
  r !! k = Some v ∨ (∃ a, a ∈ l ∧ g a = Ok (Some (k, v))) →
  r' !! k = Some v.
Proof.
  revert r. induction l as [| a0 l IH]; intros r Hrun Hsame Hbound;
    simpl in Hrun.
  { injection Hrun as <-. destruct Hbound as [? | (a & Ha & _)]; [done |].
    by apply elem_of_nil in Ha. }
  rewrite body_spec in Hrun.
  assert (∀ a v', a ∈ l → g a = Ok (Some (k, v')) → v' = v) as Hsame'.
  { intros a v' Ha. apply Hsame. by right. }
  destruct (g a0) as [[[k0 v0] |] |] eqn:Ho; simpl in Hrun; [| | done].
  - apply (IH _ Hrun Hsame').
    destruct (decide (k0 = k)) as [-> | Hne].
    + left. rewrite lookup_insert_eq. f_equal. eapply Hsame; [by left | done].
    + rewrite lookup_insert_ne by done.
      destruct Hbound as [? | (a & Ha & Hg)]; [by left | right].
      apply elem_of_cons in Ha as [-> | Ha]; [congruence | eauto].
  - apply (IH _ Hrun Hsame').
    destruct Hbound as [? | (a & Ha & Hg)]; [by left | right].
    apply elem_of_cons in Ha as [-> | Ha]; [congruence | eauto].
Qed.
End Keyed.

(** ** Rule factories *)

Lemma validate_attributes_spec `{Host} (required optional : gset string)
    (attrs0 : gmap string attr_arg) (m : gmap string Attr.Attribute) :
  UserDefinedRule._validate_attributes required optional attrs0 = Ok m →
  ∀ k a, m !! k = Some a →
    attrs0 !! k = Some (IsAttribute a) ∧ (k ∉ required) ∧ (k ∉ optional)
    ∧ VALID_IDENTIFIER_NAMES k = true ∧ startswith_underscore k = false.
Proof.
  unfold UserDefinedRule._validate_attributes.
  set (P := λ (k : string) (a : Attr.Attribute),
         attrs0 !! k = Some (IsAttribute a) ∧ (k ∉ required) ∧ (k ∉ optional)
         ∧ VALID_IDENTIFIER_NAMES k = true ∧ startswith_underscore k = false).
  assert (∀ l (acc : gmap string Attr.Attribute),
            (∀ k x, (k, x) ∈ l → attrs0 !! k = Some x) →
            (∀ k a, acc !! k = Some a → P k a) →
            ∀ m, for_each l
                   (λ '(name, attr) modified_attrs,
                      if bool_decide (name ∈ required) || bool_decide (name ∈ optional)
                      then Raise (ValueError (name +:+
                             " shadows a builtin attribute of the same name. Please remove it"))
                      else if negb (VALID_IDENTIFIER_NAMES name)
                      then Raise (ValueError (name +:+
                             " is not a valid python identifier. Please rename it"))
                      else match attr with
                           | NotAttribute v =>
                               Raise (ValueError (str v +:+ " for attribute " +:+ name +:+
                                        " is not an Attribute object"))
                           | IsAttribute a =>
                               if negb (startswith_underscore name)
                               then Ok (<[name := a]> modified_attrs)
                               else Ok modified_attrs
                           end) acc = Ok m →
            ∀ k a, m !! k = Some a → P k a) as Hloop.
  { induction l as [| [name attr] l IH]; intros acc Hl Hacc m'; simpl.
    { by intros [= <-]. }
    destruct (bool_decide (name ∈ required)) eqn:Hr; [done |].
    destruct (bool_decide (name ∈ optional)) eqn:Ho; [done |].
    destruct (VALID_IDENTIFIER_NAMES name) eqn:Hv; [| done].
    destruct attr as [a | v]; [| done].
    apply bool_decide_eq_false in Hr, Ho. simpl.
    destruct (startswith_underscore name) eqn:Hu; simpl.
    - apply IH; [| done]. intros k x Hk. apply Hl. by right.
    - apply IH; [intros k x Hk; apply Hl; by right |].
      intros k a' [[-> ->] | [Hne Hk]]%lookup_insert_Some; [| by apply Hacc].
      split; [apply Hl; by left | done]. }
  intros Hm. eapply Hloop; [| | exact Hm].
  - intros k x Hk. by apply elem_of_map_to_list.
  - intros k a Hk. by rewrite lookup_empty in Hk.
Qed.

Lemma buck_type_nonempty (label name : string) :
  ∃ c s, label +:+ ":" +:+ name = String c s.
Proof. destruct label as [| c l]; [by exists ":"%char, name | by eexists _, _]. Qed.

(** A factory made by [rule] and named by [set_name]. *)
Lemma named_factory `{Host} `{GeneratedRules} (label name : string)
    (attrs0 : gmap string attr_arg) (test : bool) (u0 u : UserDefinedRule.t) :
  UserDefinedRule.__init__ label attrs0 test = Ok u0 →
  UserDefinedRule.set_name u0 name = Ok u →
  UserDefinedRule.buck_type u = Some (label +:+ ":" +:+ name)
  ∧ factory_invariant u
  ∧ UserDefinedRule.required_attrs u =
      (if test then IMPLICIT_REQUIRED_TEST_ATTRS else IMPLICIT_REQUIRED_ATTRS)
  ∧ UserDefinedRule.optional_attrs u =
      (if test then IMPLICIT_OPTIONAL_TEST_ATTRS else IMPLICIT_OPTIONAL_ATTRS).
Proof.
  unfold UserDefinedRule.__init__, UserDefinedRule.set_name.
  destruct (UserDefinedRule._validate_attributes _ _ attrs0) as [m |] eqn:Hm;
    [| done].
  simpl. intros [= <-]. simpl.
  destruct (VALID_IDENTIFIER_NAMES name); [| done].
  intros [= <-]. simpl. split; [done |]. split; [| done].
  split; [done |]. simpl.
  intros k [a Hk]%elem_of_dom.
  destruct (validate_attributes_spec _ _ _ _ Hm k a Hk) as (_ & ? & ? & ? & ?).
  done.
Qed.

Lemma add_rule_ok `{Host} (rule : RuleRecord) (env : BuildFileContext.t)
    (c : context) :
  add_rule rule (BuildFile env) = Ok c ↔
  ∃ n, rule !! "name" = Some (VStr n)
       ∧ odict_get (BuildFileContext.rules env) n = None
       ∧ c = BuildFile (BuildFileContext.with_rules
               (BuildFileContext.rules env ++
                [(n, <["buck.base_path" := VStr (BuildFileContext.base_path env)]> rule)])
               env).
Proof.
  unfold add_rule. split.
  - destruct (rule !! "name") as [[] |]; try done.
    destruct (odict_get _ _) eqn:Hd; [done |].
    intros [= <-]. eauto.
  - intros (n & -> & -> & ->). done.
Qed.

Lemma required_body_spec (kwargs : gmap string value) (bt : string)
    (a : string) (r : RuleRecord) :
  (let value := dict_get kwargs a in
   if is_none value
   then Raise (ValueError (UserDefinedRule.missing_message a bt))
   else Ok (<[a := value]> r)) =
  match required_action kwargs bt a with
  | Raise e => Raise e
  | Ok None => Ok r
  | Ok (Some (k, v)) => Ok (<[k := v]> r)
  end.
Proof. unfold required_action. simpl. by destruct (is_none _). Qed.

Lemma optional_body_spec (kwargs : gmap string value) (a : string)
    (r : RuleRecord) :
  (let value := dict_get kwargs a in
   if negb (is_none value) then Ok (<[a := value]> r) else Ok r) =
  match optional_action kwargs a with
  | Raise e => Raise e
  | Ok None => Ok r
  | Ok (Some (k, v)) => Ok (<[k := v]> r)
  end.
Proof. unfold optional_action. simpl. by destruct (is_none _). Qed.

Lemma explicit_body_spec (kwargs : gmap string value) (bt : string)
    (a : string * Attr.Attribute) (r : RuleRecord) :
  (λ '(k, v) (rule : RuleRecord),
     let value := dict_get kwargs k in
     if is_none value then
       if Attr.mandatory v
       then Raise (ValueError (UserDefinedRule.missing_message k bt))
       else Ok (<[k := Attr.default v]> rule)
     else Ok (<[k := value]> rule)) a r =
  match explicit_action kwargs bt a with
  | Raise e => Raise e
  | Ok None => Ok r
  | Ok (Some (k, v)) => Ok (<[k := v]> r)
  end.
Proof.
  unfold explicit_action. destruct a as [k v]. simpl.
  destruct (is_none _); [by destruct (Attr.mandatory v) | done].
Qed.

(** The lemmas of the section [Keyed] for a run [E] of one of the loops,
    with the action [g] and its specification [spec]. *)
Ltac keyed_ok g spec E Hn :=
  match type of E with
  | for_each _ ?b _ = _ =>
      pose proof (@for_each_keyed_ok _ b g spec _ _ _ E) as Hn
  end.


Ltac keyed_raise g spec E Hn :=
  match type of E with
  | for_each ?l ?b ?r = _ =>
      pose proof (@for_each_keyed_raise _ b g spec l r) as Hn
  end.

Ltac keyed_raise_inv g spec E Hn :=
  match type of E with
  | for_each ?l ?b ?r = _ =>
      pose proof (@for_each_keyed_raise_inv _ b g spec l r) as Hn
  end.

Ltac keyed_untouched g spec E Hn :=
  match type of E with
  | for_each _ ?b _ = _ =>
      pose proof (λ k, @for_each_keyed_untouched _ b g spec _ _ _ k E) as Hn
  end.

Ltac keyed_bound g spec E Hn :=
  match type of E with
  | for_each _ ?b _ = _ =>
      pose proof (λ k v, @for_each_keyed_bound _ b g spec _ _ _ k v E) as Hn
  end.

Lemma valid_identifier_not_reserved (k : string) :
  VALID_IDENTIFIER_NAMES k = true → reserved_key k = false.
Proof.
  intros Hv. destruct (reserved_key k) eqn:Hr; [| done].
  unfold reserved_key in Hr.
  apply orb_true_iff in Hr as [->%String.eqb_eq | ->%String.eqb_eq];
    by vm_compute in Hv.
Qed.

Lemma required_action_binds (kwargs : gmap string value) (bt a k : string)
    (v : value) :
  required_action kwargs bt a = Ok (Some (k, v)) →
  k = a ∧ v = dict_get kwargs a ∧ is_none (dict_get kwargs a) = false.
Proof.
  unfold required_action. destruct (is_none _); [done |]. by intros [= <- <-].
Qed.

Lemma optional_action_binds (kwargs : gmap string value) (a k : string)
    (v : value) :
  optional_action kwargs a = Ok (Some (k, v)) →
  k = a ∧ v = dict_get kwargs a ∧ is_none (dict_get kwargs a) = false.
Proof.
  unfold optional_action. destruct (is_none _); [done |]. by intros [= <- <-].
Qed.

Lemma explicit_action_binds (kwargs : gmap string value) (bt : string)
    (a : string * Attr.Attribute) (k : string) (v : value) :
  explicit_action kwargs bt a = Ok (Some (k, v)) →
  k = a.1
  ∧ v = (if is_none (dict_get kwargs a.1) then Attr.default a.2
         else dict_get kwargs a.1).
Proof.
  unfold explicit_action. destruct (is_none _).
  - destruct (Attr.mandatory _); [done |]. by intros [= <- <-].
  - by intros [= <- <-].
Qed.

(** What a successful call has checked and recorded. *)
Lemma call_sound `{Host} (u : UserDefinedRule.t) (env : BuildFileContext.t)
    (kwargs : gmap string value) (c : ascii) (s : string) (env' : context) :
  UserDefinedRule.buck_type u = Some (String c s) →
  factory_invariant u →
  UserDefinedRule.__call__ u (Some (BuildFile env)) kwargs = Ok env' →
  dom kwargs ⊆ UserDefinedRule.all_attrs u
  ∧ (∀ p, p ∈ UserDefinedRule.required_attrs u → dict_get kwargs p ≠ VNone)
  ∧ (∀ k a, UserDefinedRule.attrs u !! k = Some a → Attr.mandatory a = true →
       dict_get kwargs k ≠ VNone)
  ∧ ∃ n record,
      env' = BuildFile (BuildFileContext.with_rules
               (BuildFileContext.rules env ++ [(n, record)]) env)
      ∧ odict_get (BuildFileContext.rules env) n = None
      ∧ record !! "name" = Some (VStr n)
      ∧ ("buck.type" ∉ UserDefinedRule.required_attrs u
                       ∪ UserDefinedRule.optional_attrs u →
         record !! "buck.type" = Some (VStr (String c s)))
      ∧ (∀ k a, UserDefinedRule.attrs u !! k = Some a →
           record !! k = Some (if is_none (dict_get kwargs k) then Attr.default a
                               else dict_get kwargs k))
      ∧ (∀ p, p ∈ UserDefinedRule.optional_attrs u →
           p ∉ UserDefinedRule.required_attrs u →
           reserved_key p = false →
           is_none (dict_get kwargs p) = true →
           record !! p = None).
Proof.
  intros Hbt [Hall Hattrs] Hcall.
  unfold UserDefinedRule.__call__ in Hcall. rewrite Hbt in Hcall.
  destruct (bool_decide (dom kwargs ∖ UserDefinedRule.all_attrs u = ∅)) eqn:Hun;
    simpl in Hcall; [| done].
  apply bool_decide_eq_true in Hun.
  destruct (for_each (elements (UserDefinedRule.required_attrs u)) _ _)
    as [r1 |] eqn:E1; simpl in Hcall; [| done].
  destruct (for_each (elements (UserDefinedRule.optional_attrs u)) _ _)
    as [r2 |] eqn:E2; simpl in Hcall; [| done].
  destruct (for_each (map_to_list (UserDefinedRule.attrs u)) _ _)
    as [r3 |] eqn:E3; simpl in Hcall; [| done].
  apply add_rule_ok in Hcall as (n & Hname & Hfree & ->).
  set (bt := String c s) in *.
  (* the keys each loop can bind *)
  assert (∀ k, (∀ a v, a ∈ elements (UserDefinedRule.required_attrs u) →
                 required_action kwargs bt a ≠ Ok (Some (k, v)))
               ∨ k ∈ UserDefinedRule.required_attrs u) as Hk1.
  { intros k. destruct (decide (k ∈ UserDefinedRule.required_attrs u)); [by right | left].
    intros a v Ha (-> & _ & _)%required_action_binds. by apply elem_of_elements in Ha. }
  assert (∀ k, (∀ a v, a ∈ elements (UserDefinedRule.optional_attrs u) →
                 optional_action kwargs a ≠ Ok (Some (k, v)))
               ∨ (k ∈ UserDefinedRule.optional_attrs u
                  ∧ is_none (dict_get kwargs k) = false)) as Hk2.
  { intros k.
    destruct (decide (k ∈ UserDefinedRule.optional_attrs u)) as [Hin | Hout].
    - destruct (is_none (dict_get kwargs k)) eqn:Hn; [left | by right].
      intros a v Ha (-> & _ & ?)%optional_action_binds. congruence.
    - left. intros a v Ha (-> & _ & _)%optional_action_binds.
      by apply elem_of_elements in Ha. }
  assert (∀ k, k ∉ dom (UserDefinedRule.attrs u) →
               ∀ a v, a ∈ map_to_list (UserDefinedRule.attrs u) →
                 explicit_action kwargs bt a ≠ Ok (Some (k, v))) as Hk3.
  { intros k Hk [k0 a0] v Ha [Hkk _]%explicit_action_binds. simpl in Hkk. subst k0.
    apply elem_of_map_to_list in Ha. apply Hk. apply elem_of_dom. eauto. }
  assert (∀ k, reserved_key k = true → k ∉ dom (UserDefinedRule.attrs u)) as Hres.
  { intros k Hr Hk. destruct (Hattrs k Hk) as (_ & _ & Hv & _).
    apply valid_identifier_not_reserved in Hv. congruence. }
  keyed_ok (required_action kwargs bt) (required_body_spec kwargs bt) E1 Hok1.
  keyed_ok (explicit_action kwargs bt) (explicit_body_spec kwargs bt) E3 Hok3.
  keyed_untouched (required_action kwargs bt) (required_body_spec kwargs bt) E1 Hun1.
  keyed_untouched (optional_action kwargs) (optional_body_spec kwargs) E2 Hun2.
  keyed_untouched (explicit_action kwargs bt) (explicit_body_spec kwargs bt) E3 Hun3.
  keyed_bound (explicit_action kwargs bt) (explicit_body_spec kwargs bt) E3 Hbound3.
  split; [set_solver |]. split; [| split].
  - intros p Hp Hnone.
    destruct (Hok1 p) as [o Ho]; [by apply elem_of_elements |].
    unfold required_action in Ho. by rewrite Hnone in Ho.
  - intros k a Hk Hm Hnone.
    destruct (Hok3 (k, a)) as [o Ho]; [by apply elem_of_map_to_list |].
    unfold explicit_action in Ho. simpl in Ho. by rewrite Hnone, Hm in Ho.
  - eexists n, _. split; [reflexivity |]. split; [done |].
    split; [by rewrite lookup_insert_ne |]. split; [| split].
    + intros Hty. rewrite lookup_insert_ne by done.
      rewrite (Hun3 "buck.type") by (apply Hk3, Hres; done).
      rewrite (Hun2 "buck.type")
        by (destruct (Hk2 "buck.type") as [? | [? _]]; [done | set_solver]).
      rewrite (Hun1 "buck.type")
        by (destruct (Hk1 "buck.type"); [done | set_solver]).
      apply lookup_singleton_eq.
    + intros k a Hk.
      assert (k ∈ dom (UserDefinedRule.attrs u)) as Hdom by (apply elem_of_dom; eauto).
      rewrite lookup_insert_ne.
      2: { intros <-. by apply (Hres "buck.base_path"). }
      apply Hbound3.
      * intros [k0 a0] v' Ha [Hkk ->]%explicit_action_binds. simpl in *. subst k0.
        apply elem_of_map_to_list in Ha. by replace a0 with a by congruence.
      * right. exists (k, a). split; [by apply elem_of_map_to_list |].
        unfold explicit_action. simpl.
        destruct (is_none (dict_get kwargs k)) eqn:Hn; [| done].
        destruct (Attr.mandatory a) eqn:Hm; [| done].
        destruct (Hok3 (k, a)) as [o Ho]; [by apply elem_of_map_to_list |].
        unfold explicit_action in Ho. simpl in Ho. by rewrite Hn, Hm in Ho.
    + intros p Hopt Hreq Hnr Hnone.
      rewrite lookup_insert_ne.
      2: { intros <-. done. }
      rewrite (Hun3 p).
      2: { apply Hk3. intros Hd. by destruct (Hattrs p Hd) as (_ & ? & _). }
      rewrite (Hun2 p) by (destruct (Hk2 p) as [? | [_ ?]]; [done | congruence]).
      rewrite (Hun1 p) by (by destruct (Hk1 p)).
      apply lookup_singleton_ne. intros <-. done.
Qed.



(** A required or mandatory attribute that is missing, or [None], makes
    the call raise; when nothing else is wrong with the call, the error is
    the one for a missing mandatory parameter. *)
Lemma call_missing `{Host} (u : UserDefinedRule.t) (build_env : option context)
    (kwargs : gmap string value) (k : string) :
  dict_get kwargs k = VNone →
  k ∈ UserDefinedRule.required_attrs u
  ∨ (∃ a, UserDefinedRule.attrs u !! k = Some a ∧ Attr.mandatory a = true) →
  is_raise (UserDefinedRule.__call__ u build_env kwargs) = true
  ∧ ∀ c s env,
      UserDefinedRule.buck_type u = Some (String c s) →
      build_env = Some (BuildFile env) →
      dom kwargs ⊆ UserDefinedRule.all_attrs u →
      ∃ p, dict_get kwargs p = VNone
           ∧ UserDefinedRule.__call__ u build_env kwargs =
               Raise (ValueError (UserDefinedRule.missing_message p (String c s))).
Proof.
  intros Hnone Hk.
  assert (∀ c s env,
            UserDefinedRule.buck_type u = Some (String c s) →
            dom kwargs ⊆ UserDefinedRule.all_attrs u →
            ∃ p, dict_get kwargs p = VNone
                 ∧ UserDefinedRule.__call__ u (Some (BuildFile env)) kwargs =
                     Raise (ValueError (UserDefinedRule.missing_message p (String c s))))
    as Hprecise.
  { intros c s env Hbt Hsub.
    unfold UserDefinedRule.__call__. rewrite Hbt.
    rewrite bool_decide_eq_true_2 by set_solver. simpl.
    set (bt := String c s) in *.
    destruct (for_each (elements (UserDefinedRule.required_attrs u)) _ _)
      as [r1 | e1] eqn:E1.
    2: { keyed_raise_inv (required_action kwargs bt) (required_body_spec kwargs bt) E1 Hi.
         destruct (Hi e1 E1) as (a & _ & Ha). unfold required_action in Ha.
         destruct (is_none (dict_get kwargs a)) eqn:Hn; [| done].
         injection Ha as <-. exists a. split; [by destruct (dict_get kwargs a) | done]. }
    destruct Hk as [Hreq | (a & Hattr & Hm)].
    { keyed_raise (required_action kwargs bt) (required_body_spec kwargs bt) E1 Hr.
      destruct (Hr k (ValueError (UserDefinedRule.missing_message k bt)))
        as (a' & e' & _ & _ & Hrun); [by apply elem_of_elements | | congruence].
      unfold required_action. by rewrite Hnone. }
    simpl.
    destruct (for_each (elements (UserDefinedRule.optional_attrs u)) _ _)
      as [r2 | e2] eqn:E2.
    2: { keyed_raise_inv (optional_action kwargs) (optional_body_spec kwargs) E2 Hi.
         destruct (Hi e2 E2) as (a' & _ & Ha). unfold optional_action in Ha.
         by destruct (negb _). }
    simpl.
    destruct (for_each (map_to_list (UserDefinedRule.attrs u)) _ _)
      as [r3 | e3] eqn:E3.
    { keyed_raise (explicit_action kwargs bt) (explicit_body_spec kwargs bt) E3 Hr.
      destruct (Hr (k, a) (ValueError (UserDefinedRule.missing_message k bt)))
        as (a' & e' & _ & _ & Hrun); [by apply elem_of_map_to_list | | congruence].
      unfold explicit_action. simpl. by rewrite Hnone, Hm. }
    keyed_raise_inv (explicit_action kwargs bt) (explicit_body_spec kwargs bt) E3 Hi.
    destruct (Hi e3 E3) as ([k' a'] & _ & Ha). unfold explicit_action in Ha.
    simpl in Ha.
    destruct (is_none (dict_get kwargs k')) eqn:Hn; [| done].
    destruct (Attr.mandatory a'); [| done].
    injection Ha as <-. exists k'. split; [by destruct (dict_get kwargs k') | done]. }
  split.
  - unfold UserDefinedRule.__call__.
    destruct (UserDefinedRule.buck_type u) as [[| c s] |] eqn:Hbt; [done | | done].
    destruct build_env as [[env | i] |]; [| done ..].
    destruct (bool_decide (dom kwargs ∖ UserDefinedRule.all_attrs u = ∅)) eqn:Hun;
      [| done].
    apply bool_decide_eq_true in Hun.
    destruct (Hprecise c s env eq_refl) as (p & _ & Hrun); [set_solver |].
    unfold UserDefinedRule.__call__ in Hrun. rewrite Hbt in Hrun.
    rewrite bool_decide_eq_true_2 in Hrun by done. simpl in *.
    by rewrite Hrun.
  - intros c s env Hbt -> Hsub. by apply Hprecise.
Qed.

Lemma sample_tables_spare_reserved_keys :
  @tables_spare_reserved_keys sample_generated_rules.
Proof.
  intros k Hk. unfold reserved_key in Hk.
  apply orb_true_iff in Hk as [->%String.eqb_eq | ->%String.eqb_eq];
    compute_done.
Qed.

Lemma sample_factory_init :
  @UserDefinedRule.__init__ cpython_posix sample_generated_rules "//:r.bzl"
    sample_rule_attrs false = Ok sample_unnamed_factory.
Proof. vm_compute. reflexivity. Qed.

Lemma sample_factory_named :
  UserDefinedRule.set_name sample_unnamed_factory "MyRule" = Ok sample_factory.
Proof. vm_compute. reflexivity. Qed.







(** ** A keyword bound to None *)

Lemma for_each_ext {A S : Type} (l : list A) (b1 b2 : A → S → result S) (s : S) :
  (∀ a s, b1 a s = b2 a s) → for_each l b1 s = for_each l b2 s.
Proof.
  intros Hb. revert s. induction l as [| a l IH]; intros s; simpl; [done |].
  rewrite Hb. destruct (b2 a s); simpl; [apply IH | done].
Qed.

Lemma result_bind_ext {A B : Type} (m1 m2 : result A) (f1 f2 : A → result B) :
  m1 = m2 → (∀ a, f1 a = f2 a) → (m1 ≫= f1) = (m2 ≫= f2).
Proof. intros -> Hf. destruct m2; simpl; [apply Hf | done]. Qed.

(** A call reads its keywords only through [kwargs.get] and through the
    set of unexpected keys. *)
Lemma call_ext `{Host} (u : UserDefinedRule.t) (build_env : option context)
    (kw1 kw2 : gmap string value) :
  (∀ p, dict_get kw1 p = dict_get kw2 p) →
  dom kw1 ∖ UserDefinedRule.all_attrs u = dom kw2 ∖ UserDefinedRule.all_attrs u →
  UserDefinedRule.__call__ u build_env kw1 = UserDefinedRule.__call__ u build_env kw2.
Proof.
  intros Hget Hdom. unfold UserDefinedRule.__call__.
  destruct (UserDefinedRule.buck_type u) as [[| c s] |]; [done | | done].
  destruct build_env as [[env | i] |]; [| done ..].
  rewrite Hdom.
  destruct (negb (bool_decide (dom kw2 ∖ UserDefinedRule.all_attrs u = ∅)));
    [done |].
  apply result_bind_ext.
  { apply for_each_ext. intros a r. simpl. by rewrite Hget. }
  intros r1. apply result_bind_ext.
  { apply for_each_ext. intros a r. simpl. by rewrite Hget. }
  intros r2. apply result_bind_ext; [| done].
  apply for_each_ext. intros [k v] r. simpl. by rewrite Hget.
Qed.

Lemma dict_get_none_or_absent (kwargs : gmap string value) (k p : string) :
  dict_get (<[k := VNone]> kwargs) p = dict_get (delete k kwargs) p.
Proof.
  unfold dict_get. destruct (decide (k = p)) as [-> | Hne].
  - by rewrite lookup_insert_eq, lookup_delete_eq.
  - by rewrite lookup_insert_ne, lookup_delete_ne.
Qed.

(** C9. A keyword of a rule factory call that is bound to [None] counts as
    absent: for an accepted attribute the call with the keyword bound to
    [None] is the call without the keyword; a required attribute or a
    mandatory explicit one then raises (the "Mandatory parameter ... was
    missing" error when the call is otherwise well formed), an optional
    attribute is left out of the record, and an explicit attribute that
    is not mandatory gets its default. *)
Theorem user_rule_none_is_absent `{Host} `{GeneratedRules} (label name : string)
    (attrs0 : gmap string attr_arg) (test : bool) (u0 u : UserDefinedRule.t)
    (build_env : option context) (kwargs : gmap string value) (k : string) :
  tables_spare_reserved_keys →
  UserDefinedRule.__init__ label attrs0 test = Ok u0 →
  UserDefinedRule.set_name u0 name = Ok u →
  let accepted :=
    UserDefinedRule.required_attrs u ∪ UserDefinedRule.optional_attrs u
    ∪ dom (UserDefinedRule.attrs u) in
  k ∈ accepted →
  let call := UserDefinedRule.__call__ u build_env (<[k := VNone]> kwargs) in
  call = UserDefinedRule.__call__ u build_env (delete k kwargs)
  ∧ (k ∈ UserDefinedRule.required_attrs u
     ∨ (∃ v, UserDefinedRule.attrs u !! k = Some v ∧ Attr.mandatory v = true) →
     is_raise call = true
     ∧ ∀ env, build_env = Some (BuildFile env) → dom kwargs ⊆ accepted →
         ∃ p, dict_get (<[k := VNone]> kwargs) p = VNone
              ∧ call = Raise (ValueError
                         (UserDefinedRule.missing_message p (label +:+ ":" +:+ name))))
  ∧ (k ∈ UserDefinedRule.optional_attrs u → k ∉ UserDefinedRule.required_attrs u →
     ∀ env env', build_env = Some (BuildFile env) → call = Ok env' →
       ∃ n record,
         env' = BuildFile (BuildFileContext.with_rules
                  (BuildFileContext.rules env ++ [(n, record)]) env)
         ∧ record !! k = None)
  ∧ (∀ v, UserDefinedRule.attrs u !! k = Some v → Attr.mandatory v = false →
     ∀ env env', build_env = Some (BuildFile env) → call = Ok env' →
       ∃ n record,
         env' = BuildFile (BuildFileContext.with_rules
                  (BuildFileContext.rules env ++ [(n, record)]) env)
         ∧ record !! k = Some (Attr.default v)).
Proof.
  intros Hspare Hinit Hname accepted Hk call.
  destruct (named_factory _ _ _ _ _ _ Hinit Hname) as (Hbt & Hinv & Hreq & Hopt).
  destruct (buck_type_nonempty label name) as (c & s & Hcs).
  rewrite Hcs in *.
  assert (UserDefinedRule.all_attrs u = accepted) as Hall by apply Hinv.
  assert (dict_get (<[k := VNone]> kwargs) k = VNone) as Hnone.
  { unfold dict_get. by rewrite lookup_insert_eq. }
  split; [| split; [| split]].
  - apply call_ext; [apply dict_get_none_or_absent |].
    rewrite dom_insert_L, dom_delete_L, Hall. set_solver.
  - intros Hmissing.
    destruct (call_missing u build_env _ k Hnone Hmissing) as [Hraise Hprecise].
    split; [exact Hraise |].
    intros env Henv Hsub. apply (Hprecise c s env Hbt Henv).
    rewrite dom_insert_L, Hall. set_solver.
  - intros Hoptional Hnotreq env env' -> Hcall.
    destruct (call_sound _ _ _ _ _ _ Hbt Hinv Hcall)
      as (_ & _ & _ & n & record & -> & _ & _ & _ & _ & Homit).
    exists n, record. split; [done |].
    apply Homit; [done | done | | by rewrite Hnone].
    destruct (reserved_key k) eqn:Hr; [| done].
    specialize (Hspare k Hr). rewrite Hopt in Hoptional.
    destruct test; set_solver.
  - intros v Hv Hm env env' -> Hcall.
    destruct (call_sound _ _ _ _ _ _ Hbt Hinv Hcall)
      as (_ & _ & _ & n & record & -> & _ & _ & _ & Hattr & _).
    exists n, record. split; [done |].
    rewrite (Hattr k v Hv). by rewrite Hnone.
Qed.

Lemma user_rule_none_is_absent_witness :
  @UserDefinedRule.__call__ cpython_posix sample_factory
    (Some (BuildFile sample_build_env))
    (<["x" := VNone]> {["name" := VStr "n"]}) =
  @UserDefinedRule.__call__ cpython_posix sample_factory
    (Some (BuildFile sample_build_env)) (delete "x" {["name" := VStr "n"]}).
Proof.
  refine (proj1 (@user_rule_none_is_absent cpython_posix sample_generated_rules
                   "//:r.bzl" "MyRule" sample_rule_attrs false
                   sample_unnamed_factory sample_factory
                   (Some (BuildFile sample_build_env)) {["name" := VStr "n"]} "x"
                   sample_tables_spare_reserved_keys sample_factory_init
                   sample_factory_named _)).
  compute_done.
Defined.

(** With the sample factory: [x = None] gives the default of [x], and
    [name = None] is the error for a missing mandatory parameter. *)
Example user_rule_none_examples :
  @UserDefinedRule.__call__ cpython_posix sample_factory
    (Some (BuildFile sample_build_env))
    (<["x" := VNone]> {["name" := VStr "n"]}) =
    Ok (BuildFile (BuildFileContext.with_rules
          [("n", <["buck.base_path" := VStr "pkg"]>
                   (<["x" := VStr "d"]>
                      (<["name" := VStr "n"]>
                         {["buck.type" := VStr "//:r.bzl:MyRule"]})))]
          sample_build_env))
  ∧ @UserDefinedRule.__call__ cpython_posix sample_factory
      (Some (BuildFile sample_build_env)) {["name" := VNone]} =
      Raise (ValueError "Mandatory parameter 'name' for //:r.bzl:MyRule was missing").
Proof. split; vm_compute; reflexivity. Qed.

(** ** Strings *)

Lemma append_cons (c : ascii) (s t : string) :
  String c s +:+ t = String c (s +:+ t).
Proof. reflexivity. Qed.

Lemma append_nil_l (t : string) : EmptyString +:+ t = t.
Proof. reflexivity. Qed.

Lemma append_nil_r (s : string) : s +:+ EmptyString = s.
Proof. induction s as [| c s IH]; [done |]. by rewrite append_cons, IH. Qed.

(** ** Recursive globs *)

Lemma is_recursive_glob_other (a : ascii) (s : string) :
  a ≠ "*"%char → is_recursive_glob (String a s) = false.
Proof.
  intros Hne. destruct a as [[] [] [] [] [] [] [] []]; try done.
Qed.

Lemma is_recursive_glob_star_other (b : ascii) (s : string) :
  b ≠ "*"%char → b ≠ "/"%char →
  is_recursive_glob (String "*" (String b s)) = false.
Proof.
  intros H1 H2. destruct b as [[] [] [] [] [] [] [] []]; try done.
Qed.

Lemma is_recursive_glob_star_star (s : string) :
  is_recursive_glob (String "*" (String "*" s)) = true →
  ∃ rest, s = String "/" rest.
Proof.
  destruct s as [| c rest]; [done |].
  destruct (Ascii.eqb_spec c "/") as [-> | Hne]; [by eexists |].
  destruct c as [[] [] [] [] [] [] [] []]; try done.
Qed.

Lemma is_recursive_glob_spec (pattern : string) :
  is_recursive_glob pattern = true ↔
  ∃ n rest, pattern = star_slashes n +:+ "**/" +:+ rest.
Proof.
  split.
  - remember (String.length pattern) as m eqn:Hm.
    revert pattern Hm. induction (lt_wf m) as [m _ IH]. intros pattern Hm.
    destruct pattern as [| a [| b rest]]; try done.
    + destruct (Ascii.eqb_spec a "*") as [-> | Hne]; [done |].
      by rewrite is_recursive_glob_other.
    + destruct (Ascii.eqb_spec a "*") as [-> | Hne];
        [| by rewrite is_recursive_glob_other].
      destruct (Ascii.eqb_spec b "*") as [-> | Hb].
      { intros [rest' ->]%is_recursive_glob_star_star. by exists 0, rest'. }
      destruct (Ascii.eqb_spec b "/") as [-> | Hb'];
        [| by rewrite is_recursive_glob_star_other].
      simpl. intros Hrest.
      destruct (IH (String.length rest)) with (pattern := rest)
        as (n & rest' & ->); [simpl in Hm; lia | done | done |].
      by exists (S n), rest'.
  - intros (n & rest & ->). induction n as [| n IH]; [done |].
    simpl. rewrite !append_cons. exact IH.
Qed.

(** X1. In the build file at the root of the project ([dirname] equal to
    [project_root]), a [glob] whose include patterns hold a recursive one
    (any number of [*/], then [**/]) raises the build-file failure
    [Recursive globs are prohibited at top-level directory]; no glob engine
    is consulted and the context stays as it was. *)
Theorem glob_recursive_at_root `{Host} `{GlobBackends} (includes : list string)
    (excludes : option (list string)) (include_dotfiles : bool)
    (env : BuildFileContext.t) (search_base : option string)
    (n : nat) (rest : string) :
  BuildFileContext.dirname env = BuildFileContext.project_root env →
  star_slashes n +:+ "**/" +:+ rest ∈ includes →
  glob (SeqList includes) (SeqList <$> excludes) include_dotfiles (BuildFile env)
    search_base =
  (Raise (BuildFileFailError "Recursive globs are prohibited at top-level directory"),
   BuildFile env).
Proof.
  intros Hroot Hin. unfold glob.
  assert (existsb is_recursive_glob includes = true) as ->.
  { apply existsb_exists. eexists. split; [by apply list_elem_of_In |].
    apply is_recursive_glob_spec. by eexists _, _. }
  rewrite Hroot, String.eqb_refl. by destruct excludes.
Qed.

Lemma glob_recursive_at_root_witness :
  @glob cpython_posix (listed_files ["a/b.c"]) (SeqList ["*.c"; "*/**/*.c"]) None
    false (BuildFile sample_root_build_env) None =
  (Raise (BuildFileFailError "Recursive globs are prohibited at top-level directory"),
   BuildFile sample_root_build_env).
Proof.
  apply (@glob_recursive_at_root cpython_posix (listed_files ["a/b.c"])
           ["*.c"; "*/**/*.c"] None false sample_root_build_env None 1 "*.c").
  - reflexivity.
  - vm_compute. right. left.
Defined.

(** ** Merging contexts *)

(** X2. Merging composes: merging [a] and then [b] into a context is merging
    into it [a] with [b] merged in; and merging a context whose
    accumulators are all empty changes nothing. *)
Theorem merge_assoc_neutral (dst a b : context) :
  merge (merge dst a) b = merge dst (merge a b)
  ∧ (accumulators a = empty_accumulators → merge dst a = dst).
Proof.
  split.
  - unfold merge. rewrite !accumulators_with_accumulators.
    unfold merge_accumulators; simpl.
    rewrite !(assoc_L (∪)), !(assoc_L (++)).
    by destruct dst.
  - intros Ha. unfold merge, merge_accumulators. rewrite Ha. simpl.
    rewrite !(right_id_L ∅ (∪)), !(left_id_L ∅ (∪)), app_nil_r.
    by destruct dst as [[[]] | [[]]].
Qed.

Lemma merge_assoc_neutral_witness :
  merge (BuildFile sample_build_env)
    (Include (IncludeContext.__init__ "" "/repo/a.bzl" "//:a.bzl")) =
  BuildFile sample_build_env.
Proof.
  apply (merge_assoc_neutral (BuildFile sample_build_env)
           (Include (IncludeContext.__init__ "" "/repo/a.bzl" "//:a.bzl"))
           (BuildFile sample_build_env)).
  reflexivity.
Defined.

(** X3. Merging the same context a second time changes the diagnostics
    only: they are appended once more, while the includes, the used
    configuration, the used environment and the user rules are as after
    the first merge. *)
Theorem merge_twice (dst src : context) :
  let once := accumulators (merge dst src) in
  let twice := accumulators (merge (merge dst src) src) in
  includes twice = includes once
  ∧ used_configs twice = used_configs once
  ∧ used_env_vars twice = used_env_vars once
  ∧ user_rules twice = user_rules once
  ∧ diagnostics twice = (diagnostics once ++ diagnostics (accumulators src))%list.
Proof.
  unfold merge. rewrite !accumulators_with_accumulators. simpl.
  split; [by rewrite <- (assoc_L (∪)), (idemp_L (∪)) |].
  split; [by rewrite (assoc_L (∪)), (idemp_L (∪)) |].
  split; [by rewrite (assoc_L (∪)), (idemp_L (∪)) |].
  split; [by rewrite <- (assoc_L (∪)), (idemp_L (∪)) | done].
Qed.

(** ** host_info *)

Lemma supported_os_cases (k v : string) :
  __supported_oses !! k = Some v →
  v ∈ ["macos"; "windows"; "linux"; "freebsd"].
Proof.
  unfold __supported_oses. intros Hk%elem_of_list_to_map_2.
  repeat (apply elem_of_cons in Hk as [[= _ <-] | Hk]; [set_solver |]).
  by apply elem_of_nil in Hk.
Qed.

Lemma supported_arch_cases (k v : string) :
  __supported_archs !! k = Some v →
  v ∈ ["aarch64"; "arm"; "armeb"; "i386"; "mips"; "mips64"; "mipsel";
       "mipsel64"; "powerpc"; "ppc64"; "unknown"; "x86_64"].
Proof.
  unfold __supported_archs. intros Hk%elem_of_list_to_map_2.
  repeat (apply elem_of_cons in Hk as [[= _ <-] | Hk]; [set_solver |]).
  by apply elem_of_nil in Hk.
Qed.

(** X4. Whatever the platform reports, [host_info] sets exactly one of the
    five [os] flags and exactly one of the twelve [arch] flags; a system or
    a machine that is in neither table sets [is_unknown]. *)
Theorem host_info_one_flag (platform_system platform_machine : string) :
  let h := host_info platform_system platform_machine in
  count_true (os_flags (os h)) = 1
  ∧ count_true (arch_flags (arch h)) = 1
  ∧ (__supported_oses !! lower platform_system = None →
     os_is_unknown (os h) = true)
  ∧ (__supported_archs !! lower platform_machine = None →
     arch_is_unknown (arch h) = true).
Proof.
  unfold host_info. cbv zeta.
  destruct (__supported_oses !! lower platform_system) as [o |] eqn:Ho;
    destruct (__supported_archs !! lower platform_machine) as [a |] eqn:Ha;
    cbn [default os arch os_is_unknown arch_is_unknown];
    try (apply supported_os_cases in Ho);
    try (apply supported_arch_cases in Ha);
    repeat match goal with
           | H : _ ∈ _ :: _ |- _ => apply elem_of_cons in H as [-> | H]
           | H : _ ∈ [] |- _ => by apply elem_of_nil in H
           end;
    by vm_compute.
Qed.

Lemma host_info_one_flag_witness :
  os_is_unknown (os (host_info "Plan9" "vax")) = true.
Proof.
  apply (host_info_one_flag "Plan9" "vax"). vm_compute. reflexivity.
Defined.

(** ** The syntax of labels *)

Lemma span_spec (p : ascii → bool) (s a b : string) :
  span p s = (a, b) →
  s = a +:+ b ∧ all_chars p a = true
  ∧ match b with String c _ => p c = false | EmptyString => True end.
Proof.
  revert a b. induction s as [| c s IH]; intros a b; simpl.
  { by intros [= <- <-]. }
  destruct (p c) eqn:Hc.
  - destruct (span p s) as [a' b'] eqn:Hs. intros [= <- <-].
    destruct (IH a' b' eq_refl) as (-> & Ha & Hb).
    simpl. by rewrite Hc, Ha.
  - intros [= <- <-]. by rewrite Hc.
Qed.

Lemma span_intro (p : ascii → bool) (a b : string) :
  all_chars p a = true →
  match b with String c _ => p c = false | EmptyString => True end →
  span p (a +:+ b) = (a, b).
Proof.
  intros Ha Hb. induction a as [| c a IH].
  - rewrite append_nil_l. destruct b as [| c b]; [done |]. simpl. by rewrite Hb.
  - simpl in Ha. apply andb_true_iff in Ha as [Hc Ha].
    rewrite append_cons. simpl. by rewrite Hc, (IH Ha).
Qed.

Lemma is_newline_spec (c : ascii) : is_newline c = true ↔ c = "010"%char.
Proof. unfold is_newline. apply Ascii.eqb_eq. Qed.

Lemma dot_star_to_end_spec (s body : string) :
  dot_star_to_end s = Some body ↔
  no_newline body = true ∧ (s = body ∨ s = body +:+ newline).
Proof.
  unfold dot_star_to_end, no_newline. split.
  - destruct (span _ s) as [a b] eqn:Hs.
    apply span_spec in Hs as (-> & Ha & Hb).
    destruct b as [| c [| d b]]; [| | done].
    + intros [= <-]. split; [done |]. left. by rewrite append_nil_r.
    + intros [= <-]. split; [done |]. right.
      apply negb_false_iff, is_newline_spec in Hb. by subst c.
  - intros [Hb [-> | ->]].
    + rewrite <- (append_nil_r body) at 1. by rewrite (span_intro _ body "").
    + by rewrite (span_intro _ body newline).
Qed.

Lemma is_word_char_slash : is_word_char "/" = false.
Proof. reflexivity. Qed.

Lemma match_include_label_spec (name cell relative_path : string) :
  match_include_label name = Some (cell, relative_path) ↔
  all_chars is_word_char cell = true ∧ no_newline relative_path = true
  ∧ (name = cell +:+ "//" +:+ relative_path
     ∨ name = cell +:+ "//" +:+ relative_path +:+ newline).
Proof.
  unfold match_include_label. split.
  - destruct (span is_word_char name) as [a b] eqn:Hs.
    apply span_spec in Hs as (-> & Ha & Hb).
    destruct b as [| c1 [| c2 tail]]; try done.
    { by destruct c1 as [[] [] [] [] [] [] [] []]. }
    destruct (Ascii.eqb_spec c1 "/") as [-> | H1];
      [| by destruct c1 as [[] [] [] [] [] [] [] []]].
    destruct (Ascii.eqb_spec c2 "/") as [-> | H2];
      [| by destruct c2 as [[] [] [] [] [] [] [] []]].
    destruct (dot_star_to_end tail) as [body |] eqn:Ht; [| done].
    simpl. intros [= <- <-].
    apply dot_star_to_end_spec in Ht as [Hn [-> | ->]]; auto.
  - intros (Hc & Hp & Hname).
    assert (dot_star_to_end relative_path = Some relative_path) as H1
      by (apply dot_star_to_end_spec; auto).
    assert (dot_star_to_end (relative_path +:+ newline) = Some relative_path) as H2
      by (apply dot_star_to_end_spec; auto).
    destruct Hname as [-> | ->].
    + rewrite (span_intro _ cell ("//" +:+ relative_path)) by done.
      rewrite !append_cons, append_nil_l. by rewrite H1.
    + rewrite (span_intro _ cell ("//" +:+ relative_path +:+ newline)) by done.
      rewrite !append_cons, append_nil_l. by rewrite H2.
Qed.

(** X5. The labels [include_defs] and [add_build_file_dep] accept are: a
    cell of word characters (possibly none), two slashes, and a path
    without a newline, with or without one final newline, which is then
    no part of the path. Every other argument, and only those, raises the
    error [should be in the form of //path or cellname//path]. *)
Theorem include_label_syntax `{Host} (self : BuildFileProcessor.t)
    (name : string) :
  (∀ cell relative_path,
     match_include_label name = Some (cell, relative_path) ↔
     all_chars is_word_char cell = true ∧ no_newline relative_path = true
     ∧ (name = cell +:+ "//" +:+ relative_path
        ∨ name = cell +:+ "//" +:+ relative_path +:+ newline))
  ∧ (match_include_label name = None ↔
     _resolve_include self name =
       Raise (ValueError ("include_defs argument " +:+ name +:+
                " should be in the form of //path or cellname//path"))).
Proof.
  split; [intros; apply match_include_label_spec |].
  unfold _resolve_include.
  destruct (match_include_label name) as [[cell path] |]; [| done].
  split; [done |].
  destruct (0 <? String.length cell)%nat; [| done].
  by destruct (_cell_roots self !! cell).
Qed.

Lemma all_chars_app (p : ascii → bool) (a b : string) :
  all_chars p (a +:+ b) = all_chars p a && all_chars p b.
Proof.
  induction a as [| c a IH]; [done |].
  rewrite append_cons. simpl. by rewrite IH, andb_assoc.
Qed.

Lemma split_last_colon_none (s : string) :
  has_char ":" s = false → split_last_colon s = None.
Proof.
  induction s as [| c s IH]; [done |]. cbn [has_char split_last_colon].
  intros [Hc Hs]%orb_false_iff. rewrite (IH Hs).
  by rewrite Ascii.eqb_sym, Hc.
Qed.

Lemma split_last_colon_app (package target : string) :
  has_char ":" target = false →
  split_last_colon (package +:+ ":" +:+ target) = Some (package, target).
Proof.
  intros Ht. induction package as [| c package IH].
  - rewrite append_nil_l, append_cons, append_nil_l. cbn [split_last_colon].
    by rewrite split_last_colon_none.
  - rewrite append_cons. cbn [split_last_colon]. by rewrite IH.
Qed.

Lemma match_package_target_app (package target : string) :
  no_newline package = true → no_newline target = true →
  has_char ":" target = false →
  match_package_target (package +:+ ":" +:+ target) = Some (package, target).
Proof.
  intros Hp Ht Hc. unfold match_package_target.
  assert (dot_star_to_end (package +:+ ":" +:+ target)
          = Some (package +:+ ":" +:+ target)) as ->.
  { apply dot_star_to_end_spec. split; [| by left].
    unfold no_newline in *. by rewrite !all_chars_app, Hp, Ht. }
  simpl. by apply split_last_colon_app.
Qed.

Lemma is_cell_char_not_at (c : ascii) : is_cell_char c = true → c ≠ "@"%char.
Proof. by intros Hc ->. Qed.

(** With a cell written with its [@]. *)
Lemma match_load_label_at (package target : string) (c0 : ascii)
    (cell' : string) :
  let cell := String c0 cell' in
  all_chars is_cell_char cell = true →
  no_newline package = true → no_newline target = true →
  has_char ":" target = false →
  match_load_label ("@" +:+ cell +:+ "//" +:+ package +:+ ":" +:+ target) =
  Some {| group_root := Some ("@" +:+ cell +:+ "//");
          group_cell := Some ("@" +:+ cell);
          group_package := package; group_target := target |}.
Proof.
  intros cell Hc Hp Ht Hcolon. unfold match_load_label, match_root.
  pose proof (match_package_target_app package target Hp Ht Hcolon) as Hpt.
  set (tail := package +:+ ":" +:+ target) in *.
  rewrite append_cons, append_nil_l. cbv beta iota.
  change ("//" +:+ tail) with (String "/" (String "/" tail)).
  rewrite (span_intro is_cell_char cell (String "/" (String "/" tail))) by done.
  unfold cell at 1. cbv beta iota. by rewrite Hpt.
Qed.

Lemma match_root_plain (c0 : ascii) (s : string) :
  c0 ≠ "@"%char →
  match_root (String c0 s) =
  let '(run, rest) := span is_cell_char (String c0 s) in
  match run, rest with
  | String _ _, String "/" (String "/" tail) => Some (Some run, run +:+ "//", tail)
  | _, _ =>
      match String c0 s with
      | String "/" (String "/" tail) => Some (None, "//", tail)
      | _ => None
      end
  end.
Proof.
  intros Hne. unfold match_root.
  destruct c0 as [[] [] [] [] [] [] [] []]; try done.
Qed.

(** With a cell written without [@]. *)
Lemma match_load_label_plain (package target : string) (c0 : ascii)
    (cell' : string) :
  let cell := String c0 cell' in
  all_chars is_cell_char cell = true →
  no_newline package = true → no_newline target = true →
  has_char ":" target = false →
  match_load_label (cell +:+ "//" +:+ package +:+ ":" +:+ target) =
  Some {| group_root := Some (cell +:+ "//");
          group_cell := Some cell;
          group_package := package; group_target := target |}.
Proof.
  intros cell Hc Hp Ht Hcolon. unfold match_load_label.
  pose proof (match_package_target_app package target Hp Ht Hcolon) as Hpt.
  set (tail := package +:+ ":" +:+ target) in *.
  change ("//" +:+ tail) with (String "/" (String "/" tail)).
  assert (c0 ≠ "@"%char) as Hne.
  { apply is_cell_char_not_at. unfold cell in Hc. simpl in Hc.
    by apply andb_true_iff in Hc as [-> _]. }
  unfold cell at 1. rewrite append_cons, (match_root_plain _ _ Hne).
  rewrite <- append_cons. fold cell.
  rewrite (span_intro is_cell_char cell (String "/" (String "/" tail))) by done.
  unfold cell at 1. cbv beta iota. by rewrite Hpt.
Qed.

Lemma ascii_at_other {X : Type} (c0 : ascii) (A B : X) :
  c0 ≠ "@"%char → match c0 with "@"%char => A | _ => B end = B.
Proof. intros Hne. destruct c0 as [[] [] [] [] [] [] [] []]; try done. Qed.

(** X6. A load label with a cell: the spelling [@cell//package:file], which
    is also the label the worker gives the include, and the older spelling
    [cell//package:file] resolve to the same include, whose label is the
    spelling with [@] and whose path is the normalised join of the cell's
    root, the package and the file. The spelling with [@] leaves the store
    as it is; the older one appends one warning of source [load function]
    to the diagnostics of the current context when the worker warns about
    deprecated syntax, and nothing otherwise. *)
Theorem load_label_cell_syntax `{Host} (st : state) (l : loc) (c : context)
    (c0 : ascii) (cell' package target cell_root : string) :
  let cell := String c0 cell' in
  let label := _get_label_for_include cell package target in
  let older := cell +:+ "//" +:+ package +:+ ":" +:+ target in
  let build_include :=
    {| BuildInclude.cell_name := cell; BuildInclude.label := label;
       BuildInclude.path :=
         normpath (path_join (path_join cell_root package) target) |} in
  all_chars is_cell_char cell = true →
  no_newline package = true → no_newline target = true →
  has_char ":" target = false →
  _cell_roots (self st) !! cell = Some cell_root →
  _current_build_env (self st) = Some l →
  contexts st !! l = Some c →
  label = "@" +:+ older
  ∧ _get_load_path label st = (Ok build_include, st)
  ∧ ∃ st', _get_load_path older st = (Ok build_include, st')
      ∧ st' =
        if _warn_about_deprecated_syntax (self st) then
          with_contexts
            (<[l := with_accumulators
                      (append_diagnostic
                         {| message :=
                              context_path c +:+ " has a load label " +:+ dquote +:+
                              older +:+ dquote +:+
                              " that uses a deprecated cell format. " +:+ dquote +:+
                              cell +:+ dquote +:+ " should instead be " +:+ dquote +:+
                              "@" +:+ cell +:+ dquote +:+ ".";
                            level := "warning"; source := "load function";
                            exception := None |}
                         (accumulators c)) c]> (contexts st)) st
        else st.
Proof.
  intros cell label older build_include Hc Hp Ht Hcolon Hroot Henv Hctx.
  assert (c0 ≠ "@"%char) as Hne.
  { apply is_cell_char_not_at. unfold cell in Hc. simpl in Hc.
    by apply andb_true_iff in Hc as [-> _]. }
  assert (label = "@" +:+ older) as Hlabel by done.
  split; [done |]. split.
  - subst build_include. rewrite Hlabel. clear Hlabel. subst label older cell.
    unfold _get_load_path.
    rewrite (match_load_label_at package target c0 cell' Hc Hp Ht Hcolon).
    cbn [group_cell group_root group_package group_target].
    rewrite append_cons, append_nil_l. cbv beta iota.
    run_M. unfold _get_cell_root. simpl. by rewrite Hroot.
  - subst build_include. rewrite Hlabel. clear Hlabel. subst label older cell.
    unfold _get_load_path.
    rewrite (match_load_label_plain package target c0 cell' Hc Hp Ht Hcolon).
    cbn [group_cell group_root group_package group_target].
    unfold _emit_warning, _get_cell_root. run_M.
    rewrite (ascii_at_other c0) by done.
    destruct (_warn_about_deprecated_syntax (self st)) eqn:Hwarn.
    + rewrite Henv. cbv beta iota. rewrite Hctx. cbv beta iota.
      rewrite Henv. cbv beta iota. rewrite Hctx. cbv beta iota.
      cbn [String.eqb negb self with_contexts]. rewrite Hroot.
      eexists. split; reflexivity.
    + cbn [String.eqb negb]. rewrite Hroot. eexists. split; reflexivity.
Qed.

Lemma load_label_cell_syntax_witness :
  @_get_load_path cpython_posix "@cell//lib:defs.bzl" sample_running_state =
  (Ok {| BuildInclude.cell_name := "cell";
         BuildInclude.label := "@cell//lib:defs.bzl";
         BuildInclude.path := "/cells/c/lib/defs.bzl" |},
   sample_running_state).
Proof.
  pose proof (@load_label_cell_syntax cpython_posix sample_running_state
                2%positive (BuildFile sample_build_env) "c" "ell" "lib"
                "defs.bzl" "/cells/c") as Hthm.
  cbv zeta in Hthm.
  assert (_cell_roots (self sample_running_state) !! "cell" = Some "/cells/c")
    as Hroot by (vm_compute; reflexivity).
  assert (contexts sample_running_state !! 2%positive
          = Some (BuildFile sample_build_env)) as Hctx by (vm_compute; reflexivity).
  destruct (Hthm eq_refl eq_refl eq_refl eq_refl Hroot eq_refl Hctx)
    as (_ & Hrun & _).
  exact Hrun.
Defined.

(** ** Names of rules and attributes *)

Lemma word_char_not_newline (c : ascii) :
  is_word_char c = true → negb (is_newline c) = true.
Proof.
  intros Hc. destruct (is_newline c) eqn:Hn; [| done].
  apply is_newline_spec in Hn. by subst c.
Qed.

Lemma all_chars_impl (p q : ascii → bool) (s : string) :
  (∀ c, p c = true → q c = true) → all_chars p s = true → all_chars q s = true.
Proof.
  intros Hpq. induction s as [| c s IH]; [done |]. simpl.
  intros [Hc Hs]%andb_true_iff. by rewrite (Hpq c Hc), (IH Hs).
Qed.

Lemma identifier_start_word (c : ascii) :
  is_identifier_start c = true → is_word_char c = true.
Proof.
  unfold is_identifier_start, is_word_char.
  intros [[-> | ->]%orb_true_iff | ->]%orb_true_iff; by rewrite ?orb_true_r.
Qed.

Lemma VALID_IDENTIFIER_NAMES_spec (name : string) :
  VALID_IDENTIFIER_NAMES name = true ↔
  ∃ c s, is_identifier_start c = true ∧ all_chars is_word_char s = true
         ∧ (name = String c s ∨ name = String c s +:+ newline).
Proof.
  unfold VALID_IDENTIFIER_NAMES, strip_final_newline. split.
  - destruct (span _ name) as [body rest] eqn:Hs.
    apply span_spec in Hs as (-> & Hb & Hr).
    destruct rest as [| c' [| d rest]].
    + rewrite append_nil_r. destruct body as [| c s]; [done |].
      intros [Hc Hw]%andb_true_iff. exists c, s. auto.
    + destruct body as [| c s]; [done |].
      intros [Hc Hw]%andb_true_iff. exists c, s.
      apply negb_false_iff, is_newline_spec in Hr. subst c'. auto.
    + intros Hv. exfalso.
      assert (all_chars is_word_char (body +:+ String c' (String d rest)) = true)
        as Hall.
      { destruct body as [| c s]; simpl in Hv |- *.
        - apply andb_true_iff in Hv as [Hc Hw].
          by rewrite (identifier_start_word _ Hc).
        - apply andb_true_iff in Hv as [Hc Hw].
          by rewrite (identifier_start_word _ Hc). }
      rewrite all_chars_app in Hall. apply andb_true_iff in Hall as [_ Hall].
      simpl in Hall. apply andb_true_iff in Hall as [Hc' _].
      apply word_char_not_newline in Hc'. by rewrite Hc' in Hr.
  - intros (c & s & Hc & Hw & Hname).
    assert (all_chars (λ c, negb (is_newline c)) (String c s) = true) as Hnn.
    { apply (all_chars_impl is_word_char); [apply word_char_not_newline |].
      simpl. by rewrite (identifier_start_word _ Hc). }
    destruct Hname as [-> | ->].
    + rewrite <- (append_nil_r (String c s)) at 1.
      rewrite (span_intro _ (String c s) "") by done. by rewrite Hc, Hw.
    + rewrite (span_intro _ (String c s) newline) by done.
      unfold newline. by rewrite Hc, Hw.
Qed.

(** X7. [set_name] accepts a name exactly when it is a letter or an
    underscore followed by letters, digits and underscores, with or without
    one final newline; the factory then has the type [label:name]. Any other
    name fails the assertion. *)
Theorem set_name_accepts (u : UserDefinedRule.t) (name : string) :
  ((∃ c s, is_identifier_start c = true ∧ all_chars is_word_char s = true
           ∧ (name = String c s ∨ name = String c s +:+ newline))
   ↔ ∃ u', UserDefinedRule.set_name u name = Ok u'
           ∧ UserDefinedRule.buck_type u' =
               Some (UserDefinedRule.label u +:+ ":" +:+ name)
           ∧ UserDefinedRule.name u' = Some name)
  ∧ ((¬ ∃ c s, is_identifier_start c = true ∧ all_chars is_word_char s = true
               ∧ (name = String c s ∨ name = String c s +:+ newline))
     ↔ UserDefinedRule.set_name u name = Raise (AssertionError "invalid name for UDR")).
Proof.
  rewrite <- VALID_IDENTIFIER_NAMES_spec. unfold UserDefinedRule.set_name.
  destruct (VALID_IDENTIFIER_NAMES name); split; split; try done.
  - intros _. by eexists.
  - intros (u' & Hu & _). done.
Qed.

(** ** The reply when encoding fails *)

(** X8. When the encoder refuses the reply, [encode_result] encodes instead
    a reply without values, whose diagnostics are the ones it was given
    followed by one fatal diagnostic of source [parse] that reports the
    encoder's error, and whose profile is kept. *)
Theorem encode_result_fallback `{JsonEncoder} (values : list RuleRecord)
    (diagnostics : list Diagnostic) (profile : option string) (e : exc_info) :
  json_encode (VDict (result_object values diagnostics profile)) = inl e →
  let fatal :=
    VDict (list_to_map
      [("message", VStr (exc_value e)); ("level", VStr "fatal");
       ("source", VStr "parse"); ("exception", format_exception_info e)]) in
  let reply : gmap string value :=
    <["diagnostics" := VList ((encode_diagnostic <$> diagnostics) ++ [fatal])]>
      {["values" := VList []]} in
  encode_result values diagnostics profile =
  json_encode (VDict match profile with
                     | Some p => <["profile" := VStr p]> reply
                     | None => reply
                     end).
Proof.
  intros Hfail fatal reply. unfold encode_result. rewrite Hfail.
  f_equal. f_equal. subst reply. unfold fallback_object, result_object.
  apply map_eq. intros k.
  destruct diagnostics as [| d ds], profile as [p |];
    destruct (decide (k = "diagnostics")) as [? | ?];
    destruct (decide (k = "values")) as [? | ?];
    destruct (decide (k = "profile")) as [? | ?];
    by simplify_map_eq.
Qed.

Lemma encode_result_fallback_witness :
  @encode_result sample_json
    [{["name" := VStr (String (ascii_of_N 255) EmptyString)]}] [] None =
  @json_encode sample_json
    (VDict (<["diagnostics" :=
               VList [VDict (list_to_map
                 [("message", VStr "'utf8' codec can't decode byte 0xff");
                  ("level", VStr "fatal"); ("source", VStr "parse");
                  ("exception",
                   format_exception_info
                     {| exc_type := "UnicodeDecodeError";
                        exc_value := "'utf8' codec can't decode byte 0xff";
                        exc_traceback := []; exc_syntax := None |})])]]>
             {["values" := VList []]})).
Proof.
  apply (@encode_result_fallback sample_json
           [{["name" := VStr (String (ascii_of_N 255) EmptyString)]}] [] None
           {| exc_type := "UnicodeDecodeError";
              exc_value := "'utf8' codec can't decode byte 0xff";
              exc_traceback := []; exc_syntax := None |}).
  vm_compute. reflexivity.
Defined.

(** ** Header maps and dictionaries *)

Lemma merge_maps_inner (l : list (string * string)) (acc : gmap string string) :
  match for_each l
          (λ '(key, v) result,
             match result !! key with
             | Some old =>
                 if negb (String.eqb old v)
                 then Raise (conflicting_headers key old v)
                 else Ok (<[key := v]> result)
             | None => Ok (<[key := v]> result)
             end) acc with
  | Ok acc' => ∀ k v, acc' !! k = Some v ↔ acc !! k = Some v ∨ (k, v) ∈ l
  | Raise e =>
      ∃ key a b, a ≠ b ∧ (key, b) ∈ l ∧ (acc !! key = Some a ∨ (key, a) ∈ l)
                 ∧ e = conflicting_headers key a b
  end.
Proof.
  revert acc. induction l as [| [key v] l IH]; intros acc.
  { simpl. intros k v. rewrite elem_of_nil. tauto. }
  cbn [for_each]. unfold mbind at 1, result_bind at 1.
  assert (∀ old, acc !! key = Some old → old ≠ v →
            ∃ key' a b, a ≠ b ∧ (key', b) ∈ (key, v) :: l
              ∧ (acc !! key' = Some a ∨ (key', a) ∈ (key, v) :: l)
              ∧ conflicting_headers key old v = conflicting_headers key' a b)
    as Hconflict.
  { intros old Hold Hne. exists key, old, v. repeat split; auto. by left. }
  assert (acc !! key = None ∨ acc !! key = Some v →
          match for_each l
                  (λ '(key, v) result,
                     match result !! key with
                     | Some old =>
                         if negb (String.eqb old v)
                         then Raise (conflicting_headers key old v)
                         else Ok (<[key := v]> result)
                     | None => Ok (<[key := v]> result)
                     end) (<[key := v]> acc) with
          | Ok acc' =>
              ∀ k v', acc' !! k = Some v' ↔ acc !! k = Some v' ∨ (k, v') ∈ (key, v) :: l
          | Raise e =>
              ∃ key' a b, a ≠ b ∧ (key', b) ∈ (key, v) :: l
                ∧ (acc !! key' = Some a ∨ (key', a) ∈ (key, v) :: l)
                ∧ e = conflicting_headers key' a b
          end) as Hstep.
  { intros Hacc. specialize (IH (<[key := v]> acc)).
    destruct (for_each l _ (<[key := v]> acc)) as [acc' | e].
    - intros k v'. rewrite IH, elem_of_cons, lookup_insert_Some.
      split.
      + intros [[[<- <-] | [Hne Hk]] | Hin]; auto.
      + intros [Hk | [[= -> ->] | Hin]]; auto.
        destruct (decide (key = k)) as [<- | Hne]; [| auto].
        destruct Hacc as [Hacc | Hacc]; rewrite Hacc in Hk; [done |].
        injection Hk as <-. auto.
    - destruct IH as (key' & a & b & Hne & Hb & Ha & ->).
      exists key', a, b. repeat split; [done | by right |].
      destruct Ha as [[[<- <-] | [_ Ha]]%lookup_insert_Some | Ha]; auto.
      + right. by left.
      + right. by right. }
  destruct (acc !! key) as [old |] eqn:Hold; [| apply Hstep; auto].
  destruct (String.eqb_spec old v) as [-> | Hne]; simpl.
  - apply Hstep. auto.
  - by apply Hconflict.
Qed.

Lemma merge_maps_outer (ms : list (gmap string string)) (acc : gmap string string) :
  match for_each ms
          (λ header_map result,
             for_each (map_to_list header_map)
               (λ '(key, v) result,
                  match result !! key with
                  | Some old =>
                      if negb (String.eqb old v)
                      then Raise (conflicting_headers key old v)
                      else Ok (<[key := v]> result)
                  | None => Ok (<[key := v]> result)
                  end) result) acc with
  | Ok acc' =>
      ∀ k v, acc' !! k = Some v ↔ acc !! k = Some v ∨ ∃ m, m ∈ ms ∧ m !! k = Some v
  | Raise e =>
      ∃ key a b, a ≠ b ∧ (∃ m, m ∈ ms ∧ m !! key = Some b)
                 ∧ (acc !! key = Some a ∨ ∃ m, m ∈ ms ∧ m !! key = Some a)
                 ∧ e = conflicting_headers key a b
  end.
Proof.
  revert acc. induction ms as [| m ms IH]; intros acc.
  { simpl. intros k v. split; [auto |]. intros [? | (m & Hm & _)]; [done |].
    by apply elem_of_nil in Hm. }
  cbn [for_each]. unfold mbind at 1, result_bind at 1.
  pose proof (merge_maps_inner (map_to_list m) acc) as Hinner.
  destruct (for_each (map_to_list m) _ acc) as [acc1 | e].
  - specialize (IH acc1).
    destruct (for_each ms _ acc1) as [acc' | e].
    + intros k v. rewrite IH, Hinner, elem_of_map_to_list. split.
      * intros [[? | ?] | (m' & Hm' & Hk)]; auto.
        -- right. exists m. split; [by left | done].
        -- right. exists m'. split; [by right | done].
      * intros [? | (m' & [-> | Hm']%elem_of_cons & Hk)]; auto.
        right. by exists m'.
    + destruct IH as (key & a & b & Hne & (mb & Hmb & Hb) & Ha & ->).
      exists key, a, b. split; [done |].
      split; [exists mb; split; [by right | done] |].
      split; [| done].
      destruct Ha as [[Ha | Ha%elem_of_map_to_list]%Hinner | (ma & Hma & Ha)]; auto.
      * right. exists m. split; [by left | done].
      * right. exists ma. split; [by right | done].
  - destruct Hinner as (key & a & b & Hne & Hb%elem_of_map_to_list & Ha & ->).
    exists key, a, b. split; [done |].
    split; [exists m; split; [by left | done] |].
    split; [| done].
    destruct Ha as [Ha | Ha%elem_of_map_to_list]; auto.
    right. exists m. split; [by left | done].
Qed.

(** X9. [merge_maps] returns the union of the header maps when no two of
    them send a key to different values: a key is in the result, with a
    value, exactly when one of the maps sends it there. Otherwise it fails
    the assertion, and the message names a key and two different values
    that two of the maps give it. *)
Theorem merge_maps_union_or_conflict (header_maps : list (gmap string string)) :
  match merge_maps header_maps with
  | Ok result =>
      ∀ k v, result !! k = Some v ↔ ∃ m, m ∈ header_maps ∧ m !! k = Some v
  | Raise e =>
      ∃ key a b, a ≠ b
        ∧ (∃ m, m ∈ header_maps ∧ m !! key = Some a)
        ∧ (∃ m, m ∈ header_maps ∧ m !! key = Some b)
        ∧ e = conflicting_headers key a b
  end.
Proof.
  unfold merge_maps. pose proof (merge_maps_outer header_maps ∅) as Hm.
  destruct (for_each header_maps _ ∅) as [result | e].
  - intros k v. rewrite Hm, lookup_empty. split; [by intros [? | ?] | auto].
  - destruct Hm as (key & a & b & Hne & Hb & [Ha | Ha] & ->);
      [by rewrite lookup_empty in Ha |].
    by exists key, a, b.
Qed.

Lemma fold_insert_lookup (l : list (string * value)) (acc : gmap string value)
    (k : string) :
  NoDup l.*1 →
  fold_left (λ return_value kv, <[kv.1 := kv.2]> return_value) l acc !! k =
  match (list_to_map l : gmap string value) !! k with
  | Some v => Some v
  | None => acc !! k
  end.
Proof.
  revert acc. induction l as [| [k0 v0] l IH]; intros acc Hnd; [done |].
  rewrite fmap_cons in Hnd. apply NoDup_cons in Hnd as [Hk0 Hnd].
  cbn [fold_left fst snd]. rewrite (IH _ Hnd).
  change (list_to_map ((k0, v0) :: l) : gmap string value)
    with (<[k0 := v0]> (list_to_map l : gmap string value)).
  destruct (decide (k0 = k)) as [-> | Hne].
  - rewrite (not_elem_of_list_to_map_1 _ _ Hk0). by rewrite !lookup_insert_eq.
  - rewrite !lookup_insert_ne by done. done.
Qed.

(** X10. [flatten_list_of_dicts] lets later dictionaries override earlier
    ones: the flattening of no dictionary is empty, and the flattening of a
    list followed by one more dictionary sends a key to what that last
    dictionary holds for it, and otherwise to what the flattening of the
    list holds. *)
Theorem flatten_later_wins (list_of_dicts : list (gmap string value))
    (d : gmap string value) (k : string) :
  flatten_list_of_dicts [] = ∅
  ∧ flatten_list_of_dicts (list_of_dicts ++ [d]) !! k =
    match d !! k with
    | Some v => Some v
    | None => flatten_list_of_dicts list_of_dicts !! k
    end.
Proof.
  split; [done |]. unfold flatten_list_of_dicts.
  rewrite fold_left_app. cbn [fold_left].
  rewrite fold_insert_lookup by apply NoDup_fst_map_to_list.
  by rewrite list_to_map_to_list.
Qed.

(** ** Command-line options *)

Lemma split_once_none (s : string) :
  has_equals s = false → split_once "=" s = [s].
Proof.
  unfold has_equals. induction s as [| c s IH]; [done |].
  cbn [has_char split_once]. intros [Hc Hs]%orb_false_iff.
  rewrite Ascii.eqb_sym, Hc. by rewrite (IH Hs).
Qed.

Lemma split_once_first (k v : string) :
  has_equals k = false → split_once "=" (k +:+ "=" +:+ v) = [k; v].
Proof.
  unfold has_equals. induction k as [| c k IH].
  - intros _. by rewrite append_nil_l, append_cons, append_nil_l.
  - cbn [has_char]. intros [Hc Hk]%orb_false_iff.
    rewrite append_cons. cbn [split_once].
    rewrite Ascii.eqb_sym, Hc. by rewrite (IH Hk).
Qed.

(** X11. The option callback [_optparse_store_kv] splits its argument at
    the first [=]: for a key without [=], the argument [key=value] stores
    the value (which may itself hold [=]) under the key in the destination
    dictionary, which is created when the option had none, and keeps the
    other entries; an argument without [=] is an option error. *)
Theorem optparse_store_kv_splits_once (k v : string)
    (dest : option (gmap string string)) :
  has_equals k = false →
  _optparse_store_kv (k +:+ "=" +:+ v) dest = Stored (<[k := v]> (default ∅ dest))
  ∧ _optparse_store_kv k dest =
      OptionError "Expected argument of to be in the form of X=Y".
Proof.
  intros Hk. unfold _optparse_store_kv.
  by rewrite (split_once_first k v Hk), (split_once_none k Hk).
Qed.

Lemma optparse_store_kv_splits_once_witness :
  _optparse_store_kv "cxx.flags=-O2 -DX=1" None =
  Stored {["cxx.flags" := "-O2 -DX=1"]}.
Proof.
  apply (optparse_store_kv_splits_once "cxx.flags" "-O2 -DX=1" None).
  reflexivity.
Defined.

(** ** Rules of a build file *)

Lemma odict_get_app {V : Type} (d : list (string * V)) (k n : string) (v : V) :
  odict_get (d ++ [(n, v)]) k =
  match odict_get d k with
  | Some x => Some x
  | None => if String.eqb n k then Some v else None
  end.
Proof.
  induction d as [| [k' v'] d IH]; [done |]. simpl.
  by destruct (String.eqb k' k).
Qed.

(** X12. For a record whose name is a string, [add_rule] succeeds exactly
    when [rule_exists] says that the name is not taken. It then stores the
    record, with the package of the build file as its [buck.base_path],
    after the rules that were there, which it keeps: [rule_exists] holds
    for the name from then on and is as before for every other name, and
    the context is otherwise unchanged. *)
Theorem add_rule_then_rule_exists `{Host} (rule : RuleRecord)
    (env : BuildFileContext.t) (n : string) :
  rule !! "name" = Some (VStr n) →
  (rule_exists n (BuildFile env) = Ok false ↔
   ∃ c, add_rule rule (BuildFile env) = Ok c)
  ∧ ∀ c, add_rule rule (BuildFile env) = Ok c →
      ∃ env',
        c = BuildFile env'
        ∧ env' = BuildFileContext.with_rules (BuildFileContext.rules env') env
        ∧ BuildFileContext.rules env' =
            (BuildFileContext.rules env ++
             [(n, <["buck.base_path" := VStr (BuildFileContext.base_path env)]> rule)])%list
        ∧ package_name c = Ok (BuildFileContext.base_path env)
        ∧ rule_exists n c = Ok true
        ∧ ∀ m, m ≠ n → rule_exists m c = rule_exists m (BuildFile env).
Proof.
  intros Hname. split.
  - unfold rule_exists. split.
    + intros [= Hfree%bool_decide_eq_false]. eexists. apply add_rule_ok.
      exists n. split; [done |]. split; [| done].
      destruct (odict_get _ n) eqn:Hget; [| done]. destruct Hfree. by eexists.
    + intros (c & (n' & Hn' & Hfree & _)%add_rule_ok).
      rewrite Hname in Hn'. injection Hn' as <-. by rewrite Hfree.
  - intros c (n' & Hn' & Hfree & ->)%add_rule_ok.
    rewrite Hname in Hn'. injection Hn' as <-.
    eexists. split; [done |]. split; [done |]. split; [done |].
    split; [done |]. unfold rule_exists. cbn [BuildFileContext.rules BuildFileContext.with_rules].
    split.
    + rewrite odict_get_app, Hfree, String.eqb_refl. done.
    + intros m Hm. rewrite odict_get_app.
      destruct (odict_get (BuildFileContext.rules env) m); [done |].
      by destruct (String.eqb_spec n m).
Qed.

Lemma add_rule_then_rule_exists_witness :
  ∃ c, @add_rule cpython_posix {["name" := VStr "lib"]} (BuildFile sample_build_env)
       = Ok c.
Proof.
  apply (@add_rule_then_rule_exists cpython_posix {["name" := VStr "lib"]}
           sample_build_env "lib"); reflexivity.
Defined.

(** ** Declaring rules *)

Lemma validate_attributes_loop `{Host} (required optional : gset string)
    (l : list (string * attr_arg)) (acc : gmap string Attr.Attribute) :
  NoDup l.*1 →
  match for_each l
          (λ '(name, attr) modified_attrs,
             if bool_decide (name ∈ required) || bool_decide (name ∈ optional)
             then Raise (ValueError (name +:+
                    " shadows a builtin attribute of the same name. Please remove it"))
             else if negb (VALID_IDENTIFIER_NAMES name)
             then Raise (ValueError (name +:+
                    " is not a valid python identifier. Please rename it"))
             else match attr with
                  | NotAttribute v =>
                      Raise (ValueError (str v +:+ " for attribute " +:+ name +:+
                               " is not an Attribute object"))
                  | IsAttribute a =>
                      if negb (startswith_underscore name)
                      then Ok (<[name := a]> modified_attrs)
                      else Ok modified_attrs
                  end) acc with
  | Ok m =>
      (∀ k x, (k, x) ∈ l → acceptable_attr required optional k x)
      ∧ ∀ k a, m !! k = Some a ↔
          ((k, IsAttribute a) ∈ l ∧ startswith_underscore k = false)
          ∨ (acc !! k = Some a
             ∧ ¬ (k ∈ l.*1 ∧ startswith_underscore k = false))
  | Raise e =>
      ∃ k x msg, (k, x) ∈ l ∧ ¬ acceptable_attr required optional k x
                 ∧ e = ValueError msg
  end.
Proof.
  revert acc. induction l as [| [k0 x0] l IH]; intros acc Hnd.
  { simpl. split; [by intros k x ?%elem_of_nil |].
    intros k a. rewrite elem_of_nil. split; [intros ?; right | ]; [| tauto].
    split; [done |]. by intros [?%elem_of_nil _]. }
  rewrite fmap_cons in Hnd. apply NoDup_cons in Hnd as [Hk0 Hnd]. simpl in Hk0.
  cbn [for_each]. unfold mbind at 1, result_bind at 1.
  destruct (bool_decide (k0 ∈ required)) eqn:Hr.
  { apply bool_decide_eq_true in Hr. simpl. eexists k0, x0, _.
    split; [by left |]. split; [| done]. by intros (? & _). }
  destruct (bool_decide (k0 ∈ optional)) eqn:Ho.
  { apply bool_decide_eq_true in Ho. simpl. eexists k0, x0, _.
    split; [by left |]. split; [| done]. by intros (_ & ? & _). }
  apply bool_decide_eq_false in Hr, Ho. simpl.
  destruct (VALID_IDENTIFIER_NAMES k0) eqn:Hv; simpl.
  2:{ eexists k0, x0, _. split; [by left |]. split; [| done].
      intros (_ & _ & Hv' & _). by rewrite Hv in Hv'. }
  destruct x0 as [a0 | v0].
  2:{ eexists k0, _, _. split; [by left |]. split; [| done].
      by intros (_ & _ & _ & a & ?). }
  assert (acceptable_attr required optional k0 (IsAttribute a0)) as Hgood.
  { repeat split; try done. by eexists. }
  set (acc1 := if negb (startswith_underscore k0) then <[k0 := a0]> acc else acc).
  assert ((if negb (startswith_underscore k0)
           then Ok (<[k0 := a0]> acc) else Ok acc) = Ok acc1) as ->
    by (unfold acc1; by destruct (startswith_underscore k0)).
  specialize (IH acc1 Hnd).
  destruct (for_each l _ acc1) as [m | e].
  - destruct IH as [Hall Hm]. split.
    { intros k x [[= -> ->] | Hin]%elem_of_cons; [done | by apply Hall]. }
    intros k a. rewrite Hm. clear Hm. rewrite ?fmap_cons, !elem_of_cons. simpl.
    unfold acc1. destruct (decide (k = k0)) as [-> | Hne].
    + destruct (startswith_underscore k0) eqn:Hu; simpl.
      * split.
        -- intros [[? ?] | [? ?]]; [done | right]. split; [done |]. by intros [_ ?].
        -- intros [[_ ?] | [? ?]]; [done | right]. split; [done |]. by intros [_ ?].
      * rewrite lookup_insert_eq. split.
        -- intros [[Hin _] | [[= <-] _]]; [| by left; split; [left |]].
           destruct Hk0. apply list_elem_of_fmap. by exists (k0, IsAttribute a).
        -- intros [[[[= <-] | Hin] _] | [_ Hno]].
           ++ right. split; [done |]. intros [Hin _]. done.
           ++ destruct Hk0. apply list_elem_of_fmap. by exists (k0, IsAttribute a).
           ++ destruct Hno. split; [by left | done].
    + assert ((if negb (startswith_underscore k0) then <[k0 := a0]> acc else acc)
              !! k = acc !! k) as ->.
      { destruct (startswith_underscore k0); simpl; [done |].
        by rewrite lookup_insert_ne. }
      split.
      * intros [[? ?] | [? Hno]]; [left; split; [by right | done] | right].
        split; [done |]. intros [[? | ?] ?]; [done |]. by apply Hno.
      * intros [[[[= ? ?] | ?] ?] | [? Hno]]; [done | by left | right].
        split; [done |]. intros [? ?]. apply Hno. split; [by right | done].
  - destruct IH as (k & x & msg & Hin & Hbad & ->).
    exists k, x, msg. split; [by right | done].
Qed.

(** What [__init__] checks and makes. *)
Lemma init_outcome `{Host} `{GeneratedRules} (label : string)
    (attrs : gmap string attr_arg) (test : bool) :
  let required := if test then IMPLICIT_REQUIRED_TEST_ATTRS else IMPLICIT_REQUIRED_ATTRS in
  let optional := if test then IMPLICIT_OPTIONAL_TEST_ATTRS else IMPLICIT_OPTIONAL_ATTRS in
  match UserDefinedRule.__init__ label attrs test with
  | Ok u =>
      (∀ k x, attrs !! k = Some x → acceptable_attr required optional k x)
      ∧ UserDefinedRule.label u = label
      ∧ UserDefinedRule.buck_type u = None
      ∧ (∀ k a, UserDefinedRule.attrs u !! k = Some a ↔
           attrs !! k = Some (IsAttribute a) ∧ startswith_underscore k = false)
      ∧ UserDefinedRule.all_attrs u =
          required ∪ optional ∪ dom (UserDefinedRule.attrs u)
  | Raise e =>
      ∃ k x msg, attrs !! k = Some x ∧ ¬ acceptable_attr required optional k x
                 ∧ e = ValueError msg
  end.
Proof.
  intros required optional.
  unfold UserDefinedRule.__init__, UserDefinedRule._validate_attributes.
  subst required optional.
  set (required := if test then IMPLICIT_REQUIRED_TEST_ATTRS else IMPLICIT_REQUIRED_ATTRS).
  set (optional := if test then IMPLICIT_OPTIONAL_TEST_ATTRS else IMPLICIT_OPTIONAL_ATTRS).
  pose proof (validate_attributes_loop required optional (map_to_list attrs) ∅
                (NoDup_fst_map_to_list attrs)) as Hloop.
  destruct (for_each (map_to_list attrs) _ ∅) as [m | e]; simpl.
  - destruct Hloop as [Hall Hm]. split.
    { intros k x Hk. apply Hall. by apply elem_of_map_to_list. }
    do 2 (split; [done |]). split; [| done].
    intros k a. rewrite Hm, elem_of_map_to_list, lookup_empty. split.
    + by intros [? | [? _]].
    + auto.
  - destruct Hloop as (k & x & msg & Hin%elem_of_map_to_list & Hbad & ->).
    by exists k, x, msg.
Qed.

(** X13. [rule(attrs, test)] in an extension file makes a factory exactly
    when every entry of [attrs] has a name that is no implicit attribute
    and is a valid identifier, and a value that is an [Attribute];
    otherwise it raises a [ValueError]. The factory then has the label of
    the extension file and no type yet, and its explicit attributes are
    the entries whose names do not start with an underscore. In a build
    file [rule] fails its assertion. *)
Theorem rule_declares_public_attributes `{Host} `{GeneratedRules}
    (attrs : gmap string attr_arg) (test : bool) (env : IncludeContext.t)
    (b : BuildFileContext.t) :
  let required := if test then IMPLICIT_REQUIRED_TEST_ATTRS else IMPLICIT_REQUIRED_ATTRS in
  let optional := if test then IMPLICIT_OPTIONAL_TEST_ATTRS else IMPLICIT_OPTIONAL_ATTRS in
  match rule (Some attrs) test (Include env) with
  | Ok u =>
      (∀ k x, attrs !! k = Some x → acceptable_attr required optional k x)
      ∧ UserDefinedRule.label u = IncludeContext.label env
      ∧ UserDefinedRule.buck_type u = None
      ∧ (∀ k a, UserDefinedRule.attrs u !! k = Some a ↔
           attrs !! k = Some (IsAttribute a) ∧ startswith_underscore k = false)
      ∧ UserDefinedRule.all_attrs u =
          required ∪ optional ∪ dom (UserDefinedRule.attrs u)
  | Raise e =>
      ∃ k x msg, attrs !! k = Some x ∧ ¬ acceptable_attr required optional k x
                 ∧ e = ValueError msg
  end
  ∧ rule (Some attrs) test (BuildFile b) =
      Raise (AssertionError "`rule()` is only allowed in extension files.").
Proof.
  intros required optional. split; [| done].
  apply (init_outcome (IncludeContext.label env) attrs test).
Qed.

(** X14. An attribute whose name starts with an underscore can be declared
    but not passed: the factory does not accept it, so that a call from a
    build file with such a keyword raises the error about unexpected extra
    parameters, which lists the keywords that are not accepted, in some
    order (the order in which a set is iterated is not determined). *)
Theorem private_attribute_cannot_be_passed `{Host} `{GeneratedRules}
    (label name : string) (attrs : gmap string attr_arg) (test : bool)
    (u0 u : UserDefinedRule.t) (env : BuildFileContext.t)
    (kwargs : gmap string value) (k : string) :
  UserDefinedRule.__init__ label attrs test = Ok u0 →
  UserDefinedRule.set_name u0 name = Ok u →
  k ∈ dom attrs → startswith_underscore k = true → k ∈ dom kwargs →
  k ∈ dom kwargs ∖ UserDefinedRule.all_attrs u
  ∧ ∃ rejected,
      rejected ≡ₚ elements (dom kwargs ∖ UserDefinedRule.all_attrs u)
      ∧ k ∈ rejected
      ∧ UserDefinedRule.__call__ u (Some (BuildFile env)) kwargs =
          Raise (ValueError
            ("Unexpected extra parameter(s) '" +:+
             String.concat ", " rejected +:+
             "' provided for " +:+ label +:+ ":" +:+ name)).
Proof.
  intros Hinit Hname [x Hk]%elem_of_dom Hprivate Hkw.
  pose proof (init_outcome label attrs test) as Hout. cbv zeta in Hout.
  rewrite Hinit in Hout. destruct Hout as (Hall & _ & _ & Hattrs & Hacc).
  destruct (Hall k x Hk) as (Hr & Ho & _).
  assert (UserDefinedRule.all_attrs u = UserDefinedRule.all_attrs u0
          ∧ UserDefinedRule.buck_type u = Some (label +:+ ":" +:+ name)) as [Hsame Hbt].
  { unfold UserDefinedRule.set_name in Hname.
    destruct (VALID_IDENTIFIER_NAMES name); [| done].
    injection Hname as <-. simpl. split; [done |].
    unfold UserDefinedRule.__init__ in Hinit.
    destruct (UserDefinedRule._validate_attributes _ _ _); [| done].
    by injection Hinit as <-. }
  assert (k ∉ UserDefinedRule.all_attrs u) as Hout.
  { rewrite Hsame, Hacc. intros [[? | ?]%elem_of_union | [a Ha]%elem_of_dom]%elem_of_union;
      [done | done |].
    apply Hattrs in Ha as [_ Ha]. by rewrite Ha in Hprivate. }
  assert (k ∈ dom kwargs ∖ UserDefinedRule.all_attrs u) as Hin
    by by apply elem_of_difference.
  split; [exact Hin |].
  exists (elements (dom kwargs ∖ UserDefinedRule.all_attrs u)).
  split; [done |]. split; [by apply elem_of_elements |].
  unfold UserDefinedRule.__call__. rewrite Hbt.
  destruct (buck_type_nonempty label name) as (c & s & ->).
  rewrite bool_decide_eq_false_2; [done |].
  intros Hempty. rewrite Hempty in Hin. by apply elem_of_empty in Hin.
Qed.

Lemma private_attribute_cannot_be_passed_witness :
  @UserDefinedRule.__call__ cpython_posix sample_private_factory
    (Some (BuildFile sample_build_env))
    {["name" := VStr "n"; "_impl" := VStr "x"]}
  = Raise (ValueError
      "Unexpected extra parameter(s) '_impl' provided for //:r.bzl:Impl").
Proof.
  assert (@UserDefinedRule.__init__ cpython_posix sample_generated_rules "//:r.bzl"
            {["_impl" := IsAttribute (Attr.string None None)]} false
          = Ok sample_private_unnamed_factory) as Hinit by (vm_compute; reflexivity).
  assert (UserDefinedRule.set_name sample_private_unnamed_factory "Impl"
          = Ok sample_private_factory) as Hname by (vm_compute; reflexivity).
  assert ("_impl" ∈ dom ({["_impl" := IsAttribute (Attr.string None None)]}
                          : gmap string attr_arg)) as Hk by compute_done.
  assert ("_impl" ∈ dom ({["name" := VStr "n"; "_impl" := VStr "x"]}
                          : gmap string value)) as Hkw by compute_done.
  destruct (@private_attribute_cannot_be_passed cpython_posix sample_generated_rules
              "//:r.bzl" "Impl" _ false sample_private_unnamed_factory
              sample_private_factory sample_build_env _ "_impl"
              Hinit Hname Hk eq_refl Hkw) as [_ (rejected & Hperm & _ & Hcall)].
  assert (elements (dom ({["name" := VStr "n"; "_impl" := VStr "x"]}
                           : gmap string value)
                    ∖ UserDefinedRule.all_attrs sample_private_factory)
          = ["_impl"]) as Hone by (vm_compute; reflexivity).
  rewrite Hone in Hperm. apply Permutation_singleton_r in Hperm as ->.
  exact Hcall.
Defined.

(** ** Copying globals *)

Lemma odict_get_set {V : Type} (d : list (string * V)) (k k' : string) (v : V) :
  odict_get (odict_set d k v) k' = if String.eqb k k' then Some v else odict_get d k'.
Proof.
  induction d as [| [k0 v0] d IH]; simpl.
  - by destruct (String.eqb k k').
  - destruct (String.eqb_spec k0 k) as [-> | Hne]; simpl.
    + by destruct (String.eqb k k').
    + destruct (String.eqb_spec k0 k') as [-> | Hne'].
      * by destruct (String.eqb_spec k k') as [-> | _].
      * exact IH.
Qed.

Lemma odict_get_elem {V : Type} (d : list (string * V)) (k : string) :
  k ∈ d.*1 → is_Some (odict_get d k).
Proof.
  induction d as [| [k0 v0] d IH]; [by intros ?%elem_of_nil |].
  rewrite fmap_cons. intros [-> | Hin]%elem_of_cons; simpl.
  - by rewrite String.eqb_refl.
  - destruct (String.eqb k0 k); [done | by apply IH].
Qed.

Lemma copied_refl (module dst : list (string * pyobj)) (k : string) :
  copied module dst dst k.
Proof. by left. Qed.

Lemma copied_trans (module dst dst1 dst2 : list (string * pyobj)) (k : string) :
  copied module dst dst1 k → copied module dst1 dst2 k → copied module dst dst2 k.
Proof.
  intros [H1 | H1] [H2 | H2].
  - left. by rewrite H2.
  - right. done.
  - right. by rewrite H2.
  - right. done.
Qed.

Lemma merge_global_copied (module : list (string * pyobj)) (key : string)
    (dst dst' : list (string * pyobj)) (k : string) :
  merge_global module key dst = Ok dst' → copied module dst dst' k.
Proof.
  unfold merge_global.
  destruct (odict_get module "__all__") as [all |] eqn:Hall; simpl.
  - destruct (startswith_underscore key) eqn:Hu; simpl;
      [intros [= <-]; apply copied_refl |].
    destruct (_HIDDEN_GLOBALS key) eqn:Hh; simpl;
      [intros [= <-]; apply copied_refl |].
    destruct (odict_get module key) as [v |] eqn:Hv; [| done].
    intros [= <-]. unfold copied. rewrite odict_get_set.
    destruct (String.eqb_spec key k) as [<- | Hne]; [| by left].
    right. rewrite Hv. repeat split; try done.
    intros Hnone. by rewrite Hall in Hnone.
  - destruct (odict_get module key) as [v |] eqn:Hv; [| done].
    assert (∀ b, (b = true → is_module v = true) → (b = false → is_module v = false) →
              (if negb (startswith_underscore key) && negb (_HIDDEN_GLOBALS key)
                  && negb b
               then Ok (odict_set dst key v) else Ok dst) = Ok dst' →
              copied module dst dst' k) as Hcases.
    { intros b Hb1 Hb2.
      destruct (startswith_underscore key) eqn:Hu; simpl;
        [intros [= <-]; apply copied_refl |].
      destruct (_HIDDEN_GLOBALS key) eqn:Hh; simpl;
        [intros [= <-]; apply copied_refl |].
      destruct b; simpl; [intros [= <-]; apply copied_refl |].
      intros [= <-]. unfold copied. rewrite odict_get_set.
      destruct (String.eqb_spec key k) as [<- | Hne]; [| by left].
      right. rewrite Hv. repeat split; try done.
      intros _ v' [= <-]. by apply Hb2. }
    destruct v; simpl; intros Hx;
      first [by apply (Hcases false) | by apply (Hcases true)].
Qed.


Lemma merge_global_key_copied (module : list (string * pyobj)) (key : value)
    (dst dst' : list (string * pyobj)) (k : string) :
  merge_global_key module key dst = Ok dst' → copied module dst dst' k.
Proof.
  unfold merge_global_key. destruct key as [| | | s | cps | |]; try done.
  - apply merge_global_copied.
  - destruct (forallb _ cps); [apply merge_global_copied |].
    destruct cps as [| cp cps]; [done |].
    destruct (decide (cp = 95%N)) as [-> | Hne].
    + intros [= <-]. apply copied_refl.
    + destruct cp as [| p]; [done |].
      repeat (destruct p as [p | p |]; try done).
Qed.

Lemma for_each_in_place_copied (module : list (string * pyobj))
    (keys : list value) (dst : list (string * pyobj)) (k : string) :
  copied module dst (for_each_in_place keys (merge_global_key module) dst).2 k.
Proof.
  revert dst. induction keys as [| key keys IH]; intros dst; [apply copied_refl |].
  cbn [for_each_in_place].
  destruct (merge_global_key module key dst) as [dst1 | e] eqn:Hstep;
    [| apply copied_refl].
  eapply copied_trans; [by eapply merge_global_key_copied | apply IH].
Qed.

(** Without [__all__], the loop goes through the names of the module and
    does not raise. *)
Lemma merge_globals_names (module : list (string * pyobj))
    (names : list string) (dst : list (string * pyobj)) :
  odict_get module "__all__" = None →
  names ⊆ module.*1 →
  let out := for_each_in_place (VStr <$> names) (merge_global_key module) dst in
  out.1 = Ok tt
  ∧ ∀ k, (k ∈ names ∧ exported module k = true → odict_get out.2 k = odict_get module k)
         ∧ (¬ (k ∈ names ∧ exported module k = true) →
            odict_get out.2 k = odict_get dst k).
Proof.
  intros Hall. revert dst. induction names as [| name names IH]; intros dst Hsub.
  { simpl. split; [done |]. intros k. split; [by intros [?%elem_of_nil _] | done]. }
  assert (is_Some (odict_get module name)) as [v Hv].
  { apply odict_get_elem, Hsub. by left. }
  assert (names ⊆ module.*1) as Hsub'.
  { intros x Hx. apply Hsub. by right. }
  cbn [fmap list_fmap for_each_in_place merge_global_key].
  change (list_fmap string value VStr names) with (VStr <$> names).
  assert (merge_global module name dst =
          Ok (if exported module name then odict_set dst name v else dst)) as ->.
  { unfold merge_global, exported. rewrite Hall, Hv. simpl.
    destruct v; simpl; by destruct (startswith_underscore name), (_HIDDEN_GLOBALS name). }
  destruct (IH (if exported module name then odict_set dst name v else dst) Hsub')
    as [Hok Hk].
  split; [exact Hok |]. intros k. destruct (Hk k) as [Hin Hout]. split.
  - intros [[-> | Hk']%elem_of_cons Hexp].
    + destruct (decide (name ∈ names)) as [Hn | Hn]; [by apply Hin |].
      rewrite Hout by (by intros [? _]).
      by rewrite Hexp, odict_get_set, String.eqb_refl.
    + by apply Hin.
  - intros Hno. rewrite Hout.
    2:{ intros [? ?]. apply Hno. split; [by right | done]. }
    destruct (exported module name) eqn:Hexp; [| done].
    rewrite odict_get_set. destruct (String.eqb_spec name k) as [<- | Hne]; [| done].
    destruct Hno. split; [by left | done].
Qed.

(** X15. [_merge_globals] changes in [dst] only names that are public (no
    leading underscore), are neither [include_defs] nor [load], and are
    bound in the module, and it binds them to what the module binds them
    to; unless the module declares [__all__], it copies no name bound to a
    module. This holds also for what it did before raising. For a module
    without [__all__] it does not raise, and copies every such name: [dst]
    is afterwards the module on these names and unchanged on all others. *)
Theorem merge_globals_copies_public_names (module dst : list (string * pyobj)) :
  let out := _merge_globals module dst in
  (∀ k, copied module dst out.2 k)
  ∧ (odict_get module "__all__" = None →
     out.1 = Ok tt
     ∧ ∀ k, odict_get out.2 k =
            if exported module k then odict_get module k else odict_get dst k).
Proof.
  unfold _merge_globals. split.
  - intros k. destruct (odict_get module "__all__") as [all |].
    + destruct (keys_of_all all); [apply for_each_in_place_copied | apply copied_refl].
    + apply for_each_in_place_copied.
  - intros Hall. rewrite Hall.
    destruct (merge_globals_names module module.*1 dst Hall) as [Hok Hk]; [done |].
    split; [exact Hok |]. intros k. destruct (Hk k) as [Hin Hout].
    destruct (exported module k) eqn:Hexp.
    + apply Hin. split; [| done]. unfold exported in Hexp.
      destruct (odict_get module k) as [v |] eqn:Hv;
        [| by rewrite !andb_false_r in Hexp].
      clear -Hv. induction module as [| [k0 v0] module IH]; [done |].
      rewrite fmap_cons. simpl in Hv. destruct (String.eqb_spec k0 k) as [-> | Hne].
      * by left.
      * right. by apply IH.
    + apply Hout. by intros [_ ?].
Qed.

(** ** Loading symbols *)

Lemma load_symbols_loop (src : list (string * pyobj)) (l : list (string * string))
    (dst : list (string * pyobj)) :
  (∀ k s1 s2, (k, s1) ∈ l → (k, s2) ∈ l → s1 = s2) →
  let out :=
    for_each_in_place l
      (λ '(exported_name, symbol) dst,
         match odict_get src symbol with
         | None => Raise (not_defined symbol src)
         | Some v => Ok (odict_set dst exported_name v)
         end) dst in
  (∀ k, k ∉ l.*1 → odict_get out.2 k = odict_get dst k)
  ∧ match out.1 with
    | Ok _ =>
        ∀ k symbol, (k, symbol) ∈ l →
          is_Some (odict_get src symbol)
          ∧ odict_get out.2 k = odict_get src symbol
    | Raise e =>
        ∃ k symbol, (k, symbol) ∈ l ∧ odict_get src symbol = None
                    ∧ e = not_defined symbol src
    end.
Proof.
  revert dst. induction l as [| [name symbol] l IH]; intros dst Hfun.
  { simpl. split; [done |]. by intros k s ?%elem_of_nil. }
  assert (∀ k s1 s2, (k, s1) ∈ l → (k, s2) ∈ l → s1 = s2) as Hfun'.
  { intros k s1 s2 H1 H2. apply (Hfun k); by right. }
  cbn [for_each_in_place]. destruct (odict_get src symbol) as [v |] eqn:Hv.
  - destruct (IH (odict_set dst name v) Hfun') as [Hout Hin]. split.
    + rewrite fmap_cons. intros k [Hne Hk]%not_elem_of_cons.
      rewrite (Hout k Hk), odict_get_set. by destruct (String.eqb_spec name k).
    + destruct (for_each_in_place l _ (odict_set dst name v)).1 as [[] | e].
      * intros k s [[= -> ->] | Hks]%elem_of_cons; [| by apply Hin].
        rewrite Hv. split; [done |].
        destruct (decide (name ∈ l.*1)) as [Hname | Hname].
        -- apply list_elem_of_fmap in Hname as ([k' s'] & Heq & Hks).
           simpl in Heq. subst k'. destruct (Hin name s' Hks) as [_ ->].
           rewrite <- Hv. f_equal. apply (Hfun name); [by right | by left].
        -- rewrite (Hout name Hname), odict_get_set. by rewrite String.eqb_refl.
      * destruct Hin as (k & s & Hks & Hnone & ->).
        exists k, s. split; [by right | done].
  - simpl. split; [done |]. exists name, symbol. split; [by left | done].
Qed.

Lemma NoDup_fst_functional (l : list (string * string)) :
  NoDup l.*1 → ∀ k s1 s2, (k, s1) ∈ l → (k, s2) ∈ l → s1 = s2.
Proof.
  induction l as [| [k0 s0] l IH]; [by intros _ k s1 s2 ?%elem_of_nil |].
  rewrite fmap_cons. intros [Hk0 Hnd]%NoDup_cons k s1 s2.
  intros [[= -> ->] | H1]%elem_of_cons [[= ->] | H2]%elem_of_cons; [done | | |].
  - destruct Hk0. apply list_elem_of_fmap. by exists (k0, s2).
  - simplify_eq. destruct Hk0. apply list_elem_of_fmap. by exists (k0, s1).
  - by apply (IH Hnd k).
Qed.

(** X16. [load] binds exactly the names it is asked for, and does not look
    at what they are: a symbol of the list is bound under its own name, a
    keyword under the keyword's name, to what the extension binds the
    symbol to, whether it starts with an underscore or not; every other
    name of the caller stays as it was. It raises only for a symbol that
    the extension does not define, with the error [is not defined in]. *)
Theorem merge_explicit_globals_binds (src dst : list (string * pyobj))
    (whitelist : list string) (whitelist_mapping : list (string * string)) :
  NoDup whitelist_mapping.*1 →
  let out := _merge_explicit_globals src dst whitelist whitelist_mapping in
  (∀ k, k ∉ whitelist → k ∉ whitelist_mapping.*1 →
     odict_get out.2 k = odict_get dst k)
  ∧ match out.1 with
    | Ok _ =>
        (∀ symbol, symbol ∈ whitelist →
           is_Some (odict_get src symbol)
           ∧ (symbol ∉ whitelist_mapping.*1 →
              odict_get out.2 symbol = odict_get src symbol))
        ∧ (∀ exported_name symbol, (exported_name, symbol) ∈ whitelist_mapping →
             is_Some (odict_get src symbol)
             ∧ odict_get out.2 exported_name = odict_get src symbol)
    | Raise e =>
        ∃ symbol, (symbol ∈ whitelist ∨ symbol ∈ whitelist_mapping.*2)
                  ∧ odict_get src symbol = None ∧ e = not_defined symbol src
    end.
Proof.
  intros Hnd. pose proof (NoDup_fst_functional _ Hnd) as Hm. clear Hnd.
  unfold _merge_explicit_globals.
  pose proof (load_symbols_loop src ((λ s, (s, s)) <$> whitelist) dst) as H1.
  assert (((λ s : string, (s, s)) <$> whitelist).*1 = whitelist) as Hfst.
  { rewrite <- list_fmap_compose. apply list_fmap_id. }
  rewrite Hfst in H1. cbv zeta in H1.
  assert (∀ d,
            for_each_in_place ((λ s, (s, s)) <$> whitelist)
              (λ '(exported_name, symbol) dst,
                 match odict_get src symbol with
                 | None => Raise (not_defined symbol src)
                 | Some v => Ok (odict_set dst exported_name v)
                 end) d =
            for_each_in_place whitelist
              (λ symbol dst,
                 match odict_get src symbol with
                 | None => Raise (not_defined symbol src)
                 | Some v => Ok (odict_set dst symbol v)
                 end) d) as Hsame.
  { clear. induction whitelist as [| s l IH]; intros d; [done |].
    cbn [fmap list_fmap for_each_in_place].
    destruct (odict_get src s); [apply IH | done]. }
  rewrite Hsame in H1. clear Hsame Hfst.
  destruct H1 as [Hout1 Hin1].
  { intros k s1 s2 (? & [= -> ->] & _)%list_elem_of_fmap
      (? & [= -> ->] & _)%list_elem_of_fmap. done. }
  destruct (for_each_in_place whitelist _ dst) as [r1 dst1].
  cbn [fst snd] in Hout1, Hin1.
  destruct r1 as [[] | e].
  - destruct (load_symbols_loop src whitelist_mapping dst1 Hm) as [Hout2 Hin2].
    split.
    + intros k Hk1 Hk2. by rewrite (Hout2 k Hk2), (Hout1 k Hk1).
    + destruct (for_each_in_place whitelist_mapping _ dst1).1 as [[] | e].
      * split; [| exact Hin2].
        intros s Hs. destruct (Hin1 s s) as [Hdef Hget].
        { apply list_elem_of_fmap. by exists s. }
        split; [done |]. intros Hno. by rewrite (Hout2 s Hno).
      * destruct Hin2 as (k & s & Hks & Hnone & ->).
        exists s. split; [| done]. right.
        apply list_elem_of_fmap. by exists (k, s).
  - cbn [fst snd]. split.
    + intros k Hk1 _. by apply Hout1.
    + destruct Hin1 as (k & s & Hks & Hnone & ->).
      exists s. split; [| done]. left.
      apply list_elem_of_fmap in Hks as (s' & [= -> ->] & Hs'). done.
Qed.

Lemma merge_explicit_globals_binds_witness :
  odict_get
    (_merge_explicit_globals
       [("_private", OValue (VInt 1)); ("public", OValue (VInt 2))]
       [("x", OValue (VInt 0))] ["_private"] [("alias", "public")]).2 "alias" =
  Some (OValue (VInt 2)).
Proof.
  destruct (merge_explicit_globals_binds
              [("_private", OValue (VInt 1)); ("public", OValue (VInt 2))]
              [("x", OValue (VInt 0))] ["_private"] [("alias", "public")])
    as [_ Hbound]; [apply NoDup_singleton |].
  simpl in Hbound. destruct Hbound as [_ Hbound].
  apply (Hbound "alias" "public"). by left.
Defined.

(** ** Invariants of the evaluation engine *)

Section Keeps.
Context (I : state → Prop).

Lemma keeps_ret {A} (a : A) : keeps I (ret a).
Proof. by intros st. Qed.

Lemma keeps_raise {A} (e : exn) : keeps I (@raise A e).
Proof. by intros st. Qed.

Lemma keeps_get : keeps I get.
Proof. by intros st. Qed.

Lemma keeps_lift {A} (r : result A) : keeps I (lift r).
Proof. by intros st. Qed.

Lemma keeps_modify (f : state → state) :
  (∀ st, I st → I (f st)) → keeps I (modify f).
Proof. intros Hf st. apply Hf. Qed.

Lemma keeps_bind {A B} (m : M A) (f : A → M B) :
  keeps I m → (∀ a, keeps I (f a)) → keeps I (bind m f).
Proof.
  intros Hm Hf st HI. unfold bind. specialize (Hm st HI).
  destruct (m st) as [[a | e] st1]; [by apply Hf | done].
Qed.

Lemma keeps_try {A} (m : M A) : keeps I m → keeps I (try m).
Proof.
  intros Hm st HI. unfold try. specialize (Hm st HI).
  by destruct (m st) as [r st1].
Qed.

Lemma keeps_for_eachM {A} (l : list A) (body : A → M unit) :
  (∀ a, keeps I (body a)) → keeps I (for_eachM l body).
Proof.
  intros Hb. induction l as [| a l IH]; simpl; [apply keeps_ret |].
  apply keeps_bind; [apply Hb | intros _; apply IH].
Qed.

Lemma keeps_the_context (l : loc) : keeps I (the_context l).
Proof. intros st HI. unfold the_context, bind, get. by destruct (contexts st !! l). Qed.

Lemma keeps_the_env (o : option loc) : keeps I (the_env o).
Proof. intros st HI. by destruct o. Qed.

Lemma keeps_module_dict (l : loc) : keeps I (module_dict l).
Proof. intros st HI. unfold module_dict, bind, get. by destruct (modules st !! l). Qed.

Lemma keeps_frame_globals (module : loc) (frame : option string) :
  keeps I (frame_globals module frame).
Proof.
  intros st HI. destruct frame as [path |]; [| done].
  unfold frame_globals, bind, get.
  by destruct (_include_cache (self st) !! path) as [[? ?] |].
Qed.
End Keeps.

(** Proves that a computation built from the primitives keeps an
    invariant, from the hypotheses about the computations it calls. *)
Ltac keeps_step :=
  first
    [ assumption
    | apply keeps_ret | apply keeps_raise | apply keeps_get | apply keeps_lift
    | apply keeps_the_context | apply keeps_the_env | apply keeps_module_dict
    | apply keeps_frame_globals
    | apply keeps_try
    | apply keeps_for_eachM; intros ?
    | match goal with
      | H : ∀ _, keeps _ _ |- keeps _ _ => apply H
      | H : ∀ _ _, keeps _ _ |- keeps _ _ => apply H
      | H : ∀ _ _ _, keeps _ _ |- keeps _ _ => apply H
      | H : ∀ _ _ _ _, keeps _ _ |- keeps _ _ => apply H
      | H : ∀ _ _ _ _ _, keeps _ _ |- keeps _ _ => apply H
      | H : ∀ _ _ _ _ _ _, keeps _ _ |- keeps _ _ => apply H
      | |- keeps _ (match ?x with _ => _ end) => destruct x
      | |- keeps _ (let '(_, _) := ?x in _) => destruct x
      end
    | apply keeps_bind; [| intros ?] ].

Ltac keeps_auto := repeat keeps_step.

Section EngineInvariant.
Context `{Host} `{GeneratedRules} `{GlobBackends} `{FileSystem}.

(** The invariant, for each value of the current context. *)
Variable I : option loc → state → Prop.

Hypothesis I_alloc : ∀ e st,
  I e st → I e (with_next_loc (Pos.succ (next_loc st)) st).
Hypothesis I_modules : ∀ e st x, I e st → I e (with_modules x st).
Hypothesis I_default_globals : ∀ e st which g,
  I e st → I e (with_self (with_default_globals which g (self st)) st).
Hypothesis I_cache : ∀ e st0 st p v,
  I e st0 → _include_cache (self st0) !! p = None → I e st →
  I e (with_self (with_include_cache (<[p := v]> (_include_cache (self st)))
                    (self st)) st).
Hypothesis I_new_context : ∀ e st c,
  I e st → new_context c →
  I e (with_contexts (<[next_loc st := c]> (contexts st))
         (with_next_loc (Pos.succ (next_loc st)) st)).
Hypothesis I_name_rule : ∀ e st f u u' l env k,
  I e st → rule_objects st !! f = Some u → contexts st !! l = Some (Include env) →
  UserDefinedRule.set_name u k = Ok u' →
  I e (with_contexts
         (<[l := with_accumulators
                   (with_user_rules
                      (user_rules (accumulators (Include env)) ∪ {[f]})
                      (accumulators (Include env))) (Include env)]> (contexts st))
         (with_rule_objects (<[f := u']> (rule_objects st)) st)).
Hypothesis I_implicit : ∀ e st l b m,
  I e st → contexts st !! l = Some (BuildFile b) →
  I e (with_contexts
         (<[l := BuildFile (BuildFileContext.with_implicit_package_symbols m b)]>
            (contexts st)) st).
Hypothesis I_refresh : ∀ e st l, I e st → I e (refresh_user_rules l st).
Hypothesis I_enter : ∀ e st l, I e st → I (Some l) (set_env (Some l) st).
Hypothesis I_leave : ∀ e o st0 st,
  I e st0 → I o st → I e (set_env (_current_build_env (self st0)) st).
Hypothesis I_add_include : ∀ e l p, keeps (I e) (add_include l p).
Hypothesis I_merge_into : ∀ e l inner, keeps (I e) (merge_into l inner).
Hypothesis I_read_config : ∀ e s f d, keeps (I e) (_read_config s f d).
Hypothesis I_get_load_path : ∀ e label, keeps (I e) (_get_load_path label).
Hypothesis I_invoke_add_rule : ∀ e r, keeps (I e) (invoke_add_rule r).
Hypothesis I_invoke_rule : ∀ e a t, keeps (I e) (invoke_rule a t).
Hypothesis I_invoke_user_rule : ∀ e f k, keeps (I e) (invoke_user_rule f k).
Hypothesis I_glob : ∀ e a b c d x, keeps (I e) (_glob a b c d x).

Lemma keeps_set_module_dict (e : option loc) (l : loc) (d : list (string * pyobj)) :
  keeps (I e) (set_module_dict l d).
Proof. apply keeps_modify. intros st. apply I_modules. Qed.

Lemma keeps_alloc (e : option loc) : keeps (I e) alloc.
Proof. intros st. apply I_alloc. Qed.

Lemma keeps_add_build_file_dep (e : option loc) (name : string) :
  keeps (I e) (_add_build_file_dep name).
Proof. unfold _add_build_file_dep. keeps_auto. Qed.

Lemma keeps_set_build_env {A} (e : option loc) (l : loc) (body : M A) :
  keeps (I (Some l)) body → keeps (I e) (_set_build_env l body).
Proof.
  intros Hb st HI. unfold _set_build_env.
  pose proof (Hb _ (I_enter e st l HI)) as Hbody. unfold set_env in Hbody.
  destruct (body _) as [r st1]. simpl in *.
  exact (I_leave e (Some l) st st1 HI Hbody).
Qed.

Section Step.
Variable _process_include : BuildInclude.t → bool → M (loc * loc).
Hypothesis I_process_include : ∀ e build_include is_implicit_include,
  keeps (I e) (_process_include build_include is_implicit_include).

Lemma keeps_include_defs (e : option loc) (is_implicit_include : bool)
    (f_globals : loc) (name : string) (namespace : option string) :
  keeps (I e) (_include_defs _process_include is_implicit_include f_globals name
                 namespace).
Proof.
  unfold _include_defs.
  pose proof keeps_set_module_dict. pose proof keeps_alloc.
  keeps_auto.
Qed.

Lemma keeps_load (e : option loc) (is_implicit_include : bool) (f_globals : loc)
    (name : string) (symbols : list string) (symbol_kwargs : list (string * string)) :
  keeps (I e) (_load _process_include is_implicit_include f_globals name symbols
                 symbol_kwargs).
Proof.
  unfold _load.
  pose proof keeps_set_module_dict.
  assert (∀ l, keeps (I e) (modify (refresh_user_rules l))) as Href.
  { intros l. apply keeps_modify. intros st. apply I_refresh. }
  destruct symbols, symbol_kwargs; keeps_auto.
Qed.

Lemma keeps_load_package_implicit (e : option loc) (build_env : loc)
    (package_implicit_load : LoadStatement) :
  keeps (I e) (_load_package_implicit _process_include build_env
                 package_implicit_load).
Proof.
  unfold _load_package_implicit.
  apply keeps_bind; [apply I_get_load_path | intros build_include].
  apply keeps_bind; [apply I_process_include | intros [inner_env module]].
  apply keeps_bind; [apply keeps_module_dict | intros m].
  apply keeps_bind; [| intros _; keeps_auto].
  apply keeps_for_eachM. intros [key symbol].
  destruct (odict_get m symbol) as [v |]; [| apply keeps_raise].
  intros st HI. run_M.
  destruct (contexts st !! build_env) as [[b | i] |] eqn:Hctx; try done.
  by apply I_implicit.
Qed.

Lemma keeps_invoke (e : option loc) (is_implicit_include : bool) (module : loc)
    (frame : option string) (c : builtin_call) :
  keeps (I e) (invoke _process_include is_implicit_include module frame c).
Proof.
  pose proof keeps_include_defs. pose proof keeps_load.
  pose proof keeps_add_build_file_dep.
  destruct c; unfold invoke; keeps_auto.
Qed.

Lemma keeps_exec (e : option loc) (is_implicit_include : bool) (module : loc)
    (c : code) :
  keeps (I e) (exec _process_include is_implicit_include module c).
Proof.
  pose proof keeps_invoke. pose proof keeps_set_module_dict.
  induction c as [| ex | k v rest IH | k rest IH | frame call rest IH]; simpl;
    keeps_auto.
Qed.

Lemma keeps_process (e : option loc) (build_env : loc) (path : string)
    (is_implicit_include : bool) (package_implicit_load : option LoadStatement) :
  keeps (I e) (_process _process_include build_env path is_implicit_include
                 package_implicit_load).
Proof.
  unfold _process.
  apply keeps_bind; [apply keeps_the_context | intros c].
  apply keeps_set_build_env.
  pose proof keeps_exec. pose proof keeps_set_module_dict. pose proof keeps_alloc.
  pose proof keeps_load_package_implicit.
  assert (∀ which g,
            keeps (I (Some build_env))
              (modify (λ st, with_self (with_default_globals which g (self st)) st)))
    as Hglobals.
  { intros which g. apply keeps_modify. intros st. apply I_default_globals. }
  keeps_auto.
Qed.

Lemma keeps_process_include_body (e : option loc) (build_include : BuildInclude.t)
    (is_implicit_include : bool) :
  keeps (I e) (_process_include_body _process_include build_include
                 is_implicit_include).
Proof.
  intros st0 HI0. unfold _process_include_body.
  unfold bind at 1. unfold get at 1. cbv beta iota.
  destruct (_include_cache (self st0) !! BuildInclude.path build_include)
    as [cached |] eqn:Hmiss; [done |].
  unfold bind at 1. unfold alloc at 1. cbv beta iota.
  unfold bind at 1. unfold set_context at 1. unfold modify at 1. cbv beta iota.
  match goal with
  | |- I e (?m ?s).2 => assert (keeps (I e) m) as Hrest
  end.
  { pose proof keeps_process.
    assert (∀ v, keeps (I e)
              (modify (λ st, with_self (with_include_cache
                 (<[BuildInclude.path build_include := v]>
                    (_include_cache (self st))) (self st)) st))) as Hcache.
    { intros v. apply keeps_modify. intros st. by apply (I_cache e st0). }
    apply keeps_bind; [apply keeps_process | intros [build_env module]].
    apply keeps_bind; [apply keeps_get | intros st].
    apply keeps_bind; [| intros _; keeps_auto].
    destruct (_enable_user_defined_rules (self st)); [| apply keeps_ret].
    apply keeps_bind; [apply keeps_module_dict | intros m].
    apply keeps_for_eachM. intros [k v].
    destruct v as [| f | |]; try apply keeps_ret.
    intros st1 HI1. run_M.
    destruct (rule_objects st1 !! f) as [u |] eqn:Hu; [| done].
    destruct (contexts st1 !! build_env) as [[b | env] |] eqn:Hctx; try done.
    destruct (String.eqb _ _); [| done].
    destruct (UserDefinedRule.set_name u k) as [u' |] eqn:Hname; [| done].
    exact (I_name_rule e st1 f u u' build_env env k HI1 Hu Hctx Hname). }
  apply Hrest. refine (I_new_context e st0 _ HI0 _). by split.
Qed.

End Step.

(** Every call of [_process_include] keeps the invariant, at every depth. *)
Lemma keeps_process_include (depth : nat) :
  ∀ e build_include is_implicit_include,
    keeps (I e) (_process_include depth build_include is_implicit_include).
Proof.
  induction depth as [| depth IH]; intros e build_include is_implicit_include.
  - apply keeps_raise.
  - apply keeps_process_include_body. exact IH.
Qed.

Lemma keeps_process_build_file (e : option loc) (depth : nat) (watch_root : string)
    (project_prefix : option string) (path : string)
    (package_implicit_load : option LoadStatement) :
  keeps (I e) (_process_build_file depth watch_root project_prefix path
                 package_implicit_load).
Proof.
  intros st0 HI0. unfold _process_build_file.
  unfold bind at 1. unfold get at 1. cbv beta iota.
  unfold bind at 1. unfold alloc at 1. cbv beta iota.
  unfold bind at 1. unfold set_context at 1. unfold modify at 1. cbv beta iota.
  apply keeps_process; [apply keeps_process_include |].
  refine (I_new_context e st0 _ HI0 _). split; [done |]. by intros b [= <-].
Qed.

Lemma keeps_process_query (e : option loc) (depth : nat) (watch_root : string)
    (project_prefix : option string) (path : string)
    (diagnostics : list Diagnostic)
    (package_implicit_load : option LoadStatement) :
  keeps (I e) (process depth watch_root project_prefix path diagnostics
                 package_implicit_load).
Proof.
  unfold process. pose proof keeps_process_build_file. keeps_auto.
Qed.

(** Every operation of the worker keeps the invariant. *)
Lemma keeps_run_operation (e : option loc) (op : operation) (st : state) :
  I e st → I e (run_operation op st).
Proof.
  intros HI. destruct op; simpl.
  - by apply keeps_process_include.
  - by apply keeps_process_query.
  - apply keeps_exec; [apply keeps_process_include | done].
  - apply keeps_invoke; [apply keeps_process_include | done].
Qed.

Lemma keeps_run_operations (e : option loc) (ops : list operation) (st : state) :
  I e st → I e (run_operations ops st).
Proof.
  unfold run_operations. revert st.
  induction ops as [| op ops IH]; intros st HI; [done |].
  simpl. apply IH. by apply keeps_run_operation.
Qed.

End EngineInvariant.

(** *** Invariants that the objects of the store cannot break *)

Section SimpleInvariant.
Context `{Host} `{GeneratedRules} `{GlobBackends}.
Variable I : state → Prop.

Hypothesis I_contexts : ∀ st x, I st → I (with_contexts x st).
Hypothesis I_dicts : ∀ st x, I st → I (with_dicts x st).
Hypothesis I_rule_objects : ∀ st x, I st → I (with_rule_objects x st).
Hypothesis I_next_loc : ∀ st x, I st → I (with_next_loc x st).
Hypothesis I_configs : ∀ st x,
  I st → I (with_self (with_configs x (self st)) st).

Lemma simple_set_context (l : loc) (c : context) : keeps I (set_context l c).
Proof. apply keeps_modify. intros st. apply I_contexts. Qed.

Lemma simple_alloc : keeps I alloc.
Proof. intros st. apply I_next_loc. Qed.

Lemma simple_add_include (l : loc) (p : string) : keeps I (add_include l p).
Proof. pose proof simple_set_context. unfold add_include. keeps_auto. Qed.

Lemma simple_merge_into (l inner : loc) : keeps I (merge_into l inner).
Proof. pose proof simple_set_context. unfold merge_into. keeps_auto. Qed.

Lemma simple_record_config (l : loc) (section field : string) (v : value) :
  keeps I (record_config l section field v).
Proof.
  pose proof simple_set_context. pose proof simple_alloc.
  assert (∀ f, keeps I (modify (λ st, with_dicts (f st) st))) as Hd.
  { intros f. apply keeps_modify. intros st. apply I_dicts. }
  unfold record_config. keeps_auto.
Qed.

Lemma simple_read_config (section field : string) (default : value) :
  keeps I (_read_config section field default).
Proof.
  pose proof simple_record_config.
  assert (∀ f, keeps I (modify (λ st, with_self (with_configs (f st) (self st)) st)))
    as Hc.
  { intros f. apply keeps_modify. intros st. apply I_configs. }
  unfold _read_config. keeps_auto.
Qed.

Lemma simple_emit_warning (message source : string) :
  keeps I (_emit_warning message source).
Proof. pose proof simple_set_context. unfold _emit_warning. keeps_auto. Qed.

Lemma simple_get_load_path (label : string) : keeps I (_get_load_path label).
Proof.
  pose proof simple_emit_warning. unfold _get_load_path.
  destruct (match_load_label label) as [m |]; [| apply keeps_raise].
  apply keeps_bind; [apply keeps_get | intros st].
  apply keeps_bind.
  - destruct (group_cell m) as [[| c cell] |]; [keeps_auto | | keeps_auto].
    destruct (Ascii.eqb_spec c "@") as [-> | Hne]; [apply keeps_ret |].
    rewrite (ascii_at_other c) by done. keeps_auto.
  - intros cell_name. keeps_auto.
Qed.

Lemma simple_invoke_add_rule (r : RuleRecord) : keeps I (invoke_add_rule r).
Proof. pose proof simple_set_context. unfold invoke_add_rule. keeps_auto. Qed.

Lemma simple_invoke_rule (attrs : option (gmap string attr_arg)) (test : bool) :
  keeps I (invoke_rule attrs test).
Proof.
  pose proof simple_alloc.
  assert (∀ f, keeps I (modify (λ st, with_rule_objects (f st) st))) as Hr.
  { intros f. apply keeps_modify. intros st. apply I_rule_objects. }
  unfold invoke_rule. keeps_auto.
Qed.

Lemma simple_invoke_user_rule (f : loc) (kwargs : gmap string value) :
  keeps I (invoke_user_rule f kwargs).
Proof. pose proof simple_set_context. unfold invoke_user_rule. keeps_auto. Qed.

Lemma simple_glob (includes : seq_arg) (excludes : option seq_arg)
    (include_dotfiles : bool) (search_base : option string)
    (exclude : option seq_arg) :
  keeps I (_glob includes excludes include_dotfiles search_base exclude).
Proof.
  pose proof simple_set_context. unfold _glob.
  destruct exclude as [[] |], excludes as [[] |]; keeps_auto.
Qed.

Lemma simple_refresh_user_rules (l : loc) (st : state) :
  I st → I (refresh_user_rules l st).
Proof.
  intros HI. unfold refresh_user_rules.
  destruct (contexts st !! l); [by apply I_rule_objects | done].
Qed.
End SimpleInvariant.

(** ** The include cache *)

Lemma cache_with_default_globals (which : globals_table)
    (g : list (string * pyobj)) (s : BuildFileProcessor.t) :
  _include_cache (with_default_globals which g s) = _include_cache s
  ∧ _current_build_env (with_default_globals which g s) = _current_build_env s.
Proof. by destruct which. Qed.

Lemma self_refresh_user_rules (l : loc) (st : state) :
  self (refresh_user_rules l st) = self st
  ∧ functions_build_env (refresh_user_rules l st) = functions_build_env st.
Proof. unfold refresh_user_rules. by destruct (contexts st !! l). Qed.

Lemma self_set_env (o : option loc) (st : state) :
  _include_cache (self (set_env o st)) = _include_cache (self st)
  ∧ _current_build_env (self (set_env o st)) = o
  ∧ functions_build_env (set_env o st) = o.
Proof.
  unfold set_env, _update_functions. destruct o as [l |]; [| done].
  destruct (self_refresh_user_rules l
              (with_functions_build_env (Some l)
                 (with_self (with_current_build_env (Some l) (self st)) st)))
    as [-> ->].
  done.
Qed.

Section Control.
Context `{Host} `{GeneratedRules} `{GlobBackends} `{FileSystem}.

(** Solves the conditions of the engine's invariant for an invariant that
    reads the processor object only. *)
Local Ltac control :=
  intros;
  first
    [ assumption
    | apply simple_add_include; intros; assumption
    | apply simple_merge_into; intros; assumption
    | apply simple_read_config; intros; assumption
    | apply simple_get_load_path; intros; assumption
    | apply simple_invoke_add_rule; intros; assumption
    | apply simple_invoke_rule; intros; assumption
    | apply simple_invoke_user_rule; intros; assumption
    | apply simple_glob; intros; assumption ].


Lemma current_build_env_kept (e : option loc) (ops : list operation) (st : state) :
  _current_build_env (self st) = e →
  _current_build_env (self (run_operations ops st)) = e.
Proof.
  apply (keeps_run_operations (λ e st, _current_build_env (self st) = e));
    try (by control).
  - intros e' st0 which g Hc. simpl.
    by destruct (cache_with_default_globals which g (self st0)) as [_ ->].
  - intros e' st0 l Hc. by destruct (self_refresh_user_rules l st0) as [-> _].
  - intros e' st0 l Hc. by destruct (self_set_env (Some l) st0) as (_ & -> & _).
  - intros e' o st0 st1 Hc0 _.
    by destruct (self_set_env (_current_build_env (self st0)) st1) as (_ & -> & _).
Qed.

Lemma functions_bound_kept (e : option loc) (ops : list operation) (st : state) :
  _current_build_env (self st) = e ∧ functions_build_env st = e →
  let st' := run_operations ops st in
  _current_build_env (self st') = e ∧ functions_build_env st' = e.
Proof.
  apply (keeps_run_operations
           (λ e st, _current_build_env (self st) = e ∧ functions_build_env st = e));
    try (by control).
  - intros e' st0 which g [Hc Hf]. simpl.
    by destruct (cache_with_default_globals which g (self st0)) as [_ ->].
  - intros e' st0 l [Hc Hf]. by destruct (self_refresh_user_rules l st0) as [-> ->].
  - intros e' st0 l _. by destruct (self_set_env (Some l) st0) as (_ & -> & ->).
  - intros e' o st0 st1 [Hc0 _] _.
    destruct (self_set_env (_current_build_env (self st0)) st1) as (_ & -> & ->).
    done.
Qed.
End Control.

Lemma bind_ok {A B} (m : M A) (f : A → M B) (st st' : state) (b : B) :
  bind m f st = (Ok b, st') →
  ∃ a st1, m st = (Ok a, st1) ∧ f a st1 = (Ok b, st').
Proof.
  unfold bind. destruct (m st) as [[a | e] st1]; [| done]. by exists a, st1.
Qed.


Section Cache.
Context `{Host} `{GeneratedRules} `{GlobBackends} `{FileSystem}.


(** X18. The current context is the same after any operations of the
    worker as before them, whether they returned or raised: each file is
    evaluated with its own context as the current one, and the previous
    one comes back when the evaluation ends or fails. If the built-in
    functions were bound to the current context before, they are bound to
    it afterwards. *)
Theorem current_build_env_restored (ops : list operation) (st : state) :
  let st' := run_operations ops st in
  _current_build_env (self st') = _current_build_env (self st)
  ∧ (functions_build_env st = _current_build_env (self st) →
     functions_build_env st' = _current_build_env (self st)).
Proof.
  split; [by apply current_build_env_kept |].
  intros Hbound.
  by destruct (functions_bound_kept (_current_build_env (self st)) ops st).
Qed.
End Cache.

Section CacheHit.
Context {host : Host} {generated : GeneratedRules} {tree0 : GlobBackends}
  {files0 : FileSystem}.

End CacheHit.

(** ** The rules of a build file *)

Lemma build_file_of_accumulators (pre : list (string * RuleRecord))
    (bp : string) (a : AbstractContext) (c : context) :
  build_file_of pre bp c → build_file_of pre bp (with_accumulators a c).
Proof.
  intros (b & -> & Hbp & Hwf & Hpre). by exists (BuildFileContext.with_base a b).
Qed.

Lemma odict_get_none_elem {V : Type} (d : list (string * V)) (k : string) :
  odict_get d k = None → k ∉ d.*1.
Proof.
  intros Hget Hin. apply odict_get_elem in Hin as [v Hv]. by rewrite Hv in Hget.
Qed.

Lemma build_file_of_add_rule `{Host} (pre : list (string * RuleRecord))
    (bp : string) (rule : RuleRecord)
    (c c' : context) :
  build_file_of pre bp c → add_rule rule c = Ok c' → build_file_of pre bp c'.
Proof.
  intros (b & -> & Hbp & (Hnd & Hwf) & Hpre) (n & Hname & Hfree & ->)%add_rule_ok.
  eexists. split; [done |]. split; [done |].
  split; [| by apply prefix_app_r]. split; simpl.
  - rewrite fmap_app. apply NoDup_app. split; [done |]. split.
    + intros k Hk [-> | ?%elem_of_nil]%elem_of_cons; [| done].
      by apply odict_get_none_elem in Hfree.
    + apply NoDup_singleton.
  - intros k r [Hin | [[= -> ->] | ?%elem_of_nil]%elem_of_cons]%elem_of_app;
      [by apply Hwf | | done].
    split; [by rewrite lookup_insert_ne | by rewrite lookup_insert_eq].
Qed.

Lemma call_ends_in_add_rule `{Host} (u : UserDefinedRule.t) (c c' : context)
    (kwargs : gmap string value) :
  UserDefinedRule.__call__ u (Some c) kwargs = Ok c' →
  ∃ rule, add_rule rule c = Ok c'.
Proof.
  unfold UserDefinedRule.__call__.
  destruct (UserDefinedRule.buck_type u) as [[| ? ?] |]; try done.
  destruct c as [env | i]; [| done].
  destruct (negb _); [done |].
  destruct (for_each (elements (UserDefinedRule.required_attrs u)) _ _)
    as [r1 |]; [| done]. simpl.
  destruct (for_each (elements (UserDefinedRule.optional_attrs u)) _ _)
    as [r2 |]; [| done]. simpl.
  destruct (for_each (map_to_list (UserDefinedRule.attrs u)) _ _)
    as [r3 |]; [| done]. simpl.
  intros Hadd. by exists r3.
Qed.

Lemma glob_results_context `{GlobBackends} (includes excludes : list string)
    (include_dotfiles : bool) (env : BuildFileContext.t) (search_base : string) :
  ∃ d, (glob_results includes excludes include_dotfiles env search_base).2
       = with_diagnostics d env.
Proof.
  assert (env = with_diagnostics (diagnostics (BuildFileContext.base env)) env)
    as Hsame by (by destruct env as [[] ?]).
  unfold glob_results. destruct includes as [| i includes].
  { exists (diagnostics (BuildFileContext.base env)). by rewrite <- Hsame. }
  destruct (BuildFileContext.watchman_client env) as [w |].
  - destruct (glob_watchman (i :: includes) excludes include_dotfiles env)
      as [results diags].
    exists diags.
    destruct results as [[[| r rs] |] | e]; try done.
    by destruct (map_result to_str (r :: rs)).
  - exists (diagnostics (BuildFileContext.base env)). simpl. by rewrite <- Hsame.
Qed.

Lemma build_file_of_glob `{Host} `{GlobBackends}
    (pre : list (string * RuleRecord)) (bp : string) (includes : seq_arg)
    (excludes : option seq_arg) (include_dotfiles : bool) (c : context)
    (search_base : option string) :
  build_file_of pre bp c →
  build_file_of pre bp (glob includes excludes include_dotfiles c search_base).2.
Proof.
  intros (b & -> & Hbp & Hwf & Hpre). unfold glob.
  destruct includes as [s | includes]; [by exists b |].
  destruct (default (SeqList []) excludes) as [s | excludes']; [by exists b |].
  destruct (_ && _); [by exists b |].
  destruct (glob_results_context includes excludes' include_dotfiles b
              (default (BuildFileContext.dirname b) search_base)) as [d Hd].
  destruct (glob_results _ _ _ _ _) as [results env]. simpl in Hd. subst env.
  assert (build_file_of pre bp (BuildFile (with_diagnostics d b))) as Hout.
  { eexists. split; [done |]. by split. }
  destruct results as [results |]; [| done].
  by destruct (_ || _).
Qed.

Section BuildFileAt.
Context `{Host} `{GeneratedRules} `{GlobBackends}.
Context (pre : list (string * RuleRecord)) (l0 : loc) (bp : string).

#[local] Abbreviation I := (build_file_at pre l0 bp).

Lemma build_file_at_ext (st st' : state) :
  contexts st' = contexts st → (next_loc st ≤ next_loc st')%positive →
  I st → I st'.
Proof.
  intros Hc Hn [Hat Hfresh]. split; rewrite Hc; [done |].
  intros l' Hl'. apply Hfresh. lia.
Qed.

Lemma build_file_at_update (st st' : state) (l : loc) (c c' : context) :
  contexts st !! l = Some c →
  (build_file_of pre bp c → build_file_of pre bp c') →
  contexts st' = <[l := c']> (contexts st) →
  (next_loc st ≤ next_loc st')%positive →
  I st → I st'.
Proof.
  intros Hl Hframe Hc Hn [(c0 & Hat & Hc0) Hfresh]. split; rewrite Hc.
  - destruct (decide (l = l0)) as [-> | Hne].
    + rewrite lookup_insert_eq. eexists. split; [done |].
      apply Hframe. rewrite Hat in Hl. by injection Hl as <-.
    + rewrite lookup_insert_ne by done. by exists c0.
  - intros l' Hl'. rewrite lookup_insert_ne; [apply Hfresh; lia |].
    intros ->. rewrite Hfresh in Hl; [done | lia].
Qed.

Lemma build_file_at_new (st st' : state) (c : context) :
  contexts st' = <[next_loc st := c]> (contexts st) →
  next_loc st' = Pos.succ (next_loc st) →
  I st → I st'.
Proof.
  intros Hc Hn [(c0 & Hat & Hc0) Hfresh]. split; rewrite Hc.
  - rewrite lookup_insert_ne; [by exists c0 |].
    intros Heq. rewrite <- Heq, Hfresh in Hat; [done | lia].
  - intros l' Hl'. rewrite lookup_insert_ne by lia. apply Hfresh. lia.
Qed.

Lemma at_add_include (l : loc) (p : string) : keeps I (add_include l p).
Proof.
  intros st HI. unfold add_include. run_M.
  destruct (contexts st !! l) as [c |] eqn:Hl; [| done]. simpl.
  eapply build_file_at_update; [exact Hl | | done | done | done].
  apply build_file_of_accumulators.
Qed.

Lemma at_merge_into (l inner : loc) : keeps I (merge_into l inner).
Proof.
  intros st HI. unfold merge_into. run_M.
  destruct (contexts st !! l) as [c |] eqn:Hl; [| done].
  destruct (contexts st !! inner) as [other |] eqn:Hinner; [| done]. simpl.
  eapply build_file_at_update; [exact Hl | | done | done | done].
  apply build_file_of_accumulators.
Qed.

Lemma at_emit_warning (message source : string) :
  keeps I (_emit_warning message source).
Proof.
  intros st HI. unfold _emit_warning. run_M.
  destruct (_current_build_env (self st)) as [l |]; [| done].
  destruct (contexts st !! l) as [c |] eqn:Hl; [| done]. simpl.
  eapply build_file_at_update; [exact Hl | | done | done | done].
  apply build_file_of_accumulators.
Qed.

Lemma at_record_config (l : loc) (section field : string) (v : value) :
  keeps I (record_config l section field v).
Proof.
  intros st HI. unfold record_config. run_M.
  destruct (contexts st !! l) as [c |] eqn:Hl; [| done].
  destruct (used_configs (accumulators c) !! section) as [d |]; simpl.
  - by eapply build_file_at_ext.
  - eapply build_file_at_update; [exact Hl | | done | simpl; lia | done].
    apply build_file_of_accumulators.
Qed.

Lemma at_read_config (section field : string) (default : value) :
  keeps I (_read_config section field default).
Proof.
  pose proof at_record_config.
  assert (∀ f, keeps I (modify (λ st, with_self (f st) st))) as Hc.
  { intros f. apply keeps_modify. intros st. by apply build_file_at_ext. }
  unfold _read_config. keeps_auto.
Qed.

Lemma at_get_load_path (label : string) : keeps I (_get_load_path label).
Proof.
  pose proof at_emit_warning. unfold _get_load_path.
  destruct (match_load_label label) as [m |]; [| apply keeps_raise].
  apply keeps_bind; [apply keeps_get | intros st].
  apply keeps_bind.
  - destruct (group_cell m) as [[| c cell] |]; [keeps_auto | | keeps_auto].
    destruct (Ascii.eqb_spec c "@") as [-> | Hne]; [apply keeps_ret |].
    rewrite (ascii_at_other c) by done. keeps_auto.
  - intros cell_name. keeps_auto.
Qed.

Lemma at_invoke_add_rule (r : RuleRecord) : keeps I (invoke_add_rule r).
Proof.
  intros st HI. unfold invoke_add_rule. run_M.
  destruct (functions_build_env st) as [l |]; [| done].
  destruct (contexts st !! l) as [c |] eqn:Hl; [| done].
  destruct (add_rule r c) as [c' |] eqn:Hadd; [| done]. simpl.
  eapply build_file_at_update; [exact Hl | | done | done | done].
  intros Hc. by eapply build_file_of_add_rule.
Qed.

Lemma at_invoke_rule (attrs : option (gmap string attr_arg)) (test : bool) :
  keeps I (invoke_rule attrs test).
Proof.
  intros st HI. unfold invoke_rule. run_M.
  destruct (negb _); [done |].
  destruct (functions_build_env st) as [l |]; [| done].
  destruct (contexts st !! l) as [c |]; [| done].
  destruct (rule attrs test c); [| done]. simpl.
  eapply build_file_at_ext; [| | exact HI]; simpl; [done | lia].
Qed.

Lemma at_invoke_user_rule (f : loc) (kwargs : gmap string value) :
  keeps I (invoke_user_rule f kwargs).
Proof.
  intros st HI. unfold invoke_user_rule. run_M.
  destruct (rule_objects st !! f) as [u |]; [| done].
  destruct (UserDefinedRule.build_env u) as [l |]; simpl.
  - destruct (contexts st !! l) as [c |] eqn:Hl; simpl.
    + destruct (UserDefinedRule.__call__ u (Some c) kwargs) as [c' |] eqn:Hcall;
        [| done]. simpl.
      apply call_ends_in_add_rule in Hcall as [rule Hadd].
      eapply build_file_at_update; [exact Hl | | done | done | done].
      intros Hc. by eapply build_file_of_add_rule.
    + unfold UserDefinedRule.__call__.
      by destruct (UserDefinedRule.buck_type u) as [[| ? ?] |].
  - unfold UserDefinedRule.__call__.
    by destruct (UserDefinedRule.buck_type u) as [[| ? ?] |].
Qed.

Lemma at_glob (includes : seq_arg) (excludes : option seq_arg)
    (include_dotfiles : bool) (search_base : option string)
    (exclude : option seq_arg) :
  keeps I (_glob includes excludes include_dotfiles search_base exclude).
Proof.
  assert (∀ excludes',
            keeps I
              (let* st := get in
               match (l ← _current_build_env (self st); contexts st !! l) with
               | Some c =>
                   let '(r, c) := glob includes excludes' include_dotfiles c
                                    search_base in
                   let* _ :=
                     match _current_build_env (self st) with
                     | Some l => set_context l c
                     | None => ret tt
                     end in
                   lift r
               | None =>
                   raise (AssertionError
                            "Cannot use `glob()` at the top-level of an included file.")
               end)) as Hrun.
  { intros excludes' st HI. run_M.
    destruct (_current_build_env (self st)) as [l |]; [| done]. simpl.
    destruct (contexts st !! l) as [c |] eqn:Hl; [| done].
    pose proof (build_file_of_glob pre bp includes excludes' include_dotfiles c
                  search_base) as Hglob.
    destruct (glob includes excludes' include_dotfiles c search_base) as [r c'].
    simpl in *.
    assert (I (with_contexts (<[l := c']> (contexts st)) st)) as HI'.
    { by eapply build_file_at_update. }
    by destruct r. }
  unfold _glob. destruct exclude as [[] |], excludes as [[] |];
    first [apply keeps_raise | apply Hrun].
Qed.
End BuildFileAt.

Lemma contexts_refresh_user_rules (l : loc) (st : state) :
  contexts (refresh_user_rules l st) = contexts st
  ∧ next_loc (refresh_user_rules l st) = next_loc st.
Proof. unfold refresh_user_rules. by destruct (contexts st !! l). Qed.

Lemma contexts_set_env (o : option loc) (st : state) :
  contexts (set_env o st) = contexts st ∧ next_loc (set_env o st) = next_loc st.
Proof.
  unfold set_env, _update_functions. destruct o as [l |]; [| done].
  apply (contexts_refresh_user_rules l
           (with_functions_build_env (Some l)
              (with_self (with_current_build_env (Some l) (self st)) st))).
Qed.

Section BuildFileRules.
Context `{Host} `{GeneratedRules} `{GlobBackends} `{FileSystem}.
Context (pre : list (string * RuleRecord)) (l0 : loc) (bp : string).

#[local] Abbreviation I := (build_file_at pre l0 bp).

(** Solves the conditions of the engine's invariant. *)
Local Ltac at_conditions :=
  intros;
  first
    [ apply at_add_include | apply at_merge_into | apply at_read_config
    | apply at_get_load_path | apply at_invoke_add_rule | apply at_invoke_rule
    | apply at_invoke_user_rule | apply at_glob
    | match goal with
      | HI : build_file_at _ _ _ ?st |- build_file_at _ _ _ (refresh_user_rules ?l ?st) =>
          destruct (contexts_refresh_user_rules l st) as [Hc Hn];
          eapply build_file_at_ext; [exact Hc | rewrite Hn; lia | exact HI]
      | HI : build_file_at _ _ _ ?st |- build_file_at _ _ _ (set_env ?o ?st) =>
          destruct (contexts_set_env o st) as [Hc Hn];
          eapply build_file_at_ext; [exact Hc | rewrite Hn; lia | exact HI]
      | HI : build_file_at _ _ _ ?st, Hl : contexts ?st !! _ = Some (Include _)
        |- build_file_at _ _ _ (with_contexts _ _) =>
          eapply build_file_at_update;
          [exact Hl | by intros (? & ? & _) | done | simpl; lia | exact HI]
      | HI : build_file_at _ _ _ ?st, Hl : contexts ?st !! _ = Some (BuildFile ?b)
        |- build_file_at _ _ _ (with_contexts _ _) =>
          eapply build_file_at_update;
          [exact Hl | | reflexivity | simpl; lia | exact HI];
          let b' := fresh in let Hbp := fresh in let Hwf := fresh in
          intros (b' & [= <-] & Hbp & Hwf); eexists;
          split; [done |]; split; [exact Hbp | exact Hwf]
      | HI : build_file_at _ _ _ ?st |- build_file_at _ _ _ (with_contexts _ _) =>
          eapply build_file_at_new; [done | done | exact HI]
      | HI : build_file_at _ _ _ ?st |- _ =>
          eapply build_file_at_ext; [| | exact HI]; simpl; [done | lia]
      end ].

Lemma at_process_include (depth : nat) (e : option loc)
    (build_include : BuildInclude.t) (is_implicit_include : bool) :
  keeps I (_process_include depth build_include is_implicit_include).
Proof.
  revert e build_include is_implicit_include.
  apply (keeps_process_include (λ _, I)); at_conditions.
Qed.

Lemma at_process (depth : nat) (build_env : loc) (path : string)
    (is_implicit_include : bool) (package_implicit_load : option LoadStatement) :
  keeps I (_process (_process_include depth) build_env path is_implicit_include
             package_implicit_load).
Proof.
  apply (keeps_process (λ _, I)) with (e := None); try at_conditions.
  intros. apply at_process_include. exact None.
Qed.
Lemma at_run_operations (ops : list operation) (st : state) :
  I st → I (run_operations ops st).
Proof.
  apply (keeps_run_operations (λ _, I)) with (e := None); at_conditions.
Qed.
End BuildFileRules.

Lemma set_build_env_run {A} (l : loc) (body : M A) (st st' : state) (r : result A) :
  _set_build_env l body st = (r, st') →
  ∃ st1, body (set_env (Some l) st) = (r, st1)
         ∧ st' = set_env (_current_build_env (self st)) st1.
Proof.
  unfold _set_build_env. fold (set_env (Some l) st).
  destruct (body (set_env (Some l) st)) as [r1 st1].
  intros [= <- <-]. by exists st1.
Qed.

Lemma process_returns_env `{Host} `{GeneratedRules} `{GlobBackends} `{FileSystem}
    (pi : BuildInclude.t → bool → M (loc * loc)) (build_env : loc) (path : string)
    (is_implicit_include : bool) (package_implicit_load : option LoadStatement)
    (st st' : state) (l m : loc) :
  _process pi build_env path is_implicit_include package_implicit_load st
    = (Ok (l, m), st') →
  l = build_env.
Proof.
  unfold _process. intros (c & st1 & _ & Hrun)%bind_ok.
  apply set_build_env_run in Hrun as (st2 & Hrun & _).
  apply bind_ok in Hrun as ([] & st3 & _ & Hrun).
  apply bind_ok in Hrun as (st4 & ? & _ & Hrun).
  apply bind_ok in Hrun as (module & st5 & _ & Hrun).
  apply bind_ok in Hrun as ([] & st6 & _ & Hrun).
  apply bind_ok in Hrun as (contents & st7 & _ & Hrun).
  apply bind_ok in Hrun as (g & st8 & _ & Hrun).
  apply bind_ok in Hrun as ([] & st9 & _ & Hrun).
  apply bind_ok in Hrun as ([] & st10 & _ & Hrun).
  by injection Hrun as <- _ _.
Qed.

Section ProcessRules.
Context `{Host} `{GeneratedRules} `{GlobBackends} `{FileSystem}.

(** X19. The reply to a query is the content of the context object that
    [process] makes for the build file. When [process] returns, in a
    worker whose store holds no context at a location it has yet to give
    out, that object is at the first new location and is a build-file
    context for the package of the build file: its path relative to the
    project root, without the name of the build file. The values are the
    records that the rules of this context hold, in the order in which it
    holds them, followed by the three entries [__includes] (the path of
    the query, then the includes of the context, sorted), [__configs] and
    [__env], built from what the context has gathered; the diagnostics are
    the given ones followed by those of the context. Every record among
    the rules has a string as its [name], different from the names of the
    other records, and has the package as its [buck.base_path]. *)
Theorem process_rule_records (depth : nat) (watch_root : string)
    (project_prefix : option string) (path : string)
    (diagnostics0 : list Diagnostic)
    (package_implicit_load : option LoadStatement) (st st' : state)
    (values : list RuleRecord) (diagnostics' : list Diagnostic) :
  (∀ l, (next_loc st ≤ l)%positive → contexts st !! l = None) →
  process depth watch_root project_prefix path diagnostics0 package_implicit_load st
    = (Ok (values, diagnostics'), st') →
  let base_path :=
    drop_last (String.length (_build_file_name (self st)) + 1)
      (backslashes_to_slashes
         (relpath (path_join (_project_root (self st)) path)
            (_project_root (self st)))) in
  ∃ b : BuildFileContext.t,
    contexts st' !! next_loc st = Some (BuildFile b)
    ∧ BuildFileContext.base_path b = base_path
    ∧ values =
        ((snd <$> BuildFileContext.rules b) ++
         [{["__includes" :=
              VList (VStr <$> path ::
                       sorted (elements (includes (BuildFileContext.base b))))]};
          {["__configs" :=
              VDict ((λ d, VDict (default ∅ (dicts st' !! d))) <$>
                       used_configs (BuildFileContext.base b))]};
          {["__env" := VDict (used_env_vars (BuildFileContext.base b))]}])%list
    ∧ diagnostics' =
        (diagnostics0 ++ diagnostics (BuildFileContext.base b))%list
    ∧ NoDup (BuildFileContext.rules b).*1
    ∧ ∀ n r, (n, r) ∈ BuildFileContext.rules b →
        r !! "name" = Some (VStr n)
        ∧ r !! "buck.base_path" = Some (VStr base_path).
Proof.
  intros Hfresh Hrun base_path. unfold process in Hrun.
  apply bind_ok in Hrun as (st0 & ? & [= <- <-] & Hrun).
  apply bind_ok in Hrun as ([build_env module] & st2 & Hfile & Hrun).
  apply bind_ok in Hrun as (c & st3 & Hctx & Hrun).
  apply bind_ok in Hrun as (st4 & ? & [= <- <-] & Hrun).
  unfold _process_build_file in Hfile.
  apply bind_ok in Hfile as (st0 & ? & [= <- <-] & Hfile).
  apply bind_ok in Hfile as (l0 & st1 & [= <- <-] & Hfile).
  apply bind_ok in Hfile as ([] & st1' & [= <-] & Hfile).
  pose proof (process_returns_env _ _ _ _ _ _ _ _ _ Hfile) as ->.
  match type of Hfile with
  | _process _ _ _ _ _ ?s = _ =>
      assert (build_file_at [] (next_loc st) base_path s) as HI
  end.
  { split.
    - eexists. split; [apply lookup_insert_eq |].
      eexists. split; [done |]. split; [done |]. split; [| apply prefix_nil].
      split; [apply NoDup_nil_2 |]. by intros n r ?%elem_of_nil.
    - intros l' Hl'. simpl in *. rewrite lookup_insert_ne by lia.
      apply Hfresh. lia. }
  match type of Hfile with
  | _process _ ?l ?p ?f ?pil ?s = _ =>
      pose proof (at_process [] (next_loc st) base_path depth l p f pil s HI) as Hkept
  end.
  rewrite Hfile in Hkept. simpl in Hkept.
  destruct Hkept as [(c' & Hat & b & -> & Hbp & (Hnd & Hwf) & _) _].
  cbv [the_context bind get ret raise] in Hctx. rewrite Hat in Hctx.
  injection Hctx as <- <-. injection Hrun as <- <- <-.
  exists b. split; [exact Hat |]. split; [exact Hbp |].
  split; [by rewrite <- !app_assoc |]. split; [done |]. split; [done |].
  intros n r Hin. rewrite <- Hbp. by apply Hwf.
Qed.
End ProcessRules.

Section AppendOnly.
Context `{Host} `{GeneratedRules} `{GlobBackends} `{FileSystem}.

(** X25. The rules of a build file are only ever appended to. After any
    operations of the worker (queries, includes, code that binds names
    and calls built-ins, single built-in calls, whether they return or
    raise), a build-file context with well-formed rules, in a store that
    holds no context at a location it has yet to give out, is a build-file
    context for the same package whose rules are the ones it had,
    unchanged and in the same order, followed by those added since. So
    the rule records of a reply are in the order in which they were
    added. *)
Theorem rules_append_only (ops : list operation) (st : state) (l0 : loc)
    (b : BuildFileContext.t) :
  contexts st !! l0 = Some (BuildFile b) →
  rules_wf b →
  (∀ l, (next_loc st ≤ l)%positive → contexts st !! l = None) →
  ∃ (b' : BuildFileContext.t) (added : list (string * RuleRecord)),
    contexts (run_operations ops st) !! l0 = Some (BuildFile b')
    ∧ BuildFileContext.rules b' = (BuildFileContext.rules b ++ added)%list
    ∧ BuildFileContext.base_path b' = BuildFileContext.base_path b
    ∧ rules_wf b'.
Proof.
  intros Hl Hwf Hfresh.
  assert (build_file_at (BuildFileContext.rules b) l0
            (BuildFileContext.base_path b) st) as HI.
  { split; [| exact Hfresh]. exists (BuildFile b). split; [exact Hl |].
    exists b. split; [done |]. split; [done |]. split; [exact Hwf | done]. }
  apply (at_run_operations _ _ _ ops) in HI.
  destruct HI as [(c & Hc & b' & -> & Hbp & Hwf' & [added Hadd]) _].
  by exists b', added.
Qed.
End AppendOnly.

(** ** What an include leaves in the including context *)

Lemma register_tail (l inner : loc) (path : string) (st st' : state) :
  (let* _ := add_include l path in merge_into l inner) st = (Ok tt, st') →
  ∃ c', contexts st' !! l = Some c'
        ∧ path ∈ includes (accumulators c')
        ∧ ∀ other, inner ≠ l → contexts st !! inner = Some other →
            includes (accumulators other) ⊆ includes (accumulators c')
            ∧ diagnostics (accumulators other) ⊆ diagnostics (accumulators c')
            ∧ user_rules (accumulators other) ⊆ user_rules (accumulators c').
Proof.
  unfold add_include, merge_into. run_M.
  destruct (contexts st !! l) as [c |] eqn:Hl; [| done]. simpl.
  set (c1 := with_accumulators
               (with_includes (includes (accumulators c) ∪ {[path]})
                  (accumulators c)) c).
  rewrite (lookup_insert_eq (contexts st) l). simpl.
  destruct (decide (inner = l)) as [-> | Hne].
  - rewrite (lookup_insert_eq (contexts st) l). intros [= <-]. simpl.
    eexists. split; [apply lookup_insert_eq |]. unfold merge, c1.
    rewrite !accumulators_with_accumulators. simpl. split; [set_solver | done].
  - rewrite (lookup_insert_ne (contexts st) l inner) by done.
    destruct (contexts st !! inner) as [other |] eqn:Hinner; [| done].
    intros [= <-]. simpl.
    eexists. split; [apply lookup_insert_eq |]. unfold merge, c1.
    rewrite !accumulators_with_accumulators. simpl. split; [set_solver |].
    intros other' _ [= <-]. split; [set_solver |]. split; [| set_solver].
    intros d Hd. apply elem_of_app. by right.
Qed.

Section Registers.
Context `{Host} `{GeneratedRules} `{GlobBackends} `{FileSystem}.
Variable _process_include : BuildInclude.t → bool → M (loc * loc).

(** X20. A successful [include_defs] leaves in the context that was
    current when it was called the path of the included file and what the
    context of the included file had gathered by then: its includes (the
    files it depends on itself), its diagnostics and its user rules. So
    the files an extension includes are reported for every build file
    that includes the extension, also when the extension comes from the
    cache. *)
Theorem include_defs_registers (is_implicit_include : bool) (f_globals : loc)
    (name : string) (namespace : option string) (st st' : state) (l : loc) :
  _current_build_env (self st) = Some l →
  _include_defs _process_include is_implicit_include f_globals name namespace st
    = (Ok tt, st') →
  ∃ build_include inner module st1 c',
    _resolve_include (self st) name = Ok build_include
    ∧ _process_include build_include is_implicit_include st
        = (Ok (inner, module), st1)
    ∧ contexts st' !! l = Some c'
    ∧ BuildInclude.path build_include ∈ includes (accumulators c')
    ∧ ∀ other, inner ≠ l → contexts st1 !! inner = Some other →
        includes (accumulators other) ⊆ includes (accumulators c')
        ∧ diagnostics (accumulators other) ⊆ diagnostics (accumulators c')
        ∧ user_rules (accumulators other) ⊆ user_rules (accumulators c').
Proof.
  intros Hl Hrun. unfold _include_defs in Hrun.
  apply bind_ok in Hrun as (st0 & ? & [= <- <-] & Hrun).
  apply bind_ok in Hrun as (build_include & ? & Hres & Hrun).
  unfold lift in Hres. injection Hres as Hres <-.
  apply bind_ok in Hrun as ([inner module] & st1 & Hinc & Hrun).
  apply bind_ok in Hrun as (m & st1' & Hm & Hrun).
  assert (st1' = st1) as ->.
  { unfold module_dict in Hm. cbv [bind get ret raise] in Hm.
    destruct (modules st1 !! module); by injection Hm. }
  apply bind_ok in Hrun as ([] & st2 & Hmid & Hrun).
  apply bind_ok in Hrun as (l' & st2' & Henv & Hrun).
  rewrite Hl in Henv. injection Henv as <- <-.
  assert (contexts st2 = contexts st1) as Hsame.
  { match type of Hmid with
    | ?mid st1 = _ =>
        assert (keeps (λ st, contexts st = contexts st1) mid) as Hkeeps
    end.
    { assert (∀ l d, keeps (λ st, contexts st = contexts st1) (set_module_dict l d))
        as Hset by (intros; by apply keeps_modify).
      assert (keeps (λ st, contexts st = contexts st1) alloc) as Halloc
        by (by intros ?).
      keeps_auto. }
    pose proof (Hkeeps st1 eq_refl) as Hsame. by rewrite Hmid in Hsame. }
  destruct (register_tail _ _ _ _ _ Hrun) as (c' & Hc' & Hpath & Hother).
  exists build_include, inner, module, st1, c'.
  split; [done |]. split; [done |]. split; [done |]. split; [done |].
  intros other Hne Hinner. apply Hother; [done |]. by rewrite Hsame.
Qed.
End Registers.

(** ** Configuration shared with an include *)

(** X21. The record of used configuration is shared, not copied, when a
    context is merged: once a context has merged an include's context that
    had read some section, a [read_config] of a field of that section in
    the merging context is recorded in the include's context as well. As
    include contexts stay in the cache, the field is then reported for
    every build file that includes that file later. *)
Theorem read_config_recorded_in_include (st : state) (l inner : loc)
    (c other : context) (section field : string) (default v : value) (d : loc) :
  let st1 := (merge_into l inner st).2 in
  let supplied := supplied_config (self st1) section field in
  _current_build_env (self st) = Some l →
  contexts st !! l = Some c → contexts st !! inner = Some other → inner ≠ l →
  used_configs (accumulators other) !! section = Some d →
  (if is_none supplied || is_str supplied then Ok supplied
   else encode_utf8 supplied) = Ok v →
  let st2 := (_read_config section field default st1).2 in
  recorded_config st2 l section field = Some v
  ∧ recorded_config st2 inner section field = Some v.
Proof.
  intros st1 supplied Hl Hc Hother Hne Hd Hv st2.
  assert (st1 = with_contexts (<[l := merge c other]> (contexts st)) st) as Hst1.
  { unfold st1, merge_into. run_M. by rewrite Hc, Hother. }
  assert (∃ st0, st2 = (record_config l section field v st0).2
                 ∧ contexts st0 = contexts st1 ∧ dicts st0 = dicts st1) as
    (st0 & Hst2 & Hctx & Hdicts).
  { unfold st2, _read_config. run_M.
    fold (supplied_config (self st1) section field). fold supplied.
    assert (_current_build_env (self st1) = Some l) as -> by (by rewrite Hst1).
    destruct (is_none supplied || is_str supplied) eqn:Hs.
    - injection Hv as <-.
      replace (negb (is_none supplied) && negb (is_str supplied)) with false
        by (by destruct supplied).
      exists st1. split; [| done].
      destruct (record_config l section field supplied st1) as [[[] | e] s]; try done.
      by destruct (is_none supplied).
    - replace (negb (is_none supplied) && negb (is_str supplied)) with true
        by (by destruct supplied).
      rewrite Hv.
      exists (with_self (with_configs (<[(section, field) := v]> (_configs (self st1)))
                           (self st1)) st1).
      split; [| split; reflexivity].
      match goal with
      | |- context [record_config l section field v ?s] =>
          destruct (record_config l section field v s) as [[[] | e] s']; try done
      end.
      by destruct (is_none v). }
  assert (contexts st0 !! l = Some (merge c other)) as Hl0.
  { rewrite Hctx, Hst1. simpl. apply lookup_insert_eq. }
  assert (contexts st0 !! inner = Some other) as Hinner0.
  { rewrite Hctx, Hst1. simpl. by rewrite lookup_insert_ne. }
  assert (used_configs (accumulators (merge c other)) !! section = Some d) as Hd'.
  { unfold merge. rewrite accumulators_with_accumulators. simpl.
    apply lookup_union_Some_l. exact Hd. }
  rewrite Hst2. unfold record_config. run_M. rewrite Hl0, Hd'. simpl.
  unfold recorded_config. simpl. rewrite Hl0, Hinner0. simpl. rewrite Hd', Hd. simpl.
  rewrite lookup_insert_eq. simpl. by rewrite lookup_insert_eq.
Qed.



Lemma process_rule_records_witness :
  let run :=
    @process cpython_posix sample_generated_rules (listed_files []) sample_files
      3 "/repo" None "pkg/BUCK" [] None (initial_state sample_processor) in
  ∃ b : BuildFileContext.t,
    contexts run.2 !! 2%positive = Some (BuildFile b)
    ∧ (BuildFileContext.rules b).*1 = ["lib"]
    ∧ (∃ d, run.1 =
         Ok (((snd <$> BuildFileContext.rules b) ++
              [{["__includes" := VList [VStr "pkg/BUCK"]]};
               {["__configs" := VDict ∅]}; {["__env" := VDict ∅]}])%list, d))
    ∧ NoDup (BuildFileContext.rules b).*1
    ∧ ∀ n r, (n, r) ∈ BuildFileContext.rules b →
        r !! "name" = Some (VStr n) ∧ r !! "buck.base_path" = Some (VStr "pkg").
Proof.
  intros run.
  assert (∃ v d, run = (Ok (v, d), run.2))
    as (v & d & Hrun) by (vm_compute; eexists _, _; reflexivity).
  assert (∀ l, (next_loc (initial_state sample_processor) ≤ l)%positive →
               contexts (initial_state sample_processor) !! l = None) as Hfresh
    by (intros l _; apply lookup_empty).
  destruct (@process_rule_records cpython_posix sample_generated_rules
              (listed_files []) sample_files 3 "/repo" None "pkg/BUCK" [] None
              (initial_state sample_processor) run.2 v d Hfresh Hrun)
    as (b & Hat & Hbp & Hv & Hd & Hnd & Hwf).
  change (next_loc (initial_state sample_processor)) with 2%positive in Hat.
  assert (∀ b', contexts run.2 !! 2%positive = Some (BuildFile b') →
            (BuildFileContext.rules b').*1 = ["lib"]
            ∧ includes (BuildFileContext.base b') = ∅
            ∧ used_configs (BuildFileContext.base b') = ∅
            ∧ used_env_vars (BuildFileContext.base b') = ∅) as Hcontent.
  { intros b' Hb'. vm_compute in Hb'. injection Hb' as <-.
    repeat split; vm_compute; reflexivity. }
  destruct (Hcontent b Hat) as (Hnames & Hi & Hc & He).
  exists b. split; [exact Hat |]. split; [exact Hnames |]. split.
  { exists d. rewrite Hrun. simpl. rewrite Hv, Hi, Hc, He. reflexivity. }
  split; [exact Hnd | exact Hwf].
Defined.

Lemma rules_append_only_witness :
  let st :=
    with_contexts
      {[2%positive :=
          BuildFile (BuildFileContext.with_rules
                       [("first", {["name" := VStr "first";
                                    "buck.base_path" := VStr "pkg"]})]
                       sample_build_env)]}
      sample_module_state in
  let ops :=
    [Op_invoke 2 false 1%positive None
       (Call_native_rule {["name" := VStr "lib"]});
     Op_process 3 "/repo" None "pkg/BUCK" [] None] in
  ∃ (b' : BuildFileContext.t) (added : list (string * RuleRecord)),
    contexts
      (@run_operations cpython_posix sample_generated_rules (listed_files [])
         sample_files ops st) !! 2%positive = Some (BuildFile b')
    ∧ BuildFileContext.rules b' =
        (("first", {["name" := VStr "first"; "buck.base_path" := VStr "pkg"]})
         :: added)%list
    ∧ (BuildFileContext.rules b').*1 = ["first"; "lib"].
Proof.
  intros st ops.
  assert (contexts st !! 2%positive =
            Some (BuildFile (BuildFileContext.with_rules
                    [("first", {["name" := VStr "first";
                                 "buck.base_path" := VStr "pkg"]})]
                    sample_build_env))) as Hl by (vm_compute; reflexivity).
  assert (rules_wf (BuildFileContext.with_rules
                      [("first", {["name" := VStr "first";
                                   "buck.base_path" := VStr "pkg"]})]
                      sample_build_env)) as Hwf.
  { split; simpl.
    - apply NoDup_singleton.
    - intros n r [[= -> ->] | ?%elem_of_nil]%elem_of_cons; [| done].
      split; vm_compute; reflexivity. }
  assert (∀ l, (next_loc st ≤ l)%positive → contexts st !! l = None) as Hfresh.
  { intros l Hle. change (next_loc st) with 3%positive in Hle.
    change (contexts st) with
      ({[2%positive :=
           BuildFile (BuildFileContext.with_rules
                        [("first", {["name" := VStr "first";
                                     "buck.base_path" := VStr "pkg"]})]
                        sample_build_env)]} : gmap loc context).
    apply lookup_singleton_ne. lia. }
  destruct (@rules_append_only cpython_posix sample_generated_rules
              (listed_files []) sample_files ops st 2%positive _ Hl Hwf Hfresh)
    as (b' & added & Hat & Hrules & _).
  assert (rule_names_at
            (@run_operations cpython_posix sample_generated_rules
               (listed_files []) sample_files ops st) 2%positive
          = Some ["first"; "lib"]) as Hnames by (vm_compute; reflexivity).
  unfold rule_names_at in Hnames. rewrite Hat in Hnames.
  injection Hnames as Hnames.
  exists b', added. split; [exact Hat |]. split; [exact Hrules | exact Hnames].
Defined.

Lemma include_defs_registers_witness :
  ∃ c',
    contexts
      (@_include_defs cpython_posix
         (@_process_include cpython_posix sample_generated_rules (listed_files [])
            sample_files 2)
         false 1%positive "//a.bzl" None sample_module_state).2 !! 2%positive
    = Some c'
    ∧ "/repo/a.bzl" ∈ includes (accumulators c').
Proof.
  assert (∃ s,
            @_include_defs cpython_posix
              (@_process_include cpython_posix sample_generated_rules
                 (listed_files []) sample_files 2)
              false 1%positive "//a.bzl" None sample_module_state = (Ok tt, s))
    as [s Hrun] by (vm_compute; eexists; reflexivity).
  destruct (@include_defs_registers cpython_posix _ false 1%positive "//a.bzl" None
              sample_module_state s 2%positive eq_refl Hrun)
    as (build_include & inner & module & st1 & c' & Hres & _ & Hc' & Hin & _).
  exists c'. rewrite Hrun. split; [exact Hc' |].
  vm_compute in Hres. injection Hres as <-. exact Hin.
Defined.

Lemma read_config_recorded_in_include_witness :
  recorded_config
    (_read_config "s" "f" VNone
       (merge_into 2%positive 3%positive sample_shared_state).2).2
    3%positive "s" "f" = Some (VStr "v").
Proof.
  assert (contexts sample_shared_state !! 2%positive
          = Some (BuildFile sample_build_env)) as Hc by (vm_compute; reflexivity).
  assert (contexts sample_shared_state !! 3%positive
          = Some (Include
                    (IncludeContext.with_base
                       (with_used_configs {["s" := 5%positive]} empty_accumulators)
                       (IncludeContext.__init__ "" "/repo/a.bzl" "//a.bzl"))))
    as Hother by (vm_compute; reflexivity).
  assert (used_configs
            (accumulators
               (Include
                  (IncludeContext.with_base
                     (with_used_configs {["s" := 5%positive]} empty_accumulators)
                     (IncludeContext.__init__ "" "/repo/a.bzl" "//a.bzl"))))
            !! "s" = Some 5%positive) as Hd by (vm_compute; reflexivity).
  assert ((if is_none (supplied_config
                         (self (merge_into 2%positive 3%positive
                                  sample_shared_state).2) "s" "f")
              || is_str (supplied_config
                           (self (merge_into 2%positive 3%positive
                                    sample_shared_state).2) "s" "f")
           then Ok (supplied_config
                      (self (merge_into 2%positive 3%positive
                               sample_shared_state).2) "s" "f")
           else encode_utf8
                  (supplied_config
                     (self (merge_into 2%positive 3%positive
                              sample_shared_state).2) "s" "f"))
          = Ok (VStr "v")) as Hv by (vm_compute; reflexivity).
  assert (3%positive ≠ 2%positive) as Hne by done.
  destruct (read_config_recorded_in_include sample_shared_state 2%positive
              3%positive _ _ "s" "f" VNone (VStr "v") 5%positive
              eq_refl Hc Hother Hne Hd Hv) as [_ Hshared].
  exact Hshared.
Defined.

(** ** Relative load labels *)

Lemma match_root_colon (s : string) : match_root (String ":" s) = None.
Proof. reflexivity. Qed.

(** X22. A load label [:file] names a file beside the file that is being
    evaluated: it resolves, in the cell of the current context, to the
    normalised join of the directory of the current file and [file], with
    the label built from that directory relative to the cell's root. A
    [file] with a slash is refused with the error that relative loads work
    only for files in the same directory, and nothing is changed. *)
Theorem load_relative_label `{Host} (st : state) (l : loc) (c : context)
    (target : string) :
  _current_build_env (self st) = Some l →
  contexts st !! l = Some c →
  no_newline target = true → has_char ":" target = false →
  let cell_name := context_cell_name c in
  let callee_dir := path_dirname (context_path c) in
  _get_load_path (":" +:+ target) st =
  if has_slash target then
    (Raise (ValueError
       ("Relative loads work only for files in the same directory. " +:+
        "Please use absolute label instead ([cell]//pkg[/pkg]:target).")), st)
  else
    match _get_cell_root (self st) cell_name with
    | Some cell_root =>
        (Ok {| BuildInclude.cell_name := cell_name;
               BuildInclude.label :=
                 _get_label_for_include cell_name (relpath callee_dir cell_root)
                   target;
               BuildInclude.path := normpath (path_join callee_dir target) |}, st)
    | None => (Raise (unknown_cell (self st) (":" +:+ target) cell_name), st)
    end.
Proof.
  intros Hl Hc Hn Hcolon cell_name callee_dir.
  assert (match_load_label (":" +:+ target) =
          Some {| group_root := None; group_cell := None;
                  group_package := EmptyString; group_target := target |}) as Hm.
  { unfold match_load_label.
    change (":" +:+ target) with (String ":" target). rewrite match_root_colon.
    change (String ":" target) with (EmptyString +:+ ":" +:+ target).
    by rewrite match_package_target_app. }
  unfold _get_load_path. rewrite Hm. run_M.
  cbn [group_cell group_root group_package group_target].
  rewrite Hl, Hc. cbv beta iota. fold cell_name callee_dir.
  destruct (has_slash target); [done |].
  destruct (_get_cell_root (self st) cell_name); [| done].
  by rewrite Hl, Hc.
Qed.

Lemma load_relative_label_witness :
  @_get_load_path cpython_posix ":defs.bzl" sample_running_state =
  (Ok {| BuildInclude.cell_name := EmptyString;
         BuildInclude.label := "//pkg:defs.bzl";
         BuildInclude.path := "/repo/pkg/defs.bzl" |}, sample_running_state).
Proof.
  assert (contexts sample_running_state !! 2%positive
          = Some (BuildFile sample_build_env)) as Hctx by (vm_compute; reflexivity).
  exact (@load_relative_label cpython_posix sample_running_state 2%positive
           (BuildFile sample_build_env) "defs.bzl" eq_refl Hctx eq_refl eq_refl).
Defined.

(** ** Paths from the watcher *)

Lemma map_result_to_str (results : list value) :
  forallb is_text results = true →
  map_result to_str results = Ok (as_str <$> results).
Proof.
  induction results as [| r rs IH]; [done |]. simpl.
  intros [Hr Hrs]%andb_true_iff. rewrite (IH Hrs).
  by destruct r.
Qed.

(** X23. With a watcher, and patterns to look for that are allowed where
    the build file is, a non-empty answer of the watcher made of text is
    what [glob] returns, every path as a [str]: a path that is text of the
    other type is encoded in UTF-8. The internal glob is not used, and the
    diagnostics the watcher left are those of the context afterwards. *)
Theorem glob_watcher_results `{Host} `{GlobBackends} (includes : list string)
    (excludes : option (list string)) (include_dotfiles : bool)
    (env : BuildFileContext.t) (search_base : option string) (w : loc)
    (r : value) (rs : list value) (diags : list Diagnostic) :
  BuildFileContext.watchman_client env = Some w →
  includes ≠ [] →
  (BuildFileContext.dirname env = BuildFileContext.project_root env →
   existsb is_recursive_glob includes = false) →
  glob_watchman includes (default [] excludes) include_dotfiles env
    = (Ok (Some (r :: rs)), diags) →
  forallb is_text (r :: rs) = true →
  glob (SeqList includes) (SeqList <$> excludes) include_dotfiles (BuildFile env)
    search_base
  = (Ok (as_str <$> r :: rs), BuildFile (with_diagnostics diags env))
  ∧ forallb is_str (as_str <$> r :: rs) = true.
Proof.
  intros Hw Hinc Hroot Hwatch Htext. split.
  - unfold glob.
    assert (default (SeqList []) (SeqList <$> excludes)
            = SeqList (default [] excludes)) as -> by (by destruct excludes).
    assert (String.eqb (BuildFileContext.dirname env)
              (BuildFileContext.project_root env)
            && existsb is_recursive_glob includes = false) as ->.
    { destruct (String.eqb_spec (BuildFileContext.dirname env)
                  (BuildFileContext.project_root env)); [by rewrite Hroot | done]. }
    unfold glob_results. destruct includes as [| i includes]; [done |].
    rewrite Hw, Hwatch. rewrite (map_result_to_str _ Htext).
    cbn [mbind result_bind]. cbv beta iota.
    by rewrite orb_true_r.
  - clear -Htext. induction (r :: rs) as [| x xs IH]; [done |].
    cbn [fmap list_fmap forallb] in *.
    apply andb_true_iff in Htext as [Hx Hxs].
    apply andb_true_iff. split; [by destruct x | by apply IH].
Qed.

Lemma glob_watcher_results_witness :
  @glob cpython_posix (watched_files (Some [VUnicode [233%N]; VStr "b.c"]) [])
    (SeqList ["*.c"]) None false (BuildFile sample_watched_build_env) None
  = (Ok [VStr (utf8_encode [233%N]); VStr "b.c"],
     BuildFile (with_diagnostics [] sample_watched_build_env)).
Proof.
  assert (["*.c"] ≠ ([] : list string)) as Hinc by done.
  assert (BuildFileContext.dirname sample_watched_build_env
          = BuildFileContext.project_root sample_watched_build_env →
          existsb is_recursive_glob ["*.c"] = false) as Hroot by (by intros _).
  destruct (@glob_watcher_results cpython_posix
              (watched_files (Some [VUnicode [233%N]; VStr "b.c"]) [])
              ["*.c"] None false sample_watched_build_env None 1%positive
              (VUnicode [233%N]) [VStr "b.c"] [] eq_refl Hinc Hroot eq_refl eq_refl)
    as [Hrun _].
  exact Hrun.
Defined.

(** ** Mismatched arguments *)

Lemma enumerate_loop (all : nat) (n : nat) (l : list string) (off : nat)
    (required : gset string) (acceptable : list string) :
  for_each (imap (λ i arg, (off + i, arg)) l)
    (λ '(i, arg) '(required_args, all_acceptable_args),
       n' ← (Ok n : result nat);
       Ok (if (Z.of_nat i <? Z.of_nat all - Z.of_nat n')%Z
           then required_args ∪ {[arg]} else required_args,
           (all_acceptable_args ++ [arg])%list))
    (required, acceptable)
  = Ok (required ∪ list_to_set (take (all - n - off) l), (acceptable ++ l)%list).
Proof.
  revert off required acceptable.
  induction l as [| x l IH]; intros off required acceptable.
  { simpl. rewrite take_nil, app_nil_r. f_equal. f_equal. set_solver. }
  cbn [imap for_each]. unfold mbind at 1, result_bind at 1. cbn [mbind result_bind].
  rewrite Nat.add_0_r.
  assert (imap ((λ i arg, (off + i, arg)) ∘ S) l
          = imap (λ i arg, (S off + i, arg)) l) as ->.
  { apply imap_ext. intros i y _. simpl. f_equal. lia. }
  rewrite IH. f_equal. rewrite <- app_assoc. f_equal.
  destruct (Z.ltb_spec (Z.of_nat off) (Z.of_nat all - Z.of_nat n)) as [Hlt | Hge].
  - replace (all - n - off) with (S (all - n - S off)) by lia.
    simpl. set_solver.
  - replace (all - n - off) with 0 by lia.
    replace (all - n - S off) with 0 by lia. simpl. set_solver.
Qed.

Lemma list_remove_filter (k : string) (l : list string) :
  k ∈ l → NoDup l →
  list_remove k l = Ok (List.filter (λ x, negb (String.eqb x k)) l).
Proof.
  induction l as [| x l IH]; [by intros ?%elem_of_nil |].
  intros Hin [Hx Hnd]%NoDup_cons. simpl.
  destruct (String.eqb_spec x k) as [-> | Hne]; simpl.
  - f_equal. symmetry. clear -Hx. induction l as [| y l IH]; [done |].
    apply not_elem_of_cons in Hx as [Hne Hx]. simpl.
    destruct (String.eqb_spec y k) as [-> | _]; [done |]. simpl. f_equal. by apply IH.
  - apply elem_of_cons in Hin as [-> | Hin]; [done |].
    by rewrite (IH Hin Hnd).
Qed.

Lemma filter_In_elem (f : string → bool) (l : list string) (x : string) :
  x ∈ List.filter f l ↔ x ∈ l ∧ f x = true.
Proof. rewrite !list_elem_of_In. apply filter_In. Qed.

Lemma NoDup_List_filter (f : string → bool) (l : list string) :
  NoDup l → NoDup (List.filter f l).
Proof.
  induction l as [| x l IH]; [done |]. intros [Hx Hnd]%NoDup_cons. simpl.
  destruct (f x); [| by apply IH].
  apply NoDup_cons. split; [| by apply IH].
  intros [? _]%filter_In_elem. done.
Qed.

Lemma remove_loop (ks l : list string) :
  NoDup l → NoDup ks → (∀ k, k ∈ ks → k ∈ l) →
  for_each ks (λ k all_acceptable_args, list_remove k all_acceptable_args) l
  = Ok (List.filter (λ x, bool_decide (x ∉ ks)) l).
Proof.
  revert l. induction ks as [| k ks IH]; intros l Hl Hks Hsub.
  { simpl. f_equal. symmetry. clear. induction l as [| x l IH]; [done |].
    simpl. by f_equal. }
  apply NoDup_cons in Hks as [Hk Hks]. cbn [for_each].
  rewrite list_remove_filter by (apply Hsub; by left) || done.
  cbn [mbind result_bind]. rewrite IH.
  - f_equal. clear. induction l as [| x l IH]; [done |]. simpl.
    destruct (String.eqb_spec x k) as [-> | Hne]; simpl.
    + rewrite (bool_decide_eq_false_2 (k ∉ k :: ks)) by (intros Hx; apply Hx; by left).
      exact IH.
    + destruct (decide (x ∈ ks)) as [Hin | Hout].
      * rewrite !bool_decide_eq_false_2; [exact IH | |]; intros Hx; apply Hx;
          [by right | done].
      * rewrite !bool_decide_eq_true_2; [by f_equal | | done].
        by intros [? | ?]%elem_of_cons.
  - by apply NoDup_List_filter.
  - done.
  - intros k' Hk'. apply filter_In_elem. split; [apply Hsub; by right |].
    apply negb_true_iff, String.eqb_neq. by intros ->.
Qed.

(** X24. [get_mismatched_args] for a function whose parameters are distinct
    names, the last of them with defaults: the extra keywords are the
    keywords that are no parameter of the function, in sorted order; the
    missing arguments are, in the order of the signature, the parameters
    without default that were not passed by keyword and are not among the
    first parameters not passed by keyword, as many as there are
    positional arguments. *)
Theorem get_mismatched_args_reports (argspec : inspect.ArgSpec)
    (actual_args : list value) (actual_kwargs : gmap string value)
    (d : list value) :
  inspect.defaults argspec = Some d →
  (List.length d ≤ List.length (inspect.args argspec))%nat →
  NoDup (inspect.args argspec) →
  let params := inspect.args argspec in
  let without_default := take (List.length params - List.length d) params in
  let not_by_keyword :=
    List.filter (λ x, bool_decide (x ∉ dom actual_kwargs)) params in
  get_mismatched_args argspec actual_args actual_kwargs =
  Ok (List.filter (λ x, bool_decide (x ∈ without_default))
        (drop (List.length actual_args) not_by_keyword),
      sorted (elements (dom actual_kwargs ∖ list_to_set params))).
Proof.
  intros Hd Hlen Hnd params without_default not_by_keyword.
  unfold get_mismatched_args. rewrite Hd. fold params.
  pose proof (enumerate_loop (List.length params) (List.length d) params 0 ∅ [])
    as Hloop.
  cbn [Nat.add] in Hloop. rewrite Nat.sub_0_r in Hloop.
  rewrite Hloop. clear Hloop. cbn [mbind result_bind app]. cbv beta iota.
  fold without_default.
  rewrite remove_loop; [| done | apply NoDup_elements |].
  2:{ intros k Hk%elem_of_elements. apply elem_of_difference in Hk as [Hk Hout].
      destruct (decide (k ∈ params)) as [? | Hno]; [done |].
      destruct Hout. apply elem_of_difference. split; [done |].
      by rewrite elem_of_list_to_set. }
  cbn [mbind result_bind]. f_equal. f_equal.
  - assert (List.filter
              (λ x, bool_decide
                 (x ∉ elements (dom actual_kwargs ∖
                                  (dom actual_kwargs ∖ list_to_set params)))) params
            = not_by_keyword) as ->.
    { unfold not_by_keyword. apply filter_ext_in. intros x Hx%list_elem_of_In.
      apply bool_decide_ext. rewrite elem_of_elements, !elem_of_difference,
        elem_of_list_to_set. split.
      - intros Hno Hin. apply Hno. split; [done |]. by intros [_ ?].
      - intros Hno [Hin _]. done. }
    apply filter_ext. intros x. apply bool_decide_ext.
    rewrite elem_of_union, elem_of_list_to_set. split; [| auto].
    by intros [?%elem_of_empty | ?].
Qed.

Lemma get_mismatched_args_reports_witness :
  get_mismatched_args sample_argspec []
    {["name" := VStr "lib"; "bogus" := VInt 1; "build_env" := VNone]}
  = Ok (["srcs"], ["bogus"]).
Proof.
  assert (NoDup (inspect.args sample_argspec)) as Hnd.
  { apply NoDup_ListNoDup. repeat constructor; simpl; intuition discriminate. }
  assert (List.length [VNone; VNone] ≤ List.length (inspect.args sample_argspec))%nat
    as Hlen by (simpl; lia).
  pose proof (get_mismatched_args_reports sample_argspec []
                {["name" := VStr "lib"; "bogus" := VInt 1; "build_env" := VNone]}
                [VNone; VNone] eq_refl Hlen Hnd) as Hrun.
  cbv zeta in Hrun. rewrite Hrun. vm_compute. reflexivity.
Defined.
